(** * The backtesting engine of [src/backtesting.py]

    A shallow embedding of [BacktestingEngine] (the methods [execute_trade],
    [calculate_portfolio_value], [check_risk_management] and [run_backtest])
    together with the properties of its execution, risk and orchestration
    logic.  The drawdown loop of [plot_results] and the de-duplication of
    [combined_strategy] (src/trading_algorithms.py) are embedded as well.

    Modelling conventions.
    - Python [int] is [Z].  Python/numpy [float] is modelled by the exact
      rationals [Qc]: rounding, infinities and NaN are outside the model, and
      so is a division by zero (numpy yields inf/nan there, [Qc] yields 0).
    - A [dict] is a [gmap]; [d[k]] on a missing key raises [KeyError], which
      is an explicit outcome here.
    - A method of the engine is a function from the engine state to an
      outcome and the state left behind; the state left behind by a raise is
      the state at the moment of the raise, as in Python.
    - Dates (pandas timestamps) are integers. *)

From Stdlib Require Import QArith Qcanon.
From stdpp Require Import base strings gmap sorting numbers list.

Local Open Scope Qc_scope.

(** ** Python values, errors, outcomes *)

Inductive PyVal : Type :=
| VDate (d : Z)
| VStr (s : string)
| VInt (n : Z)
| VFloat (x : Qc).

Inductive PyError : Type :=
| KeyError (key : PyVal)
| IndexError
| TypeError.

Inductive Outcome (A : Type) : Type :=
| Returned (a : A)
| Raised (e : PyError).
Arguments Returned {A} a.
Arguments Raised {A} e.

Definition is_raised {A} (o : Outcome A) : Prop :=
  match o with Raised _ => True | Returned _ => False end.

#[global] Instance Outcome_ret : MRet Outcome := fun A a => Returned a.
#[global] Instance Outcome_bind : MBind Outcome := fun A B k m =>
  match m with
  | Returned a => k a
  | Raised e => Raised e
  end.

(** [d[k]]: the value, or [KeyError k]. *)
Definition getitem {V} (d : gmap string V) (k : string) : Outcome V :=
  match d !! k with
  | Some v => Returned v
  | None => Raised (KeyError (VStr k))
  end.

(** ** Data model *)

(** A trade intent: the dict a strategy or the risk manager emits.  The engine
    reads the keys 'symbol', 'action' and 'quantity'; any of them can be
    absent from a dict. *)
Record Signal : Type := mkSignal {
  sig_symbol : option string;
  sig_action : option string;
  sig_quantity : option Z;
  sig_reason : option string
}.

(** An entry of [portfolio_values]. *)
Record Snapshot : Type := mkSnapshot {
  snap_date : Z;
  snap_portfolio_value : Qc;
  snap_cash : Qc;
  snap_positions : gmap string Z
}.

(** The attributes of a [BacktestingEngine] instance.  A trade record (an
    entry of [trade_history]) is a dict from field name to value. *)
Record Engine : Type := mkEngine {
  initial_capital : Qc;
  current_capital : Qc;
  positions : gmap string Z;
  trade_history : list (gmap string PyVal);
  portfolio_values : list Snapshot;
  transaction_cost : Qc;
  slippage : Qc;
  stop_loss : Qc;
  take_profit : Qc;
  position_entry_prices : gmap string Qc
}.

(** [__init__] *)
Definition BacktestingEngine
    (initial_capital transaction_cost slippage stop_loss take_profit : Qc)
    : Engine :=
  {| initial_capital := initial_capital;
     current_capital := initial_capital;
     positions := {[ "1579.T" := 0%Z; "1360.T" := 0%Z ]};
     trade_history := [];
     portfolio_values := [];
     transaction_cost := transaction_cost;
     slippage := slippage;
     stop_loss := stop_loss;
     take_profit := take_profit;
     position_entry_prices := ∅ |}.

(** Attribute assignments. *)
Definition set_current_capital (c : Qc) (self : Engine) : Engine :=
  {| initial_capital := initial_capital self;
     current_capital := c;
     positions := positions self;
     trade_history := trade_history self;
     portfolio_values := portfolio_values self;
     transaction_cost := transaction_cost self;
     slippage := slippage self;
     stop_loss := stop_loss self;
     take_profit := take_profit self;
     position_entry_prices := position_entry_prices self |}.

Definition set_positions (p : gmap string Z) (self : Engine) : Engine :=
  {| initial_capital := initial_capital self;
     current_capital := current_capital self;
     positions := p;
     trade_history := trade_history self;
     portfolio_values := portfolio_values self;
     transaction_cost := transaction_cost self;
     slippage := slippage self;
     stop_loss := stop_loss self;
     take_profit := take_profit self;
     position_entry_prices := position_entry_prices self |}.

Definition set_trade_history (h : list (gmap string PyVal)) (self : Engine)
    : Engine :=
  {| initial_capital := initial_capital self;
     current_capital := current_capital self;
     positions := positions self;
     trade_history := h;
     portfolio_values := portfolio_values self;
     transaction_cost := transaction_cost self;
     slippage := slippage self;
     stop_loss := stop_loss self;
     take_profit := take_profit self;
     position_entry_prices := position_entry_prices self |}.

Definition set_portfolio_values (v : list Snapshot) (self : Engine) : Engine :=
  {| initial_capital := initial_capital self;
     current_capital := current_capital self;
     positions := positions self;
     trade_history := trade_history self;
     portfolio_values := v;
     transaction_cost := transaction_cost self;
     slippage := slippage self;
     stop_loss := stop_loss self;
     take_profit := take_profit self;
     position_entry_prices := position_entry_prices self |}.

Definition set_position_entry_prices (e : gmap string Qc) (self : Engine)
    : Engine :=
  {| initial_capital := initial_capital self;
     current_capital := current_capital self;
     positions := positions self;
     trade_history := trade_history self;
     portfolio_values := portfolio_values self;
     transaction_cost := transaction_cost self;
     slippage := slippage self;
     stop_loss := stop_loss self;
     take_profit := take_profit self;
     position_entry_prices := e |}.

(** ** Methods as state transformers *)

Definition Py (A : Type) : Type := Engine -> Outcome A * Engine.

#[global] Instance Py_ret : MRet Py := fun A a self => (Returned a, self).
#[global] Instance Py_bind : MBind Py := fun A B k m self =>
  match m self with
  | (Returned a, self') => k a self'
  | (Raised e, self') => (Raised e, self')
  end.

(** An expression that may raise but does not touch the engine. *)
Definition lift {A} (o : Outcome A) : Py A := fun self => (o, self).

(** [for x in l: body(x)] *)
Fixpoint for_each {A} (body : A -> Py unit) (l : list A) : Py unit :=
  match l with
  | [] => mret tt
  | x :: l' => body x ;; for_each body l'
  end.

(** ** [execute_trade] *)

(** The dict appended by the BUY branch. *)
Definition buy_record (date : Z) (symbol action : string) (quantity : Z)
    (execution_price total_cost transaction_fee slippage_cost : Qc)
    : gmap string PyVal :=
  {[ "date" := VDate date;
     "symbol" := VStr symbol;
     "action" := VStr action;
     "quantity" := VInt quantity;
     "price" := VFloat execution_price;
     "cost" := VFloat total_cost;
     "transaction_fee" := VFloat transaction_fee;
     "slippage_cost" := VFloat slippage_cost ]}.

(** The dict appended by the SELL branch. *)
Definition sell_record (date : Z) (symbol action : string) (quantity : Z)
    (execution_price net_revenue transaction_fee slippage_cost : Qc)
    : gmap string PyVal :=
  {[ "date" := VDate date;
     "symbol" := VStr symbol;
     "action" := VStr action;
     "quantity" := VInt quantity;
     "price" := VFloat execution_price;
     "revenue" := VFloat net_revenue;
     "transaction_fee" := VFloat transaction_fee;
     "slippage_cost" := VFloat slippage_cost ]}.

(** "Apply slippage": the first statement of [execute_trade]. *)
Definition slippage_price (self : Engine) (action : string) (price : Qc) : Qc :=
  if bool_decide (action = "BUY")
  then price * (1 + slippage self)
  else price * (1 - slippage self).

Definition execute_trade (symbol action : string) (quantity : Z) (price : Qc)
    (date : Z) : Py unit := fun self =>
  let execution_price := slippage_price self action price in
  if bool_decide (action = "BUY") then
    let gross_cost := Qc_of_Z quantity * execution_price in
    let transaction_fee := gross_cost * transaction_cost self in
    let total_cost := gross_cost + transaction_fee in
    if bool_decide (total_cost <= current_capital self) then
      let self1 :=
        set_current_capital (current_capital self - total_cost) self in
      match positions self1 !! symbol with
      | None => (Raised (KeyError (VStr symbol)), self1)
      | Some held =>
        let self2 :=
          set_positions (<[symbol := (held + quantity)%Z]> (positions self1))
            self1 in
        let self3 :=
          if bool_decide (position_entry_prices self2 !! symbol = None)
             || bool_decide (positions self2 !! symbol = Some quantity)
          then set_position_entry_prices
                 (<[symbol := execution_price]> (position_entry_prices self2))
                 self2
          else self2 in
        (Returned tt,
         set_trade_history
           (trade_history self3 ++
              [buy_record date symbol action quantity execution_price
                 total_cost transaction_fee
                 (Qc_of_Z quantity * price * slippage self3)])
           self3)
      end
    else (Returned tt, self)
  else if bool_decide (action = "SELL") then
    match positions self !! symbol with
    | None => (Raised (KeyError (VStr symbol)), self)
    | Some held =>
      if bool_decide (quantity <= held)%Z then
        let gross_revenue := Qc_of_Z quantity * execution_price in
        let transaction_fee := gross_revenue * transaction_cost self in
        let net_revenue := gross_revenue - transaction_fee in
        let self1 :=
          set_current_capital (current_capital self + net_revenue) self in
        let self2 :=
          set_positions (<[symbol := (held - quantity)%Z]> (positions self1))
            self1 in
        (Returned tt,
         set_trade_history
           (trade_history self2 ++
              [sell_record date symbol action quantity execution_price
                 net_revenue transaction_fee
                 (Qc_of_Z quantity * price * slippage self2)])
           self2)
      else (Returned tt, self)
    end
  else (Returned tt, self).

(** ** [calculate_portfolio_value] *)

Definition calculate_portfolio_value (current_prices : gmap string Qc)
    (self : Engine) : Qc :=
  map_fold
    (fun symbol quantity portfolio_value =>
       match current_prices !! symbol with
       | Some price => portfolio_value + Qc_of_Z quantity * price
       | None => portfolio_value
       end)
    (current_capital self) (positions self).

(** ** [check_risk_management]

    The percentage printed in the 'reason' text is not modelled. *)

Definition check_risk_management (symbol : string) (current_price : Qc)
    (date : Z) (self : Engine) : list Signal :=
  match positions self !! symbol with
  | None => []
  | Some held =>
    if bool_decide (0 < held)%Z then
      match position_entry_prices self !! symbol with
      | None => []
      | Some entry_price =>
        let current_return := (current_price - entry_price) / entry_price in
        if bool_decide (current_return <= - stop_loss self) then
          [ {| sig_symbol := Some symbol;
               sig_action := Some "SELL";
               sig_quantity := Some held;
               sig_reason := Some "Stop-loss triggered" |} ]
        else if bool_decide (take_profit self <= current_return) then
          [ {| sig_symbol := Some symbol;
               sig_action := Some "SELL";
               sig_quantity := Some held;
               sig_reason := Some "Take-profit triggered" |} ]
        else []
      end
    else []
  end.

(** ** [run_backtest] *)

(** The call [self.execute_trade(symbol=signal['symbol'], ...)] of the two
    signal loops: the four subscripts are evaluated in order before the call. *)
Definition execute_signal (current_prices : gmap string Qc) (date : Z)
    (signal : Signal) : Py unit :=
  symbol ← lift (match sig_symbol signal with
                 | Some v => Returned v
                 | None => Raised (KeyError (VStr "symbol"))
                 end);
  action ← lift (match sig_action signal with
                 | Some v => Returned v
                 | None => Raised (KeyError (VStr "action"))
                 end);
  quantity ← lift (match sig_quantity signal with
                   | Some v => Returned v
                   | None => Raised (KeyError (VStr "quantity"))
                   end);
  price ← lift (getitem current_prices symbol);
  execute_trade symbol action quantity price date.

(** [risk_signals.extend(self.check_risk_management(...))] over [symbols]. *)
Fixpoint collect_risk_signals (current_prices : gmap string Qc) (date : Z)
    (symbols : list string) (self : Engine) : Outcome (list Signal) :=
  match symbols with
  | [] => Returned []
  | symbol :: rest =>
    price ← getitem current_prices symbol;
    more ← collect_risk_signals current_prices date rest self;
    mret (check_risk_management symbol price date self ++ more)
  end.

(** The snapshot appended at the end of a bar. *)
Definition record_portfolio_value (current_prices : gmap string Qc) (date : Z)
    : Py unit := fun self =>
  (Returned tt,
   set_portfolio_values
     (portfolio_values self ++
        [ {| snap_date := date;
             snap_portfolio_value :=
               calculate_portfolio_value current_prices self;
             snap_cash := current_capital self;
             snap_positions := positions self |} ])
     self).

(** [{k: f(k) for k in keys}] where [f] may raise. *)
Fixpoint dict_comprehension {V} (f : string -> Outcome V) (keys : list string)
    (acc : gmap string V) : Outcome (gmap string V) :=
  match keys with
  | [] => Returned acc
  | k :: keys' => v ← f k; dict_comprehension f keys' (<[k := v]> acc)
  end.

(** A data frame: a date index (unique labels, as yfinance returns them) and,
    for each date, the row of column values. *)
Abbreviation DataFrame := (gmap Z (gmap string Qc)).

(** [df.loc[:date]] *)
Definition loc_upto (df : DataFrame) (date : Z) : DataFrame :=
  filter (fun row => (row.1 <= date)%Z) df.

(** [df.loc[date, column]] *)
Definition loc_at (df : DataFrame) (date : Z) (column : string) : Outcome Qc :=
  match df !! date with
  | None => Raised (KeyError (VDate date))
  | Some row => getitem row column
  end.

(** The result dict of [run_backtest]. *)
Record BacktestResult : Type := mkResult {
  res_initial_capital : Qc;
  res_final_value : Qc;
  res_total_return : Qc;
  res_max_drawdown : Qc;
  res_trade_history : list (gmap string PyVal);
  res_portfolio_values : list Snapshot;
  res_total_trades : nat
}.

(** The drawdown loop: the state is (peak, max_drawdown). *)
Definition drawdown_step (acc : Qc * Qc) (value : Qc) : Qc * Qc :=
  let peak := if bool_decide (acc.1 < value) then value else acc.1 in
  let drawdown := (peak - value) / peak * Qc_of_Z 100 in
  (peak, if bool_decide (acc.2 < drawdown) then drawdown else acc.2).

(** The intersection of the index sets of the frames in [data.values()],
    sorted.  Called with no set at all, [set.intersection] raises
    [TypeError]. *)
Definition common_dates (data : gmap string DataFrame) : Outcome (list Z) :=
  match (fun kv : string * DataFrame => dom kv.2) <$> map_to_list data with
  | [] => Raised TypeError
  | X :: Xs => Returned (merge_sort Z.le (elements (foldl (∩) X Xs)))
  end.

(** The state assignments under "Initialize tracking". *)
Definition initialize_tracking (symbols : list string) (self : Engine)
    : Engine :=
  set_portfolio_values []
    (set_trade_history []
       (set_positions
          (foldl (fun d symbol => <[symbol := 0%Z]> d) ∅ symbols)
          (set_current_capital (initial_capital self) self))).

(** The code after the loop: performance metrics and the result dict. *)
Definition performance_metrics : Py BacktestResult := fun self =>
  match last (portfolio_values self) with
  | None => (Raised IndexError, self)
  | Some final_snapshot =>
    let final_value := snap_portfolio_value final_snapshot in
    let total_return :=
      (final_value - initial_capital self) / initial_capital self
      * Qc_of_Z 100 in
    let values := snap_portfolio_value <$> portfolio_values self in
    match head values with
    | None => (Raised IndexError, self)
    | Some peak =>
      (Returned
         {| res_initial_capital := initial_capital self;
            res_final_value := final_value;
            res_total_return := total_return;
            res_max_drawdown := (foldl drawdown_step (peak, 0) values).2;
            res_trade_history := trade_history self;
            res_portfolio_values := portfolio_values self;
            res_total_trades := length (trade_history self) |},
       self)
    end
  end.

Section Run.

(** [yf.Ticker(symbol).history(start=start_date, end=end_date)], the
    external price source, for the run's date range. *)
Variable history : string -> DataFrame.

(** The indicator calculator.  It adds columns to a frame (and fills
    missing values); the only thing the orchestration relies on is that
    the date index is the one it was given. *)
Variable calculate_technical_indicators : DataFrame -> DataFrame.
Hypothesis indicators_keep_index :
  forall df, dom (calculate_technical_indicators df) = dom df.

(** The strategy, with its [**algorithm_params] applied.  It may raise. *)
Variable trading_algorithm :
  gmap string DataFrame -> gmap string Qc -> Outcome (list Signal).

Definition get_historical_data (symbols : list string)
    : gmap string DataFrame :=
  foldl (fun data symbol => <[symbol := history symbol]> data) ∅ symbols.

(** [for symbol in symbols: data[symbol] = calculate(...data[symbol])];
    every symbol is a key of [data] at that point. *)
Definition with_indicators (symbols : list string)
    (data : gmap string DataFrame) : gmap string DataFrame :=
  foldl (fun data symbol => alter calculate_technical_indicators symbol data)
    data symbols.

Definition current_data_at (data : gmap string DataFrame)
    (symbols : list string) (date : Z) : Outcome (gmap string DataFrame) :=
  dict_comprehension
    (fun symbol => df ← getitem data symbol; mret (loc_upto df date))
    symbols ∅.

Definition current_prices_at (data : gmap string DataFrame)
    (symbols : list string) (date : Z) : Outcome (gmap string Qc) :=
  dict_comprehension
    (fun symbol => df ← getitem data symbol; loc_at df date "Close")
    symbols ∅.

(** The body of [for date in common_dates]. *)
Definition backtest_step (data : gmap string DataFrame)
    (symbols : list string) (date : Z) : Py unit :=
  current_data ← lift (current_data_at data symbols date);
  current_prices ← lift (current_prices_at data symbols date);
  signals ← lift (trading_algorithm current_data current_prices);
  risk_signals ←
    (fun self =>
       (collect_risk_signals current_prices date symbols self, self));
  for_each (execute_signal current_prices date) risk_signals ;;
  for_each (execute_signal current_prices date) signals ;;
  record_portfolio_value current_prices date.

Definition run_backtest (symbols : list string) : Py BacktestResult :=
  let data := with_indicators symbols (get_historical_data symbols) in
  dates ← lift (common_dates data);
  (fun self => (Returned tt, initialize_tracking symbols self)) ;;
  for_each (backtest_step data symbols) dates ;;
  performance_metrics.

End Run.

(** * Predicates used in the statements, and sample inputs *)

(** What a BUY costs: quantity x execution price x (1 + fee fraction). *)
Definition buy_total_cost (self : Engine) (quantity : Z) (price : Qc) : Qc :=
  Qc_of_Z quantity * slippage_price self "BUY" price
  * (1 + transaction_cost self).

(** An order the engine cannot fill: a BUY dearer than the cash at hand, or
    a SELL of more than the [held] position. *)
Definition infeasible (self : Engine) (action : string) (quantity : Z)
    (price : Qc) (held : Z) : Prop :=
  (action = "BUY" /\ current_capital self < buy_total_cost self quantity price)
  \/ (action = "SELL" /\ (held < quantity)%Z).

(** A call was accepted: it returned and appended exactly [record]. *)
Definition accepted (self : Engine) (result : Outcome unit * Engine)
    (record : gmap string PyVal) : Prop :=
  result.1 = Returned tt
  /\ trade_history result.2 = trade_history self ++ [record].

(** The engine with the default arguments of [__init__]. *)
Definition default_engine : Engine :=
  BacktestingEngine (Qc_of_Z 1000000) (Q2Qc 0.002) (Q2Qc 0.001)
    (Q2Qc 0.05) (Q2Qc 0.15).

(** The engine as the range-bound callers configure it (app.py,
    test/test_range_bound_strategy.py): [stop_loss=0.0, take_profit=0.0]. *)
Definition range_bound_engine : Engine :=
  BacktestingEngine (Qc_of_Z 1000000) (Q2Qc 0.002) (Q2Qc 0.001) 0 0.




(** A BUY of 10 at 100 on the default engine, and the record it appends. *)
Definition sample_buy : Outcome unit * Engine :=
  execute_trade "1579.T" "BUY" 10 (Qc_of_Z 100) 20240105 default_engine.

Definition sample_buy_record : gmap string PyVal :=
  let execution_price := Qc_of_Z 100 * (1 + Q2Qc 0.001) in
  let gross_cost := Qc_of_Z 10 * execution_price in
  let transaction_fee := gross_cost * Q2Qc 0.002 in
  buy_record 20240105 "1579.T" "BUY" 10 execution_price
    (gross_cost + transaction_fee) transaction_fee
    (Qc_of_Z 10 * Qc_of_Z 100 * Q2Qc 0.001).

(** Selling those 10 a day later at 110. *)
Definition sample_sell : Outcome unit * Engine :=
  execute_trade "1579.T" "SELL" 10 (Qc_of_Z 110) 20240106 sample_buy.2.

Definition sample_sell_record : gmap string PyVal :=
  let execution_price := Qc_of_Z 110 * (1 - Q2Qc 0.001) in
  let gross_revenue := Qc_of_Z 10 * execution_price in
  let transaction_fee := gross_revenue * Q2Qc 0.002 in
  sell_record 20240106 "1579.T" "SELL" 10 execution_price
    (gross_revenue - transaction_fee) transaction_fee
    (Qc_of_Z 10 * Qc_of_Z 110 * Q2Qc 0.001).

(** A SELL of -5 on the default engine (it is accepted and leaves a position
    of 5 without an entry price), followed by a BUY of 3. *)
Definition negative_sell : Outcome unit * Engine :=
  execute_trade "1579.T" "SELL" (-5) (Qc_of_Z 100) 20240105 default_engine.

Definition buy_after_negative_sell : Outcome unit * Engine :=
  execute_trade "1579.T" "BUY" 3 (Qc_of_Z 100) 20240106 negative_sell.2.

Definition sample_follow_up_record : gmap string PyVal :=
  let execution_price := Qc_of_Z 100 * (1 + Q2Qc 0.001) in
  let gross_cost := Qc_of_Z 3 * execution_price in
  let transaction_fee := gross_cost * Q2Qc 0.002 in
  buy_record 20240106 "1579.T" "BUY" 3 execution_price
    (gross_cost + transaction_fee) transaction_fee
    (Qc_of_Z 3 * Qc_of_Z 100 * Q2Qc 0.001).

(** The range-bound engine after a BUY of 10 at 100. *)
Definition range_bound_long : Engine :=
  (execute_trade "1579.T" "BUY" 10 (Qc_of_Z 100) 20240105
     range_bound_engine).2.

(** No instrument is held short. *)
Definition positions_nonneg (p : gmap string Z) : Prop :=
  map_Forall (fun _ quantity => (0 <= quantity)%Z) p.

(** The engine holds nothing short and has recorded no short snapshot. *)
Definition no_short (self : Engine) : Prop :=
  positions_nonneg (positions self)
  /\ Forall (fun snap => positions_nonneg (snap_positions snap))
       (portfolio_values self).

(** An intent whose quantity, when it has one, is positive. *)
Definition positive_quantity (signal : Signal) : Prop :=
  forall quantity, sig_quantity signal = Some quantity -> (0 < quantity)%Z.

(** The first of the keys 'symbol', 'action', 'quantity' missing from an
    intent, in the order in which the engine reads them. *)
Definition missing_field (signal : Signal) : option string :=
  match sig_symbol signal, sig_action signal, sig_quantity signal with
  | None, _, _ => Some "symbol"
  | Some _, None, _ => Some "action"
  | Some _, Some _, None => Some "quantity"
  | Some _, Some _, Some _ => None
  end.

(** The date is available for every one of the [symbols]: it lies in the
    intersection of their date sets. *)
Definition in_every_history (history : string -> DataFrame)
    (symbols : list string) (date : Z) : Prop :=
  forall symbol, symbol ∈ symbols -> date ∈ dom (history symbol).

(** [data] has a frame exactly for the [symbols], each with the date index
    of the instrument's history. *)
Definition frames_of (history : string -> DataFrame) (symbols : list string)
    (data : gmap string DataFrame) : Prop :=
  forall symbol,
    (symbol ∈ symbols ->
     exists df, data !! symbol = Some df /\ dom df = dom (history symbol))
    /\ (symbol ∉ symbols -> data !! symbol = None).

(** The dates of the recorded snapshots, in recording order. *)
Definition snapshot_dates (snapshots : list Snapshot) : list Z :=
  snap_date <$> snapshots.

(** Sample price histories: one bar is a row with a Close column. *)
Definition bar (close : Z) : gmap string Qc := {[ "Close" := Qc_of_Z close ]}.

Definition sample_history (symbol : string) : DataFrame :=
  if bool_decide (symbol = "1579.T") then
    {[ 20240104%Z := bar 100; 20240105%Z := bar 101; 20240109%Z := bar 99 ]}
  else if bool_decide (symbol = "1360.T") then
    {[ 20240105%Z := bar 50; 20240104%Z := bar 51; 20240110%Z := bar 52 ]}
  else ∅.

(** The same, but nothing at all comes back for 1360.T. *)
Definition gap_history (symbol : string) : DataFrame :=
  if bool_decide (symbol = "1579.T") then sample_history symbol else ∅.

(** Sample strategies: each emits one intent on every bar. *)
Definition always (signal : Signal)
    (current_data : gmap string DataFrame) (current_prices : gmap string Qc)
    : Outcome (list Signal) :=
  Returned [signal].

Definition buy_ten : Signal :=
  {| sig_symbol := Some "1579.T"; sig_action := Some "BUY";
     sig_quantity := Some 10%Z; sig_reason := Some "sample" |}.

Definition buy_minus_five : Signal :=
  {| sig_symbol := Some "1579.T"; sig_action := Some "BUY";
     sig_quantity := Some (-5)%Z; sig_reason := Some "sample" |}.

Definition buy_without_quantity : Signal :=
  {| sig_symbol := Some "1579.T"; sig_action := Some "BUY";
     sig_quantity := None; sig_reason := Some "sample" |}.

Definition both_symbols : list string := ["1579.T"; "1360.T"].

(** A sample indicator calculator: it adds one column to every row. *)
Definition sample_indicators (df : DataFrame) : DataFrame :=
  (fun row : gmap string Qc =>
     <["SMA_20" := default 0 (row !! "Close")]> row) <$> df.

(** Sample runs on the two instruments, from the default engine. *)
Definition sample_run (history : string -> DataFrame) (signal : Signal)
    : Outcome BacktestResult * Engine :=
  run_backtest history sample_indicators (always signal) both_symbols
    default_engine.

(** The engine an accepted BUY leaves behind, spelled out ([held] is the
    position before the trade). *)
Definition engine_after_buy (self : Engine) (symbol : string) (quantity : Z)
    (price : Qc) (date held : Z) : Engine :=
  let execution_price := price * (1 + slippage self) in
  let gross_cost := Qc_of_Z quantity * execution_price in
  let transaction_fee := gross_cost * transaction_cost self in
  let total_cost := gross_cost + transaction_fee in
  set_trade_history
    (trade_history self ++
       [buy_record date symbol "BUY" quantity execution_price total_cost
          transaction_fee (Qc_of_Z quantity * price * slippage self)])
    (set_position_entry_prices
       (if bool_decide (position_entry_prices self !! symbol = None)
           || bool_decide (held = 0%Z)
        then <[symbol := execution_price]> (position_entry_prices self)
        else position_entry_prices self)
       (set_positions (<[symbol := (held + quantity)%Z]> (positions self))
          (set_current_capital (current_capital self - total_cost) self))).

(** The engine an accepted SELL leaves behind. *)
Definition engine_after_sell (self : Engine) (symbol : string) (quantity : Z)
    (price : Qc) (date held : Z) : Engine :=
  let execution_price := price * (1 - slippage self) in
  let gross_revenue := Qc_of_Z quantity * execution_price in
  let transaction_fee := gross_revenue * transaction_cost self in
  let net_revenue := gross_revenue - transaction_fee in
  set_trade_history
    (trade_history self ++
       [sell_record date symbol "SELL" quantity execution_price net_revenue
          transaction_fee (Qc_of_Z quantity * price * slippage self)])
    (set_positions (<[symbol := (held - quantity)%Z]> (positions self))
       (set_current_capital (current_capital self + net_revenue) self)).

(** ** Notions used in the further properties *)

(** The loop body of [calculate_portfolio_value]. *)
Definition add_position_value (current_prices : gmap string Qc)
    (symbol : string) (quantity : Z) (portfolio_value : Qc) : Qc :=
  match current_prices !! symbol with
  | Some price => portfolio_value + Qc_of_Z quantity * price
  | None => portfolio_value
  end.

(** The cash a trade record stands for: minus its 'cost' (a BUY record) or
    plus its 'revenue' (a SELL record). *)
Definition record_cash_flow (record : gmap string PyVal) : Qc :=
  match record !! "cost", record !! "revenue" with
  | Some (VFloat cost), _ => - cost
  | _, Some (VFloat revenue) => revenue
  | _, _ => 0
  end.

Definition log_cash_flow (log : list (gmap string PyVal)) : Qc :=
  foldr (fun record total => record_cash_flow record + total) 0 log.

(** The cash is the [capital] the run started with plus the flows of the
    trade log. *)
Definition reconciled (capital : Qc) (self : Engine) : Prop :=
  current_capital self = capital + log_cash_flow (trade_history self).

(** Every one of the [symbols] has a position entry. *)
Definition tracks (symbols : list string) (self : Engine) : Prop :=
  forall symbol, symbol ∈ symbols -> is_Some (positions self !! symbol).

(** Only the [symbols] have a price. *)
Definition priced_within (symbols : list string)
    (current_prices : gmap string Qc) : Prop :=
  forall symbol, symbol ∉ symbols -> current_prices !! symbol = None.

(** The percentage by which [later] lies below [earlier]. *)
Definition decline (earlier later : Qc) : Qc :=
  (earlier - later) / earlier * Qc_of_Z 100.

(** [earlier] is recorded in [values] no later than [later]. *)
Definition recorded_in_order (values : list Qc) (earlier later : Qc) : Prop :=
  exists i j,
    (i <= j)%nat /\ values !! i = Some earlier /\ values !! j = Some later.

(** The state (peak, max_drawdown) of the drawdown loop after the values
    [seen]. *)
Record drawdown_invariant (seen : list Qc) (state : Qc * Qc) : Prop := {
  peak_positive : 0 < state.1;
  peak_bounds : forall value, value ∈ seen -> value <= state.1;
  peak_seen : state.1 ∈ seen;
  drawdown_nonneg : 0 <= state.2;
  drawdown_below_hundred : state.2 < Qc_of_Z 100;
  drawdown_bounds :
    forall earlier later,
      recorded_in_order seen earlier later -> decline earlier later <= state.2;
  drawdown_attained :
    exists earlier later,
      recorded_in_order seen earlier later /\ state.2 = decline earlier later
}.

(** ** [combined_strategy] (src/trading_algorithms.py) *)

(** [signal[name]] for one of the keys of an intent. *)
Definition signal_field {V} (value : option V) (name : string) : Outcome V :=
  match value with
  | Some v => Returned v
  | None => Raised (KeyError (VStr name))
  end.

(** [signal_groups]: a dict from (symbol, action) to the list of the
    signals with that key, in insertion order.  A list is created for its
    first signal, so a group is that signal and the ones appended later. *)
Fixpoint add_to_group (key : string * string) (signal : Signal)
    (groups : list ((string * string) * (Signal * list Signal)))
    : list ((string * string) * (Signal * list Signal)) :=
  match groups with
  | [] => [(key, (signal, []))]
  | (k, (first, more)) :: rest =>
    if bool_decide (k = key)
    then (k, (first, more ++ [signal])) :: rest
    else (k, (first, more)) :: add_to_group key signal rest
  end.

(** "Group by symbol and action": the first loop. *)
Fixpoint group_signals (all_signals : list Signal)
    (groups : list ((string * string) * (Signal * list Signal)))
    : Outcome (list ((string * string) * (Signal * list Signal))) :=
  match all_signals with
  | [] => Returned groups
  | signal :: rest =>
    symbol ← signal_field (sig_symbol signal) "symbol";
    action ← signal_field (sig_action signal) "action";
    group_signals rest (add_to_group (symbol, action) signal groups)
  end.

(** [max(signal_list, key=lambda x: x['quantity'])]: the key is read from
    every signal of the list, and the running maximum is replaced only by a
    strictly larger quantity. *)
Fixpoint max_by_quantity (best : Signal) (best_quantity : Z)
    (more : list Signal) : Outcome Signal :=
  match more with
  | [] => Returned best
  | signal :: more' =>
    quantity ← signal_field (sig_quantity signal) "quantity";
    if bool_decide (best_quantity < quantity)%Z
    then max_by_quantity signal quantity more'
    else max_by_quantity best best_quantity more'
  end.

Definition best_signal (group : Signal * list Signal) : Outcome Signal :=
  quantity ← signal_field (sig_quantity group.1) "quantity";
  max_by_quantity group.1 quantity group.2.

(** "Take the signal with highest quantity for each symbol-action pair":
    the second loop. *)
Fixpoint best_signals
    (groups : list ((string * string) * (Signal * list Signal)))
    : Outcome (list Signal) :=
  match groups with
  | [] => Returned []
  | (_, group) :: rest =>
    best ← best_signal group;
    others ← best_signals rest;
    mret (best :: others)
  end.

(** The two loops of [combined_strategy] on the concatenated signals. *)
Definition deduplicate_signals (all_signals : list Signal)
    : Outcome (list Signal) :=
  groups ← group_signals all_signals [];
  best_signals groups.

(** [combined_strategy], with the four strategies it calls as parameters. *)
Definition combined_strategy
    (mean_reversion_strategy momentum_strategy pairs_trading_strategy
       trend_following_strategy :
       gmap string DataFrame -> gmap string Qc -> Outcome (list Signal))
    (data : gmap string DataFrame)
    (current_prices : gmap string Qc) : Outcome (list Signal) :=
  mean_rev_signals ← mean_reversion_strategy data current_prices;
  momentum_signals ← momentum_strategy data current_prices;
  pairs_signals ← pairs_trading_strategy data current_prices;
  trend_signals ← trend_following_strategy data current_prices;
  deduplicate_signals
    (mean_rev_signals ++ momentum_signals ++ pairs_signals ++ trend_signals).

(** The (key, signal) pairs of [signal_groups], group by group. *)
Definition members
    (groups : list ((string * string) * (Signal * list Signal)))
    : list ((string * string) * Signal) :=
  groups ≫= (fun entry => (fun s => (entry.1, s)) <$> entry.2.1 :: entry.2.2).

(** An intent with the key it is filed under, when it has both fields. *)
Definition keyed (signal : Signal) : option ((string * string) * Signal) :=
  match sig_symbol signal, sig_action signal with
  | Some symbol, Some action => Some ((symbol, action), signal)
  | _, _ => None
  end.

(** The (symbol, action) pair of an intent, as far as it is there. *)
Definition signal_key (signal : Signal) : option string * option string :=
  (sig_symbol signal, sig_action signal).

(** What the second loop picks from an entry of [signal_groups]. *)
Definition picked_from
    (entry : (string * string) * (Signal * list Signal)) (best : Signal)
    : Prop :=
  best ∈ entry.2.1 :: entry.2.2
  /\ exists top,
      sig_quantity best = Some top
      /\ forall s, s ∈ entry.2.1 :: entry.2.2 ->
                   exists q, sig_quantity s = Some q /\ (q <= top)%Z.

(** ** Further sample inputs *)

(** The default engine holding 10 of 1579.T entered at 100. *)
Definition long_engine : Engine :=
  set_position_entry_prices {[ "1579.T" := Qc_of_Z 100 ]}
    (set_positions {[ "1579.T" := 10%Z; "1360.T" := 0%Z ]}
       (set_current_capital (Qc_of_Z 999000) default_engine)).

(** The exit the risk check asks for when 1579.T has fallen to 90. *)
Definition stop_loss_exit : Signal :=
  {| sig_symbol := Some "1579.T"; sig_action := Some "SELL";
     sig_quantity := Some 10%Z; sig_reason := Some "Stop-loss triggered" |}.

Definition prices_at_ninety : gmap string Qc := {[ "1579.T" := Qc_of_Z 90 ]}.

Definition prices_at_hundred : gmap string Qc :=
  {[ "1579.T" := Qc_of_Z 100 ]}.

(** The frames of the two sample histories, what a strategy is shown of them
    on 2024-01-05, and the closes of that day. *)
Definition sample_data : gmap string DataFrame :=
  {[ "1579.T" := sample_history "1579.T";
     "1360.T" := sample_history "1360.T" ]}.

Definition sample_current_data : gmap string DataFrame :=
  {[ "1579.T" := loc_upto (sample_history "1579.T") 20240105;
     "1360.T" := loc_upto (sample_history "1360.T") 20240105 ]}.

Definition sample_current_prices : gmap string Qc :=
  {[ "1579.T" := Qc_of_Z 101; "1360.T" := Qc_of_Z 50 ]}.

(** An engine that started with 100 and recorded the values 100, 120, 90,
    and the result the metrics code builds for it. *)
Definition valued (date value : Z) : Snapshot :=
  {| snap_date := date; snap_portfolio_value := Qc_of_Z value;
     snap_cash := Qc_of_Z value; snap_positions := ∅ |}.

Definition drawdown_engine : Engine :=
  set_portfolio_values
    [valued 20240104 100; valued 20240105 120; valued 20240109 90]
    (BacktestingEngine (Qc_of_Z 100) (Q2Qc 0.002) (Q2Qc 0.001)
       (Q2Qc 0.05) (Q2Qc 0.15)).

Definition drawdown_result : BacktestResult :=
  {| res_initial_capital := Qc_of_Z 100;
     res_final_value := Qc_of_Z 90;
     res_total_return :=
       (Qc_of_Z 90 - Qc_of_Z 100) / Qc_of_Z 100 * Qc_of_Z 100;
     res_max_drawdown :=
       (foldl drawdown_step (Qc_of_Z 100, 0)
          [Qc_of_Z 100; Qc_of_Z 120; Qc_of_Z 90]).2;
     res_trade_history := [];
     res_portfolio_values :=
       [valued 20240104 100; valued 20240105 120; valued 20240109 90];
     res_total_trades := 0 |}.

(** Two strategies ask to buy 1579.T, one 50 and one 80; a third asks to
    sell 5. *)
Definition buy_fifty : Signal :=
  {| sig_symbol := Some "1579.T"; sig_action := Some "BUY";
     sig_quantity := Some 50%Z; sig_reason := Some "mean reversion" |}.

Definition buy_eighty : Signal :=
  {| sig_symbol := Some "1579.T"; sig_action := Some "BUY";
     sig_quantity := Some 80%Z; sig_reason := Some "momentum" |}.

Definition sell_five : Signal :=
  {| sig_symbol := Some "1579.T"; sig_action := Some "SELL";
     sig_quantity := Some 5%Z; sig_reason := Some "pairs" |}.

(** ** The drawdown series of [plot_results] *)

(** The loop under "Drawdown" in [plot_results]: the running peak and the
    list of drawdowns it appends to. *)
Fixpoint drawdown_series (peak : Qc) (values : list Qc) : list Qc :=
  match values with
  | [] => []
  | value :: rest =>
    let peak' := if bool_decide (peak < value) then value else peak in
    (peak' - value) / peak' * Qc_of_Z 100 :: drawdown_series peak' rest
  end.

(** [peak = values[0]] and the loop. *)
Definition plotted_drawdowns (values : list Qc) : Outcome (list Qc) :=
  match head values with
  | None => Raised IndexError
  | Some peak => Returned (drawdown_series peak values)
  end.

(** ** Dates in the trade log *)

(** The date a trade record carries. *)
Definition record_date (record : gmap string PyVal) : option Z :=
  match record !! "date" with
  | Some (VDate date) => Some date
  | _ => None
  end.

(** The log is [before] followed by records that are all dated [date]. *)
Definition appended_on (date : Z) (before : list (gmap string PyVal))
    (self : Engine) : Prop :=
  exists new,
    trade_history self = before ++ new
    /\ Forall (fun record => record_date record = Some date) new.

(** ** A run that never trades *)

(** The engine has all its initial capital in cash, has traded nothing and
    holds nothing, and every snapshot it recorded shows just that. *)
Definition untouched (self : Engine) : Prop :=
  current_capital self = initial_capital self
  /\ trade_history self = []
  /\ map_Forall (fun _ quantity => quantity = 0%Z) (positions self)
  /\ Forall (fun snap => snap_portfolio_value snap = initial_capital self
                         /\ snap_cash snap = initial_capital self)
       (portfolio_values self).

(** A strategy that never asks for anything. *)
Definition idle (current_data : gmap string DataFrame)
    (current_prices : gmap string Qc) : Outcome (list Signal) :=
  Returned [].

(** ** Notions used in the statements about runs and entry prices *)



(** The strategy emitted [signal] in the run: on one of the run's dates that
    the loop got to (every earlier bar returned) the strategy was called on
    that bar's data and prices and returned a list with [signal] in it. *)
Definition emitted_in_run (history : string -> DataFrame)
    (calculate_technical_indicators : DataFrame -> DataFrame)
    (trading_algorithm :
       gmap string DataFrame -> gmap string Qc -> Outcome (list Signal))
    (symbols : list string) (self : Engine) (signal : Signal) : Prop :=
  let data :=
    with_indicators calculate_technical_indicators symbols
      (get_historical_data history symbols) in
  exists dates earlier date later current_data current_prices signals,
    common_dates data = Returned dates
    /\ dates = earlier ++ date :: later
    /\ (for_each (backtest_step trading_algorithm data symbols) earlier
          (initialize_tracking symbols self)).1 = Returned tt
    /\ current_data_at data symbols date = Returned current_data
    /\ current_prices_at data symbols date = Returned current_prices
    /\ trading_algorithm current_data current_prices = Returned signals
    /\ signal ∈ signals.

(** A strategy that asks for nothing on the first bar and emits an intent
    without a quantity once the frame of 1579.T has a row for 2024-01-05. *)
Definition incomplete_on_second_bar
    (current_data : gmap string DataFrame) (current_prices : gmap string Qc)
    : Outcome (list Signal) :=
  match current_data !! "1579.T" ≫= (fun df => df !! 20240105%Z) with
  | Some _ => Returned [buy_without_quantity]
  | None => Returned []
  end.

(** The record is a fill of [symbol] at the close of [date], adjusted by the
    slippage of the engine [self]. *)
Definition filled_at_close (data : gmap string DataFrame) (date : Z)
    (self : Engine) (record : gmap string PyVal) : Prop :=
  exists symbol action frame row close,
    record !! "symbol" = Some (VStr symbol)
    /\ record !! "action" = Some (VStr action)
    /\ data !! symbol = Some frame
    /\ frame !! date = Some row
    /\ row !! "Close" = Some close
    /\ record !! "price" = Some (VFloat (slippage_price self action close)).

(** The same with the price taken from [current_prices]. *)
Definition filled_at (current_prices : gmap string Qc) (self : Engine)
    (record : gmap string PyVal) : Prop :=
  exists symbol action close,
    record !! "symbol" = Some (VStr symbol)
    /\ record !! "action" = Some (VStr action)
    /\ current_prices !! symbol = Some close
    /\ record !! "price" = Some (VFloat (slippage_price self action close)).

(** Since the state [start], the engine has only appended fills at
    [current_prices], and its slippage is the same. *)
Definition filled_since (current_prices : gmap string Qc) (start : Engine)
    (self : Engine) : Prop :=
  slippage self = slippage start
  /\ exists new,
      trade_history self = trade_history start ++ new
      /\ Forall (filled_at current_prices start) new.

(** The frames agree on the rows dated on or before [date], for each of the
    [symbols]. *)
Definition same_until (date : Z) (symbols : list string)
    (data data' : gmap string DataFrame) : Prop :=
  forall symbol,
    symbol ∈ symbols ->
    (fun df => loc_upto df date) <$> data !! symbol
    = (fun df => loc_upto df date) <$> data' !! symbol.

(** * Properties *)

(** ** Auxiliary facts about [execute_trade] *)

Lemma history_not_extended {A} (l : list A) (x : A) : l ≠ l ++ [x].
Proof.
  intros E. apply (f_equal length) in E. rewrite length_app in E.
  simpl in E. lia.
Qed.

Lemma total_cost_factored (q p f : Qc) : q * p + q * p * f = q * p * (1 + f).
Proof. ring. Qed.

Lemma net_revenue_factored (q p f : Qc) : q * p - q * p * f = q * p * (1 - f).
Proof. ring. Qed.

(** Reading an attribute after a sequence of attribute assignments. *)
Ltac engine_simpl :=
  cbn [initial_capital current_capital positions trade_history
       portfolio_values transaction_cost slippage stop_loss take_profit
       position_entry_prices set_current_capital set_positions
       set_trade_history set_portfolio_values set_position_entry_prices
       fst snd] in *.

(** The ways a call can end, for an instrument with a position entry. *)
Lemma execute_trade_buy self symbol quantity price date held :
  positions self !! symbol = Some held ->
  let execution_price := price * (1 + slippage self) in
  let gross_cost := Qc_of_Z quantity * execution_price in
  let transaction_fee := gross_cost * transaction_cost self in
  let total_cost := gross_cost + transaction_fee in
  execute_trade symbol "BUY" quantity price date self =
    if bool_decide (total_cost <= current_capital self) then
      (Returned tt,
       set_trade_history
         (trade_history self ++
            [buy_record date symbol "BUY" quantity execution_price total_cost
               transaction_fee (Qc_of_Z quantity * price * slippage self)])
         (set_position_entry_prices
            (if bool_decide (position_entry_prices self !! symbol = None)
                || bool_decide (held = 0%Z)
             then <[symbol := execution_price]> (position_entry_prices self)
             else position_entry_prices self)
            (set_positions (<[symbol := (held + quantity)%Z]> (positions self))
               (set_current_capital (current_capital self - total_cost)
                  self))))
    else (Returned tt, self).
Proof.
  intros Hheld. cbv zeta. unfold execute_trade, slippage_price.
  rewrite bool_decide_true by done.
  case_bool_decide as Hcost; [|done].
  engine_simpl. rewrite Hheld. engine_simpl.
  rewrite lookup_insert_eq.
  assert (bool_decide (Some (held + quantity)%Z = Some quantity)
          = bool_decide (held = 0%Z)) as ->.
  { apply bool_decide_ext.
    split; [intros [= ?]; lia | intros ->; f_equal; lia]. }
  destruct (bool_decide (position_entry_prices self !! symbol = None)
            || bool_decide (held = 0%Z)); reflexivity.
Qed.

Lemma execute_trade_sell self symbol quantity price date held :
  positions self !! symbol = Some held ->
  let execution_price := price * (1 - slippage self) in
  let gross_revenue := Qc_of_Z quantity * execution_price in
  let transaction_fee := gross_revenue * transaction_cost self in
  let net_revenue := gross_revenue - transaction_fee in
  execute_trade symbol "SELL" quantity price date self =
    if bool_decide (quantity <= held)%Z then
      (Returned tt,
       set_trade_history
         (trade_history self ++
            [sell_record date symbol "SELL" quantity execution_price
               net_revenue transaction_fee
               (Qc_of_Z quantity * price * slippage self)])
         (set_positions (<[symbol := (held - quantity)%Z]> (positions self))
            (set_current_capital (current_capital self + net_revenue) self)))
    else (Returned tt, self).
Proof.
  intros Hheld. cbv zeta. unfold execute_trade, slippage_price.
  rewrite bool_decide_false by done.
  rewrite bool_decide_true by done.
  rewrite Hheld. reflexivity.
Qed.

Lemma execute_trade_other self symbol action quantity price date :
  action ≠ "BUY" -> action ≠ "SELL" ->
  execute_trade symbol action quantity price date self = (Returned tt, self).
Proof.
  intros Hb Hs. unfold execute_trade.
  rewrite !bool_decide_false by done. reflexivity.
Qed.

(** ** Order feasibility *)

(** C10: an action other than 'BUY' and 'SELL' is a complete no-op: the call
    returns normally and the engine (cash, positions, entry prices, trade
    history and everything else) is exactly what it was. *)
Theorem execute_trade_unknown_action_noop
    self symbol action quantity price date :
  action ≠ "BUY" -> action ≠ "SELL" ->
  execute_trade symbol action quantity price date self = (Returned tt, self).
Proof. apply execute_trade_other. Qed.

Lemma execute_trade_unknown_action_noop_witness :
  "HOLD" ≠ "BUY" /\ "HOLD" ≠ "SELL" /\
  execute_trade "7203.T" "HOLD" 10 (Qc_of_Z 100) 20240105 default_engine
  = (Returned tt, default_engine).
Proof.
  split; [discriminate|]. split; [discriminate|].
  apply execute_trade_unknown_action_noop; discriminate.
Defined.

(** C1, as amended: for every call to [execute_trade] on an instrument that
    has an entry in [positions], a BUY whose total cost exceeds the cash and a
    SELL whose quantity exceeds the held position return normally and leave
    the whole engine unchanged; every other BUY/SELL (a total cost equal to
    the cash included) returns normally and appends exactly one record. *)
Theorem execute_trade_feasibility
    self symbol action quantity price date held :
  positions self !! symbol = Some held ->
  action = "BUY" \/ action = "SELL" ->
  (infeasible self action quantity price held ->
   execute_trade symbol action quantity price date self = (Returned tt, self))
  /\ (~ infeasible self action quantity price held ->
      exists record,
        accepted self (execute_trade symbol action quantity price date self)
          record).
Proof.
  intros Hheld [-> | ->].
  - rewrite (execute_trade_buy _ _ _ _ _ _ Hheld). cbv zeta.
    rewrite total_cost_factored.
    unfold infeasible, buy_total_cost, slippage_price.
    rewrite bool_decide_true by done.
    split.
    + intros [[_ Hlt] | [? _]]; [|done].
      rewrite bool_decide_false; [done|]. by apply Qclt_not_le.
    + intros Hfeas. rewrite bool_decide_true.
      * eexists. split; reflexivity.
      * apply Qcnot_lt_le. intros Hlt. apply Hfeas. by left.
  - rewrite (execute_trade_sell _ _ _ _ _ _ Hheld). cbv zeta.
    unfold infeasible. split.
    + intros [[? _] | [_ Hlt]]; [done|].
      rewrite bool_decide_false; [done | lia].
    + intros Hfeas. rewrite bool_decide_true.
      * eexists. split; reflexivity.
      * destruct (decide (quantity <= held)%Z); [done|].
        exfalso. apply Hfeas. right. split; [done | lia].
Qed.

Lemma execute_trade_feasibility_witness :
  positions default_engine !! "1579.T" = Some 0%Z /\
  ("BUY" = "BUY" \/ "BUY" = "SELL") /\
  ((infeasible default_engine "BUY" 10 (Qc_of_Z 100) 0 ->
    execute_trade "1579.T" "BUY" 10 (Qc_of_Z 100) 20240105 default_engine
    = (Returned tt, default_engine))
   /\ (~ infeasible default_engine "BUY" 10 (Qc_of_Z 100) 0 ->
       exists record,
         accepted default_engine
           (execute_trade "1579.T" "BUY" 10 (Qc_of_Z 100) 20240105
              default_engine)
           record)).
Proof.
  split; [reflexivity|]. split; [left; reflexivity|].
  apply execute_trade_feasibility; [reflexivity | left; reflexivity].
Defined.

(** C1 as stated fails at an instrument without a position entry: the BUY
    below is well within the cash, so the claim wants it accepted with one
    record appended and no error, but the call raises [KeyError] and appends
    nothing. *)
Lemma execute_trade_untracked_instrument :
  ~ infeasible default_engine "BUY" 10 (Qc_of_Z 100) 0
  /\ (execute_trade "7203.T" "BUY" 10 (Qc_of_Z 100) 20240105 default_engine).1
     = Raised (KeyError (VStr "7203.T"))
  /\ trade_history
       (execute_trade "7203.T" "BUY" 10 (Qc_of_Z 100) 20240105
          default_engine).2
     = trade_history default_engine
  /\ ~ exists record,
        accepted default_engine
          (execute_trade "7203.T" "BUY" 10 (Qc_of_Z 100) 20240105
             default_engine)
          record.
Proof.
  split.
  { intros [[_ Hlt] | [[=] _]]. revert Hlt. by vm_compute. }
  split; [vm_compute; reflexivity|]. split; [vm_compute; reflexivity|].
  intros [record [Hret _]]. vm_compute in Hret. discriminate Hret.
Qed.

(** ** Cash flow of an accepted trade *)

Lemma execute_trade_untracked_not_accepted
    self symbol action quantity price date record :
  positions self !! symbol = None ->
  ~ accepted self (execute_trade symbol action quantity price date self)
      record.
Proof.
  intros Hnone [Hret Hhist]. revert Hret Hhist. unfold execute_trade.
  repeat case_bool_decide; engine_simpl; rewrite ?Hnone; engine_simpl;
    intros Hret Hhist; try discriminate Hret;
    by apply history_not_extended in Hhist.
Qed.

(** C2: an accepted BUY decreases the cash by exactly
    quantity x price x (1 + slippage) x (1 + transaction_cost), an accepted
    SELL increases it by exactly
    quantity x price x (1 - slippage) x (1 - transaction_cost); the fee in
    the record is the transaction-cost fraction of the gross notional at the
    slippage-adjusted price. *)
Theorem accepted_trade_cash_flow
    self symbol action quantity price date record :
  accepted self (execute_trade symbol action quantity price date self)
    record ->
  (action = "BUY"
   /\ current_capital
        (execute_trade symbol action quantity price date self).2
      = current_capital self
        - Qc_of_Z quantity * price * (1 + slippage self)
          * (1 + transaction_cost self)
   /\ record !! "transaction_fee"
      = Some (VFloat (Qc_of_Z quantity * (price * (1 + slippage self))
                      * transaction_cost self)))
  \/ (action = "SELL"
      /\ current_capital
           (execute_trade symbol action quantity price date self).2
         = current_capital self
           + Qc_of_Z quantity * price * (1 - slippage self)
             * (1 - transaction_cost self)
      /\ record !! "transaction_fee"
         = Some (VFloat (Qc_of_Z quantity * (price * (1 - slippage self))
                         * transaction_cost self))).
Proof.
  intros Hacc.
  destruct (positions self !! symbol) as [held|] eqn:Hheld;
    [|by apply execute_trade_untracked_not_accepted in Hacc].
  destruct (decide (action = "BUY")) as [-> | Hb].
  - left. split; [done|]. revert Hacc.
    rewrite (execute_trade_buy _ _ _ _ _ _ Hheld). cbv zeta.
    case_bool_decide; intros [_ Hhist]; engine_simpl;
      [|by apply history_not_extended in Hhist].
    apply app_inv_head in Hhist. injection Hhist as <-.
    split; [ring | reflexivity].
  - destruct (decide (action = "SELL")) as [-> | Hs].
    + right. split; [done|]. revert Hacc.
      rewrite (execute_trade_sell _ _ _ _ _ _ Hheld). cbv zeta.
      case_bool_decide; intros [_ Hhist]; engine_simpl;
        [|by apply history_not_extended in Hhist].
      apply app_inv_head in Hhist. injection Hhist as <-.
      split; [ring | reflexivity].
    + destruct Hacc as [_ Hhist]. revert Hhist.
      rewrite execute_trade_other by done. engine_simpl. intros Hhist.
      by apply history_not_extended in Hhist.
Qed.

Lemma accepted_trade_cash_flow_witness :
  accepted default_engine sample_buy sample_buy_record
  /\ (("BUY" = "BUY"
       /\ current_capital sample_buy.2
          = current_capital default_engine
            - Qc_of_Z 10 * Qc_of_Z 100 * (1 + slippage default_engine)
              * (1 + transaction_cost default_engine)
       /\ sample_buy_record !! "transaction_fee"
          = Some (VFloat (Qc_of_Z 10
                          * (Qc_of_Z 100 * (1 + slippage default_engine))
                          * transaction_cost default_engine)))
      \/ ("BUY" = "SELL"
          /\ current_capital sample_buy.2
             = current_capital default_engine
               + Qc_of_Z 10 * Qc_of_Z 100 * (1 - slippage default_engine)
                 * (1 - transaction_cost default_engine)
          /\ sample_buy_record !! "transaction_fee"
             = Some (VFloat (Qc_of_Z 10
                             * (Qc_of_Z 100 * (1 - slippage default_engine))
                             * transaction_cost default_engine)))).
Proof.
  assert (Hacc : accepted default_engine sample_buy sample_buy_record).
  { split; vm_compute; reflexivity. }
  split; [exact Hacc|].
  exact (accepted_trade_cash_flow default_engine "1579.T" "BUY" 10
           (Qc_of_Z 100) 20240105 sample_buy_record Hacc).
Defined.

(** ** Realized P&L on SELL records *)

(** C4: the SELL branch appends a record with the keys date, symbol, action,
    quantity, price, revenue, transaction_fee and slippage_cost only: no
    realized P&L is computed or attached (here: 10 bought at 100 and sold at
    110, the sale is accepted). *)
Lemma sell_record_carries_no_pnl :
  accepted sample_buy.2 sample_sell sample_sell_record
  /\ dom sample_sell_record
     = list_to_set
         ["date"; "symbol"; "action"; "quantity"; "price"; "revenue";
          "transaction_fee"; "slippage_cost"]
  /\ sample_sell_record !! "pnl" = None
  /\ sample_sell_record !! "realized_pnl" = None.
Proof. repeat split; vm_compute; reflexivity. Qed.

(** ** Zero thresholds in the risk check *)

(** C5: with [stop_loss = 0] and [take_profit = 0] the checks are not
    disabled.  After buying at 100 (entry price 100.1), an unchanged price of
    100 emits a stop-loss SELL of the whole position, and a price of 101
    emits a take-profit SELL. *)
Lemma zero_thresholds_still_trigger :
  stop_loss range_bound_long = 0 /\ take_profit range_bound_long = 0
  /\ check_risk_management "1579.T" (Qc_of_Z 100) 20240108 range_bound_long
     = [ {| sig_symbol := Some "1579.T"; sig_action := Some "SELL";
            sig_quantity := Some 10%Z;
            sig_reason := Some "Stop-loss triggered" |} ]
  /\ check_risk_management "1579.T" (Qc_of_Z 101) 20240108 range_bound_long
     = [ {| sig_symbol := Some "1579.T"; sig_action := Some "SELL";
            sig_quantity := Some 10%Z;
            sig_reason := Some "Take-profit triggered" |} ].
Proof. repeat split; vm_compute; reflexivity. Qed.

(** ** [execute_trade]: every way a call can end *)

Lemma buy_cost_eq self quantity price :
  Qc_of_Z quantity * (price * (1 + slippage self))
  + Qc_of_Z quantity * (price * (1 + slippage self)) * transaction_cost self
  = buy_total_cost self quantity price.
Proof.
  unfold buy_total_cost, slippage_price. rewrite bool_decide_true by done.
  ring.
Qed.

Lemma execute_trade_cases self symbol action quantity price date :
  execute_trade symbol action quantity price date self = (Returned tt, self)
  \/ (exists held,
        action = "BUY" /\ positions self !! symbol = Some held
        /\ buy_total_cost self quantity price <= current_capital self
        /\ execute_trade symbol action quantity price date self
           = (Returned tt,
              engine_after_buy self symbol quantity price date held))
  \/ (exists held,
        action = "SELL" /\ positions self !! symbol = Some held
        /\ (quantity <= held)%Z
        /\ execute_trade symbol action quantity price date self
           = (Returned tt,
              engine_after_sell self symbol quantity price date held))
  \/ (action = "BUY" /\ positions self !! symbol = None
      /\ buy_total_cost self quantity price <= current_capital self
      /\ execute_trade symbol action quantity price date self
         = (Raised (KeyError (VStr symbol)),
            set_current_capital
              (current_capital self - buy_total_cost self quantity price)
              self))
  \/ (action = "SELL" /\ positions self !! symbol = None
      /\ execute_trade symbol action quantity price date self
         = (Raised (KeyError (VStr symbol)), self)).
Proof.
  destruct (decide (action = "BUY")) as [-> | Hb].
  - destruct (positions self !! symbol) as [held|] eqn:Hheld.
    + rewrite (execute_trade_buy _ _ _ _ _ _ Hheld). cbv zeta.
      case_bool_decide as Hcost; [|by left].
      right. left. exists held. by rewrite <- buy_cost_eq.
    + unfold execute_trade, slippage_price.
      rewrite bool_decide_true by done.
      case_bool_decide as Hcost; [|by left]. engine_simpl. rewrite Hheld.
      do 3 right. left. by rewrite <- buy_cost_eq.
  - destruct (decide (action = "SELL")) as [-> | Hs].
    + destruct (positions self !! symbol) as [held|] eqn:Hheld.
      * rewrite (execute_trade_sell _ _ _ _ _ _ Hheld). cbv zeta.
        case_bool_decide; [|by left].
        do 2 right. left. by exists held.
      * unfold execute_trade. rewrite bool_decide_false by done.
        rewrite bool_decide_true by done. rewrite Hheld. by do 4 right.
    + left. by apply execute_trade_other.
Qed.

Lemma accepted_cases self symbol action quantity price date record :
  accepted self (execute_trade symbol action quantity price date self)
    record ->
  exists held,
    positions self !! symbol = Some held
    /\ ((action = "BUY"
         /\ buy_total_cost self quantity price <= current_capital self
         /\ execute_trade symbol action quantity price date self
            = (Returned tt,
               engine_after_buy self symbol quantity price date held))
        \/ (action = "SELL" /\ (quantity <= held)%Z
            /\ execute_trade symbol action quantity price date self
               = (Returned tt,
                  engine_after_sell self symbol quantity price date held))).
Proof.
  intros [Hret Hhist].
  destruct (execute_trade_cases self symbol action quantity price date)
    as [E | [[held [? [? [? E]]]] | [[held [? [? [? E]]]]
       | [[? [? [? E]]] | [? [? E]]]]]];
    rewrite E in Hret, Hhist; cbn [fst snd] in Hret, Hhist;
    try discriminate Hret.
  - by apply history_not_extended in Hhist.
  - exists held. by auto.
  - exists held. by auto 6.
Qed.

Lemma sample_buy_accepted :
  accepted default_engine sample_buy sample_buy_record.
Proof. split; vm_compute; reflexivity. Qed.

(** ** Entry prices *)








(** Why the quantities must not be negative: a SELL of -5 is accepted and
    leaves a position of 5 without an entry price; the BUY that follows is
    accepted into that position of 5 and sets the entry price.  No caller
    in the repository produces a negative quantity. *)
Lemma buy_sets_entry_of_open_position :
  negative_sell.1 = Returned tt
  /\ positions negative_sell.2 !! "1579.T" = Some 5%Z
  /\ position_entry_prices negative_sell.2 !! "1579.T" = None
  /\ (exists record, accepted negative_sell.2 buy_after_negative_sell record)
  /\ position_entry_prices buy_after_negative_sell.2 !! "1579.T"
     = Some (Qc_of_Z 100 * (1 + slippage default_engine))
  /\ position_entry_prices buy_after_negative_sell.2
     ≠ position_entry_prices negative_sell.2.
Proof.
  split; [vm_compute; reflexivity|]. split; [vm_compute; reflexivity|].
  split; [vm_compute; reflexivity|].
  split; [exists sample_follow_up_record; split; vm_compute; reflexivity|].
  split; [vm_compute; reflexivity|].
  intros E. apply (f_equal (fun m => m !! "1579.T")) in E.
  vm_compute in E. discriminate E.
Qed.

(** ** Loops and the per-bar step *)

Lemma for_each_cons {A} (body : A -> Py unit) x l self :
  for_each body (x :: l) self
  = match body x self with
    | (Returned _, self') => for_each body l self'
    | (Raised e, self') => (Raised e, self')
    end.
Proof. reflexivity. Qed.

Lemma for_each_preserves {A} (I : Engine -> Prop) (body : A -> Py unit) l :
  (forall x self, x ∈ l -> I self -> I (body x self).2) ->
  forall self, I self -> I (for_each body l self).2.
Proof.
  induction l as [|x l IH]; intros Hbody self HI; [done|].
  rewrite for_each_cons.
  assert (I (body x self).2) as HI' by (apply Hbody; [left | done]).
  destruct (body x self) as [[[]|e] self']; cbn [snd] in *; [|done].
  apply IH; [|done]. intros y s Hy. apply Hbody. by right.
Qed.

Lemma for_each_raises {A} (body : A -> Py unit) l x :
  x ∈ l -> (forall self, is_raised (body x self).1) ->
  forall self, is_raised (for_each body l self).1.
Proof.
  induction l as [|y l IH]; intros Hx Hbody self; [by inversion Hx|].
  rewrite for_each_cons.
  apply elem_of_cons in Hx as [<- | Hx].
  - specialize (Hbody self). by destruct (body x self) as [[[]|e] self'].
  - destruct (body y self) as [[[]|e] self']; cbn [fst]; [|done].
    by apply IH.
Qed.

Lemma execute_signal_unfold current_prices date signal self :
  execute_signal current_prices date signal self
  = match sig_symbol signal with
    | None => (Raised (KeyError (VStr "symbol")), self)
    | Some symbol =>
      match sig_action signal with
      | None => (Raised (KeyError (VStr "action")), self)
      | Some action =>
        match sig_quantity signal with
        | None => (Raised (KeyError (VStr "quantity")), self)
        | Some quantity =>
          match current_prices !! symbol with
          | None => (Raised (KeyError (VStr symbol)), self)
          | Some price =>
            execute_trade symbol action quantity price date self
          end
        end
      end
    end.
Proof.
  unfold execute_signal, getitem, lift, mbind, Py_bind.
  destruct (sig_symbol signal) as [symbol|]; [|done].
  destruct (sig_action signal) as [action|]; [|done].
  destruct (sig_quantity signal) as [quantity|]; [|done].
  destruct (current_prices !! symbol) as [price|]; [|done].
  by destruct (execute_trade symbol action quantity price date self)
    as [[[]|e] self'].
Qed.

(** What a call can do to the positions and the snapshots. *)
Lemma execute_trade_frame self symbol action quantity price date :
  portfolio_values (execute_trade symbol action quantity price date self).2
  = portfolio_values self
  /\ (positions (execute_trade symbol action quantity price date self).2
      = positions self
      \/ exists held,
          positions self !! symbol = Some held
          /\ ((action = "BUY"
               /\ positions
                    (execute_trade symbol action quantity price date self).2
                  = <[symbol := (held + quantity)%Z]> (positions self))
              \/ (action = "SELL" /\ (quantity <= held)%Z
                  /\ positions
                       (execute_trade symbol action quantity price date
                          self).2
                     = <[symbol := (held - quantity)%Z]> (positions self)))).
Proof.
  destruct (decide (action = "BUY")) as [-> | Hb].
  - destruct (positions self !! symbol) as [held|] eqn:Hheld.
    + rewrite (execute_trade_buy _ _ _ _ _ _ Hheld). cbv zeta.
      case_bool_decide; engine_simpl; [|by auto].
      split; [done|]. right. exists held. by auto.
    + unfold execute_trade. rewrite bool_decide_true by done.
      case_bool_decide; engine_simpl; rewrite ?Hheld; engine_simpl; by auto.
  - destruct (decide (action = "SELL")) as [-> | Hs].
    + destruct (positions self !! symbol) as [held|] eqn:Hheld.
      * rewrite (execute_trade_sell _ _ _ _ _ _ Hheld). cbv zeta.
        case_bool_decide; engine_simpl; [|by auto].
        split; [done|]. right. exists held. by auto 6.
      * unfold execute_trade. rewrite bool_decide_false by done.
        rewrite bool_decide_true by done. rewrite Hheld. by auto.
    + rewrite execute_trade_other by done. by auto.
Qed.

Lemma execute_trade_no_short self symbol action quantity price date :
  (0 < quantity)%Z -> no_short self ->
  no_short (execute_trade symbol action quantity price date self).2.
Proof.
  intros Hq [Hpos Hsnaps].
  destruct (execute_trade_frame self symbol action quantity price date)
    as [Hpv Hp].
  split; [|by rewrite Hpv].
  destruct Hp as [-> | [held [Hheld [[_ ->] | [_ [Hle ->]]]]]]; [done|..];
    (apply map_Forall_insert_2; [|done]);
    specialize (Hpos _ _ Hheld); cbn in Hpos; lia.
Qed.

Lemma execute_signal_no_short current_prices date signal self :
  positive_quantity signal -> no_short self ->
  no_short (execute_signal current_prices date signal self).2.
Proof.
  intros Hq Hns. rewrite execute_signal_unfold.
  destruct (sig_symbol signal) as [symbol|]; [|done].
  destruct (sig_action signal) as [action|]; [|done].
  destruct (sig_quantity signal) as [quantity|] eqn:Hquantity; [|done].
  destruct (current_prices !! symbol) as [price|]; [|done].
  apply execute_trade_no_short; [|done]. by apply Hq.
Qed.

Lemma execute_signal_portfolio_values current_prices date signal self :
  portfolio_values (execute_signal current_prices date signal self).2
  = portfolio_values self.
Proof.
  rewrite execute_signal_unfold.
  destruct (sig_symbol signal) as [symbol|]; [|done].
  destruct (sig_action signal) as [action|]; [|done].
  destruct (sig_quantity signal) as [quantity|]; [|done].
  destruct (current_prices !! symbol) as [price|]; [|done].
  apply execute_trade_frame.
Qed.

Lemma check_risk_management_positive symbol current_price date self :
  Forall positive_quantity
    (check_risk_management symbol current_price date self).
Proof.
  unfold check_risk_management.
  destruct (positions self !! symbol) as [held|]; [|done].
  case_bool_decide as Hheld; [|done].
  destruct (position_entry_prices self !! symbol) as [entry|]; [|done].
  repeat case_bool_decide; repeat constructor;
    by intros quantity [= <-].
Qed.

Lemma collect_risk_signals_positive current_prices date symbols self :
  forall signals,
    collect_risk_signals current_prices date symbols self = Returned signals ->
    Forall positive_quantity signals.
Proof.
  induction symbols as [|symbol rest IH]; intros signals.
  - by intros [= <-].
  - cbn [collect_risk_signals]. unfold getitem, mbind, Outcome_bind, mret,
      Outcome_ret.
    destruct (current_prices !! symbol) as [price|]; [|done].
    destruct (collect_risk_signals current_prices date rest self)
      as [more|]; [|done].
    intros [= <-]. apply Forall_app. split; [|by apply IH].
    apply check_risk_management_positive.
Qed.

Lemma for_each_signals_portfolio_values current_prices date signals self :
  portfolio_values
    (for_each (execute_signal current_prices date) signals self).2
  = portfolio_values self.
Proof.
  apply (for_each_preserves
           (fun s => portfolio_values s = portfolio_values self)); [|done].
  intros signal s _ <-. apply execute_signal_portfolio_values.
Qed.

Lemma for_each_signals_no_short current_prices date signals self :
  Forall positive_quantity signals -> no_short self ->
  no_short (for_each (execute_signal current_prices date) signals self).2.
Proof.
  intros Hq. apply for_each_preserves. intros signal s Hin.
  apply execute_signal_no_short. by eapply Forall_forall in Hq.
Qed.

Lemma performance_metrics_frame self :
  (performance_metrics self).2 = self
  /\ forall result,
      (performance_metrics self).1 = Returned result ->
      res_portfolio_values result = portfolio_values self
      /\ res_trade_history result = trade_history self
      /\ res_total_trades result = length (trade_history self)
      /\ portfolio_values self ≠ [].
Proof.
  unfold performance_metrics.
  destruct (last (portfolio_values self)) as [final|] eqn:Hlast; [|done].
  destruct (head (snap_portfolio_value <$> portfolio_values self))
    as [peak|]; [|done].
  split; [done|]. intros result [= <-]. cbn.
  repeat split. by intros E; rewrite E in Hlast.
Qed.

Section RunProperties.

Variable history : string -> DataFrame.
Variable calculate_technical_indicators : DataFrame -> DataFrame.
Variable trading_algorithm :
  gmap string DataFrame -> gmap string Qc -> Outcome (list Signal).

Lemma backtest_step_unfold data symbols date self :
  backtest_step trading_algorithm data symbols date self
  = match current_data_at data symbols date with
    | Raised e => (Raised e, self)
    | Returned current_data =>
      match current_prices_at data symbols date with
      | Raised e => (Raised e, self)
      | Returned current_prices =>
        match trading_algorithm current_data current_prices with
        | Raised e => (Raised e, self)
        | Returned signals =>
          match collect_risk_signals current_prices date symbols self with
          | Raised e => (Raised e, self)
          | Returned risk_signals =>
            match for_each (execute_signal current_prices date)
                    risk_signals self with
            | (Raised e, self1) => (Raised e, self1)
            | (Returned _, self1) =>
              match for_each (execute_signal current_prices date)
                      signals self1 with
              | (Raised e, self2) => (Raised e, self2)
              | (Returned _, self2) =>
                record_portfolio_value current_prices date self2
              end
            end
          end
        end
      end
    end.
Proof.
  unfold backtest_step, lift, mbind, Py_bind.
  destruct (current_data_at data symbols date) as [cd|]; [|done].
  destruct (current_prices_at data symbols date) as [cp|]; [|done].
  destruct (trading_algorithm cd cp) as [signals|]; [|done].
  destruct (collect_risk_signals cp date symbols self) as [risk|]; [|done].
  destruct (for_each (execute_signal cp date) risk self)
    as [[[]|e1] self1]; [|done].
  by destruct (for_each (execute_signal cp date) signals self1)
    as [[[]|e2] self2].
Qed.

Lemma run_backtest_unfold symbols self :
  run_backtest history calculate_technical_indicators trading_algorithm
    symbols self
  = let data :=
      with_indicators calculate_technical_indicators symbols
        (get_historical_data history symbols) in
    match common_dates data with
    | Raised e => (Raised e, self)
    | Returned dates =>
      match for_each (backtest_step trading_algorithm data symbols) dates
              (initialize_tracking symbols self) with
      | (Raised e, self') => (Raised e, self')
      | (Returned _, self') => performance_metrics self'
      end
    end.
Proof.
  unfold run_backtest, lift, mbind, Py_bind. cbv zeta.
  destruct (common_dates _) as [dates|]; [|done].
  by destruct (for_each _ dates _) as [[[]|e] self'].
Qed.

Lemma backtest_step_no_short data symbols date self :
  (forall current_data current_prices signals,
      current_data_at data symbols date = Returned current_data ->
      current_prices_at data symbols date = Returned current_prices ->
      trading_algorithm current_data current_prices = Returned signals ->
      Forall positive_quantity signals) ->
  no_short self ->
  no_short (backtest_step trading_algorithm data symbols date self).2.
Proof.
  intros Hstrategy Hns. rewrite backtest_step_unfold.
  destruct (current_data_at data symbols date) as [cd|]; [|done].
  destruct (current_prices_at data symbols date) as [cp|]; [|done].
  destruct (trading_algorithm cd cp) as [signals|] eqn:Hsignals; [|done].
  destruct (collect_risk_signals cp date symbols self) as [risk|] eqn:Hrisk;
    [|done].
  assert (no_short (for_each (execute_signal cp date) risk self).2) as Hns1.
  { apply for_each_signals_no_short; [|done].
    by eapply collect_risk_signals_positive. }
  destruct (for_each (execute_signal cp date) risk self)
    as [[[]|e1] self1]; [|done]. cbn [snd] in Hns1.
  assert (no_short (for_each (execute_signal cp date) signals self1).2)
    as Hns2.
  { apply for_each_signals_no_short; [|done]. by eapply Hstrategy. }
  destruct (for_each (execute_signal cp date) signals self1)
    as [[[]|e2] self2]; [|done]. cbn [snd] in Hns2.
  destruct Hns2 as [Hpos Hsnaps]. split; [done|].
  cbn. apply Forall_app. split; [done|]. by repeat constructor.
Qed.

Lemma backtest_loop_no_short data symbols dates :
  forall self,
    (forall earlier date later current_data current_prices signals,
        dates = earlier ++ date :: later ->
        (for_each (backtest_step trading_algorithm data symbols) earlier
           self).1 = Returned tt ->
        current_data_at data symbols date = Returned current_data ->
        current_prices_at data symbols date = Returned current_prices ->
        trading_algorithm current_data current_prices = Returned signals ->
        Forall positive_quantity signals) ->
    no_short self ->
    no_short
      (for_each (backtest_step trading_algorithm data symbols) dates self).2.
Proof.
  induction dates as [|date dates IH]; intros self Hemitted Hns; [done|].
  rewrite for_each_cons.
  assert (no_short (backtest_step trading_algorithm data symbols date self).2)
    as Hstep.
  { apply backtest_step_no_short; [|done].
    intros cd cp signals. by apply (Hemitted [] date dates). }
  destruct (backtest_step trading_algorithm data symbols date self)
    as [[[]|e] self1] eqn:Estep; cbn [snd] in Hstep; [|done].
  apply IH; [|done].
  intros earlier day later cd cp signals -> Hearlier.
  apply (Hemitted (date :: earlier) day later); [done|].
  by rewrite for_each_cons, Estep.
Qed.

Lemma initialize_tracking_no_short symbols self :
  no_short (initialize_tracking symbols self).
Proof.
  split; [|by constructor]. cbn.
  generalize (∅ : gmap string Z) (map_Forall_empty
    (fun (_ : string) quantity => (0 <= quantity)%Z) (M := gmap string)).
  induction symbols as [|symbol rest IH]; intros acc Hacc; [done|].
  cbn [foldl]. apply IH. by apply map_Forall_insert_2.
Qed.

(** C3: in every run in which every intent the strategy emits carries a
    positive quantity (the risk manager's quantities are positive by
    construction), no snapshot holds a negative position: this is so for the
    snapshots in the engine however the run ended (unless it failed for want
    of instruments before the engine was touched), and for the snapshots of
    a returned result. *)
Theorem run_backtest_never_short symbols self :
  (forall signal,
      emitted_in_run history calculate_technical_indicators
        trading_algorithm symbols self signal ->
      positive_quantity signal) ->
  (run_backtest history calculate_technical_indicators trading_algorithm
     symbols self
   = (Raised TypeError, self)
   \/ Forall (fun snap => positions_nonneg (snap_positions snap))
        (portfolio_values
           (run_backtest history calculate_technical_indicators
              trading_algorithm symbols self).2))
  /\ forall result,
      (run_backtest history calculate_technical_indicators
         trading_algorithm symbols self).1 = Returned result ->
      Forall (fun snap => positions_nonneg (snap_positions snap))
        (res_portfolio_values result).
Proof.
  intros Hemitted. rewrite run_backtest_unfold. cbv zeta.
  destruct (common_dates _) as [dates|e] eqn:Hdates.
  2: { split; [left | done]. revert Hdates. unfold common_dates.
       destruct (_ <$> map_to_list _); [by intros [= <-] | done]. }
  match goal with |- context [for_each ?body dates ?s] =>
    assert (no_short (for_each body dates s).2) as Hns
  end.
  { apply backtest_loop_no_short; [|apply initialize_tracking_no_short].
    intros earlier date later cd cp signals Hsplit Hearlier Hcd Hcp Hsignals.
    apply Forall_forall. intros signal Hin. apply Hemitted.
    by exists dates, earlier, date, later, cd, cp, signals. }
  destruct (for_each _ dates _) as [[[]|e] self']; cbn [snd] in Hns;
    [|split; [right; apply Hns | done]].
  destruct (performance_metrics_frame self') as [-> Hresult].
  split; [right; apply Hns|].
  intros result Hret. apply Hresult in Hret as [-> _]. apply Hns.
Qed.

(** *** The aligned date universe *)

Hypothesis indicators_keep_index :
  forall df, dom (calculate_technical_indicators df) = dom df.

Lemma get_historical_data_frames symbols :
  frames_of history symbols (get_historical_data history symbols).
Proof.
  unfold get_historical_data.
  induction symbols as [|symbol symbols IH] using rev_ind.
  - intros s. split; [by intros ?%elem_of_nil | done].
  - rewrite foldl_app. cbn [foldl]. intros s.
    destruct (IH s) as [Hin Hout].
    destruct (decide (symbol = s)) as [-> | Hne].
    + rewrite lookup_insert_eq. split; [by eauto|].
      intros Hnot. exfalso. apply Hnot. apply elem_of_app. right. by left.
    + rewrite lookup_insert_ne by done. split.
      * intros [?|?%list_elem_of_singleton]%elem_of_app; [by auto | done].
      * intros Hnot. apply Hout. intros ?. apply Hnot.
        apply elem_of_app. by left.
Qed.

Lemma with_indicators_frames symbols processed :
  forall data,
    frames_of history symbols data ->
    frames_of history symbols
      (with_indicators calculate_technical_indicators processed data).
Proof.
  unfold with_indicators.
  induction processed as [|symbol processed IH]; intros data Hdata; [done|].
  cbn [foldl]. apply IH. intros s. destruct (Hdata s) as [Hin Hout].
  destruct (decide (symbol = s)) as [-> | Hne].
  - rewrite lookup_alter_eq. split.
    + intros [df [-> Hdom]]%Hin. eexists. split; [done|].
      by rewrite indicators_keep_index.
    + intros ->%Hout. done.
  - by rewrite lookup_alter_ne.
Qed.

Lemma run_data_frames symbols :
  frames_of history symbols
    (with_indicators calculate_technical_indicators symbols
       (get_historical_data history symbols)).
Proof. apply with_indicators_frames, get_historical_data_frames. Qed.

End RunProperties.

Lemma elem_of_foldl_intersection (Xs : list (gset Z)) :
  forall (X : gset Z) (d : Z),
    d ∈ foldl (∩) X Xs <-> d ∈ X /\ Forall (fun Y => d ∈ Y) Xs.
Proof.
  induction Xs as [|Y Xs IH]; intros X d; cbn [foldl].
  - split; [by auto | by intros [? _]].
  - rewrite IH, elem_of_intersection, Forall_cons. tauto.
Qed.

Lemma strictly_ascending (l : list Z) :
  StronglySorted Z.le l -> NoDup l -> StronglySorted Z.lt l.
Proof.
  intros Hsorted Hnodup.
  induction Hsorted as [|x l Hl IH Hx]; [by constructor|].
  apply NoDup_cons in Hnodup as [Hnotin Hnodup].
  constructor; [by apply IH|].
  apply Forall_forall. intros y Hy.
  assert (x ≠ y) by (by intros ->).
  eapply Forall_forall in Hx; [|done]. lia.
Qed.

(** [common_dates] returns the intersection of the frames' date sets, in
    strictly ascending order. *)
Lemma common_dates_spec (data : gmap string DataFrame) dates :
  common_dates data = Returned dates ->
  StronglySorted Z.lt dates
  /\ forall date,
      date ∈ dates
      <-> forall symbol df, data !! symbol = Some df -> date ∈ dom df.
Proof.
  unfold common_dates.
  destruct (map_to_list data) as [|[symbol0 df0] rest] eqn:Hlist; [done|].
  cbn [fmap list_fmap snd]. intros [= <-]. split.
  - apply strictly_ascending.
    + apply StronglySorted_merge_sort; apply _.
    + rewrite merge_sort_Permutation. apply NoDup_elements.
  - intros date. rewrite merge_sort_Permutation, elem_of_elements.
    rewrite elem_of_foldl_intersection.
    assert (forall symbol df,
              data !! symbol = Some df
              <-> (symbol, df) = (symbol0, df0) \/ (symbol, df) ∈ rest)
      as Hlookup.
    { intros symbol df. rewrite <- elem_of_map_to_list, Hlist.
      apply elem_of_cons. }
    rewrite Forall_fmap, Forall_forall. split.
    + intros [H0 Hrest] symbol df [[= -> ->] | Hin]%Hlookup; [done|].
      by apply (Hrest (symbol, df)).
    + intros Hall. split.
      * apply (Hall symbol0). apply Hlookup. by left.
      * intros [symbol df] Hin. apply (Hall symbol). apply Hlookup.
        by right.
Qed.

Section Orchestration.

Variable history : string -> DataFrame.
Variable calculate_technical_indicators : DataFrame -> DataFrame.
Variable trading_algorithm :
  gmap string DataFrame -> gmap string Qc -> Outcome (list Signal).
Hypothesis indicators_keep_index :
  forall df, dom (calculate_technical_indicators df) = dom df.

(** A bar that completes records one snapshot, dated with the bar; a bar
    that raises records none. *)
Lemma backtest_step_dates data symbols date self :
  snapshot_dates
    (portfolio_values
       (backtest_step trading_algorithm data symbols date self).2)
  = snapshot_dates (portfolio_values self)
    ++ match (backtest_step trading_algorithm data symbols date self).1 with
       | Returned _ => [date]
       | Raised _ => []
       end.
Proof.
  rewrite backtest_step_unfold.
  destruct (current_data_at data symbols date) as [cd|];
    [|by rewrite app_nil_r].
  destruct (current_prices_at data symbols date) as [cp|];
    [|by rewrite app_nil_r].
  destruct (trading_algorithm cd cp) as [signals|]; [|by rewrite app_nil_r].
  destruct (collect_risk_signals cp date symbols self) as [risk|];
    [|by rewrite app_nil_r].
  pose proof (for_each_signals_portfolio_values cp date risk self) as H1.
  destruct (for_each (execute_signal cp date) risk self)
    as [[[]|e1] self1]; cbn [fst snd] in *;
    [|by rewrite H1, app_nil_r].
  pose proof (for_each_signals_portfolio_values cp date signals self1)
    as H2.
  destruct (for_each (execute_signal cp date) signals self1)
    as [[[]|e2] self2]; cbn [fst snd] in *;
    [|by rewrite H2, H1, app_nil_r].
  cbn. unfold snapshot_dates. rewrite fmap_app, H2, H1. done.
Qed.

Lemma backtest_loop_dates data symbols dates :
  forall self,
    exists visited,
      visited `prefix_of` dates
      /\ snapshot_dates
           (portfolio_values
              (for_each (backtest_step trading_algorithm data symbols)
                 dates self).2)
         = snapshot_dates (portfolio_values self) ++ visited
      /\ ((for_each (backtest_step trading_algorithm data symbols) dates
             self).1 = Returned tt ->
          visited = dates).
Proof.
  induction dates as [|date dates IH]; intros self.
  - exists []. split; [done|]. split; [by rewrite app_nil_r | done].
  - rewrite for_each_cons.
    pose proof (backtest_step_dates data symbols date self) as Hstep.
    destruct (backtest_step trading_algorithm data symbols date self)
      as [[[]|e] self']; cbn [fst snd] in Hstep.
    + destruct (IH self') as [visited [Hprefix [Hdates Hall]]].
      exists (date :: visited). split; [by apply prefix_cons|].
      split; [|by intros ->%Hall].
      rewrite Hdates, Hstep, <- app_assoc. done.
    + exists []. split; [apply prefix_nil|]. split; [|done].
      cbn [snd]. by rewrite Hstep.
Qed.

Lemma backtest_loop_trace data symbols dates :
  forall self,
    (exists engine,
        for_each (backtest_step trading_algorithm data symbols) dates self
        = (Returned tt, engine)
        /\ snapshot_dates (portfolio_values engine)
           = snapshot_dates (portfolio_values self) ++ dates)
    \/ (exists visited date later engine e failed,
           dates = visited ++ date :: later
           /\ for_each (backtest_step trading_algorithm data symbols)
                visited self
              = (Returned tt, engine)
           /\ backtest_step trading_algorithm data symbols date engine
              = (Raised e, failed)
           /\ for_each (backtest_step trading_algorithm data symbols)
                dates self
              = (Raised e, failed)
           /\ snapshot_dates (portfolio_values failed)
              = snapshot_dates (portfolio_values self) ++ visited).
Proof.
  induction dates as [|date dates IH]; intros self.
  { left. exists self. split; [done | by rewrite app_nil_r]. }
  rewrite for_each_cons.
  pose proof (backtest_step_dates data symbols date self)
    as Hstep.
  destruct (backtest_step trading_algorithm data symbols date self)
    as [[[]|e] self1] eqn:Estep; cbn [fst snd] in Hstep.
  - destruct (IH self1)
      as [[engine [Hloop Hdates]]
         | [visited [day [later [engine [e [failed
             [-> [Hvisited [Hday [Hloop Hdates]]]]]]]]]]].
    + left. exists engine. split; [done|].
      by rewrite Hdates, Hstep, <- app_assoc.
    + right. exists (date :: visited), day, later, engine, e, failed.
      split; [done|]. split; [by rewrite for_each_cons, Estep|].
      split; [done|]. split; [done|].
      by rewrite Hdates, Hstep, <- app_assoc.
  - right. exists [], date, dates, self, e, self1.
    split; [done|]. split; [done|]. split; [done|]. split; [done|].
    by rewrite Hstep.
Qed.

Lemma run_dates_in_every_history symbols dates :
  common_dates
    (with_indicators calculate_technical_indicators symbols
       (get_historical_data history symbols)) = Returned dates ->
  StronglySorted Z.lt dates
  /\ forall date, date ∈ dates <-> in_every_history history symbols date.
Proof.
  intros [Hsorted Hmem]%common_dates_spec. split; [done|].
  pose proof (run_data_frames history calculate_technical_indicators
                indicators_keep_index symbols) as Hframes.
  intros date. rewrite Hmem. split.
  - intros Hall symbol Hin. destruct (Hframes symbol) as [Hsome _].
    destruct (Hsome Hin) as [df [Hdf <-]]. by eapply Hall.
  - intros Hall symbol df Hdf. destruct (Hframes symbol) as [Hsome Hnone].
    destruct (decide (symbol ∈ symbols)) as [Hin | Hout].
    + destruct (Hsome Hin) as [df' [Hdf' Hdom]].
      assert (df' = df) as -> by congruence. rewrite Hdom. by apply Hall.
    + rewrite (Hnone Hout) in Hdf. done.
Qed.

(** C8, as amended: the loop of a run goes through the dates available for
    every requested instrument (the intersection of the date sets, not the
    union) in strictly ascending order, and records one snapshot per date
    it completes.  If no bar raises, the dates of the snapshots are exactly
    that intersection, and the run returns a result with these snapshots
    (or, for an empty intersection, fails at the metrics).  If a bar raises,
    the run propagates its error, and the dates of the snapshots are the
    dates of the intersection before that bar.  A run without instruments
    fails before anything is simulated. *)
Theorem run_backtest_dates symbols self :
  run_backtest history calculate_technical_indicators trading_algorithm
    symbols self
  = (Raised TypeError, self)
  \/ exists dates,
      StronglySorted Z.lt dates
      /\ (forall date,
             date ∈ dates <-> in_every_history history symbols date)
      /\ ((snapshot_dates
             (portfolio_values
                (run_backtest history calculate_technical_indicators
                   trading_algorithm symbols self).2)
           = dates
           /\ (dates = [] ->
               (run_backtest history calculate_technical_indicators
                  trading_algorithm symbols self).1 = Raised IndexError)
           /\ (dates ≠ [] ->
               exists result,
                 (run_backtest history calculate_technical_indicators
                    trading_algorithm symbols self).1 = Returned result
                 /\ snapshot_dates (res_portfolio_values result) = dates))
          \/ exists visited date later engine e,
              dates = visited ++ date :: later
              /\ snapshot_dates
                   (portfolio_values
                      (run_backtest history calculate_technical_indicators
                         trading_algorithm symbols self).2)
                 = visited
              /\ for_each
                   (backtest_step trading_algorithm
                      (with_indicators calculate_technical_indicators
                         symbols (get_historical_data history symbols))
                      symbols)
                   visited (initialize_tracking symbols self)
                 = (Returned tt, engine)
              /\ backtest_step trading_algorithm
                   (with_indicators calculate_technical_indicators symbols
                      (get_historical_data history symbols))
                   symbols date engine
                 = (Raised e,
                    (run_backtest history calculate_technical_indicators
                       trading_algorithm symbols self).2)
              /\ (run_backtest history calculate_technical_indicators
                    trading_algorithm symbols self).1 = Raised e).
Proof.
  rewrite run_backtest_unfold. cbv zeta.
  destruct (common_dates _) as [dates|e] eqn:Hdates.
  2: { left. revert Hdates. unfold common_dates.
       destruct (_ <$> map_to_list _); [by intros [= <-] | done]. }
  right. exists dates.
  apply run_dates_in_every_history in Hdates as [Hsorted Hmem].
  split; [done|]. split; [done|].
  destruct (backtest_loop_trace
              (with_indicators calculate_technical_indicators symbols
                 (get_historical_data history symbols))
              symbols dates (initialize_tracking symbols self))
    as [[engine [Hloop Hsnaps]]
       | [visited [date [later [engine [e [failed
           [Hsplit [Hvisited [Hday [Hloop Hsnaps]]]]]]]]]]];
    rewrite Hloop;
    cbn [initialize_tracking portfolio_values set_portfolio_values
         snapshot_dates fmap list_fmap app] in Hsnaps;
    fold (snapshot_dates (portfolio_values engine)) in Hsnaps.
  - left. destruct (performance_metrics_frame engine) as [Hstate Hresult].
    rewrite Hstate. split; [done|]. unfold performance_metrics. split.
    + intros ->. destruct (portfolio_values engine); done.
    + intros Hne.
      destruct (portfolio_values engine) as [|snap snaps] eqn:Hvalues;
        [by rewrite <- Hsnaps in Hne|].
      rewrite <- Hvalues in *.
      destruct (last (portfolio_values engine)) as [final|] eqn:Hlast.
      2: { by rewrite Hvalues, last_cons in Hlast;
             destruct (last snaps). }
      destruct (head (snap_portfolio_value <$> portfolio_values engine))
        as [peak|] eqn:Hpeak; [|by rewrite Hvalues in Hpeak].
      eexists. split; [reflexivity|]. done.
  - right. exists visited, date, later, engine, e. cbn [fst snd].
    fold (snapshot_dates (portfolio_values failed)) in Hsnaps.
    done.
Qed.

(** C7, as amended: an intent that lacks one of the keys symbol, action,
    quantity is never executed as a trade: reading it raises [KeyError]
    for the first missing key and leaves the engine as it was; and a run
    whose strategy emits such an intent on a date of the aligned universe
    ends in an error (it is not swallowed). *)
Theorem missing_field_fails_run symbols self date signal field :
  missing_field signal = Some field ->
  in_every_history history symbols date ->
  (forall current_data current_prices,
      current_data_at
        (with_indicators calculate_technical_indicators symbols
           (get_historical_data history symbols)) symbols date
      = Returned current_data ->
      current_prices_at
        (with_indicators calculate_technical_indicators symbols
           (get_historical_data history symbols)) symbols date
      = Returned current_prices ->
      exists signals,
        trading_algorithm current_data current_prices = Returned signals
        /\ signal ∈ signals) ->
  (forall current_prices bar engine,
      execute_signal current_prices bar signal engine
      = (Raised (KeyError (VStr field)), engine))
  /\ is_raised
       (run_backtest history calculate_technical_indicators
          trading_algorithm symbols self).1.
Proof.
  intros Hfield Hdate Hemits.
  assert (forall current_prices bar engine,
             execute_signal current_prices bar signal engine
             = (Raised (KeyError (VStr field)), engine)) as Hraise.
  { intros cp bar engine. rewrite execute_signal_unfold.
    revert Hfield. unfold missing_field.
    destruct (sig_symbol signal); [|by intros [= <-]].
    destruct (sig_action signal); [|by intros [= <-]].
    destruct (sig_quantity signal); [done | by intros [= <-]]. }
  split; [done|].
  rewrite run_backtest_unfold. cbv zeta.
  destruct (common_dates _) as [dates|] eqn:Hcommon; [|done].
  apply run_dates_in_every_history in Hcommon as [_ Hmem].
  match goal with |- context [for_each ?body dates ?s] =>
    assert (is_raised (for_each body dates s).1) as Hloop
  end.
  { apply for_each_raises with (x := date); [by apply Hmem|].
    intros engine. rewrite backtest_step_unfold.
    destruct (current_data_at _ symbols date) as [cd|] eqn:Hcd; [|done].
    destruct (current_prices_at _ symbols date) as [cp|] eqn:Hcp; [|done].
    destruct (Hemits cd cp eq_refl eq_refl) as [signals [-> Hin]].
    destruct (collect_risk_signals cp date symbols engine) as [risk|];
      [|done].
    destruct (for_each (execute_signal cp date) risk engine)
      as [[[]|e1] engine1]; [|done].
    assert (forall s, is_raised (execute_signal cp date signal s).1)
      as Hsignal by (intros s; by rewrite Hraise).
    pose proof (for_each_raises (execute_signal cp date) signals signal Hin
                  Hsignal engine1) as Hsignals.
    by destruct (for_each (execute_signal cp date) signals engine1)
      as [[[]|e2] engine2]. }
  by destruct (for_each _ dates _) as [[[]|e] self'].
Qed.

End Orchestration.

(** ** Sample runs *)

Lemma sample_indicators_keep_index df : dom (sample_indicators df) = dom df.
Proof. apply dom_fmap_L. Qed.

Lemma buy_ten_positive : positive_quantity buy_ten.
Proof. by intros quantity [= <-]. Qed.

Lemma sample_common_dates :
  common_dates
    (with_indicators sample_indicators both_symbols
       (get_historical_data sample_history both_symbols))
  = Returned [20240104; 20240105]%Z.
Proof. vm_compute. reflexivity. Qed.

Lemma sample_first_bar :
  exists current_data current_prices,
    current_data_at
      (with_indicators sample_indicators both_symbols
         (get_historical_data sample_history both_symbols))
      both_symbols 20240104 = Returned current_data
    /\ current_prices_at
         (with_indicators sample_indicators both_symbols
            (get_historical_data sample_history both_symbols))
         both_symbols 20240104 = Returned current_prices.
Proof.
  assert (~ is_raised
            (current_data_at
               (with_indicators sample_indicators both_symbols
                  (get_historical_data sample_history both_symbols))
               both_symbols 20240104)) as Hdata
    by (intros Hraised; vm_compute in Hraised; exact Hraised).
  assert (~ is_raised
            (current_prices_at
               (with_indicators sample_indicators both_symbols
                  (get_historical_data sample_history both_symbols))
               both_symbols 20240104)) as Hprices
    by (intros Hraised; vm_compute in Hraised; exact Hraised).
  destruct (current_data_at _ _ _) as [cd|]; [|by destruct Hdata].
  destruct (current_prices_at _ _ _) as [cp|]; [|by destruct Hprices].
  by exists cd, cp.
Qed.

Lemma buy_ten_is_emitted :
  emitted_in_run sample_history sample_indicators (always buy_ten)
    both_symbols default_engine buy_ten.
Proof.
  destruct sample_first_bar as [cd [cp [Hcd Hcp]]].
  exists [20240104; 20240105]%Z, [], 20240104%Z, [20240105]%Z, cd, cp,
    [buy_ten].
  split; [exact sample_common_dates|]. split; [reflexivity|].
  split; [reflexivity|]. split; [exact Hcd|]. split; [exact Hcp|].
  split; [reflexivity | apply list_elem_of_here].
Qed.

Lemma run_backtest_never_short_witness :
  (forall signal,
      emitted_in_run sample_history sample_indicators (always buy_ten)
        both_symbols default_engine signal ->
      positive_quantity signal)
  /\ emitted_in_run sample_history sample_indicators (always buy_ten)
       both_symbols default_engine buy_ten
  /\ forall result,
      (sample_run sample_history buy_ten).1 = Returned result ->
      Forall (fun snap => positions_nonneg (snap_positions snap))
        (res_portfolio_values result).
Proof.
  assert (forall signal,
             emitted_in_run sample_history sample_indicators
               (always buy_ten) both_symbols default_engine signal ->
             positive_quantity signal) as Hpositive.
  { intros signal
      [dates [earlier [date [later [cd [cp [signals
        [_ [_ [_ [_ [_ [Hsignals Hin]]]]]]]]]]]]].
    injection Hsignals as <-.
    apply list_elem_of_singleton in Hin as ->. exact buy_ten_positive. }
  split; [exact Hpositive|]. split; [exact buy_ten_is_emitted|].
  exact (proj2 (run_backtest_never_short sample_history sample_indicators
                  (always buy_ten) both_symbols default_engine Hpositive)).
Defined.

Lemma run_backtest_dates_witness :
  (forall df, dom (sample_indicators df) = dom df)
  /\ ~ is_raised (sample_run sample_history buy_ten).1
  /\ exists dates,
      snapshot_dates (portfolio_values (sample_run sample_history buy_ten).2)
      = dates
      /\ StronglySorted Z.lt dates
      /\ forall date,
          date ∈ dates <-> in_every_history sample_history both_symbols date.
Proof.
  assert (~ is_raised (sample_run sample_history buy_ten).1) as Hreturns
    by (intros Hraised; vm_compute in Hraised; exact Hraised).
  split; [exact sample_indicators_keep_index|]. split; [exact Hreturns|].
  destruct (run_backtest_dates sample_history sample_indicators
              (always buy_ten) sample_indicators_keep_index both_symbols
              default_engine)
    as [Hfailed
       | [dates [Hsorted [Hmem [[Hsnaps _]
           | [visited [date [later [engine [e [_ [_ [_ [_ Hfailed]]]]]]]]]]]]]].
  - exfalso. apply Hreturns. unfold sample_run. rewrite Hfailed. exact I.
  - exists dates. split; [exact Hsnaps|]. split; [exact Hsorted | exact Hmem].
  - exfalso. apply Hreturns. unfold sample_run. rewrite Hfailed. exact I.
Defined.

Lemma first_date_in_every_history :
  in_every_history sample_history both_symbols 20240104.
Proof.
  intros symbol Hin. apply elem_of_dom.
  apply elem_of_cons in Hin as [-> | Hin];
    [|apply list_elem_of_singleton in Hin as ->];
    vm_compute; eauto.
Qed.

Lemma second_date_in_every_history :
  in_every_history sample_history both_symbols 20240105.
Proof.
  intros symbol Hin. apply elem_of_dom.
  apply elem_of_cons in Hin as [-> | Hin];
    [|apply list_elem_of_singleton in Hin as ->];
    vm_compute; eauto.
Qed.

(** C8 as stated fails for a run in which a bar raises.  Both 2024-01-04
    and 2024-01-05 are available for the two instruments; the strategy asks
    for nothing on the first and emits an intent without a quantity on the
    second, where the run fails: the snapshots it has recorded are those of
    2024-01-04 alone, not of the intersection. *)
Lemma failed_run_stops_short :
  in_every_history sample_history both_symbols 20240104
  /\ in_every_history sample_history both_symbols 20240105
  /\ (run_backtest sample_history sample_indicators incomplete_on_second_bar
        both_symbols default_engine).1
     = Raised (KeyError (VStr "quantity"))
  /\ snapshot_dates
       (portfolio_values
          (run_backtest sample_history sample_indicators
             incomplete_on_second_bar both_symbols default_engine).2)
     = [20240104%Z].
Proof.
  split; [exact first_date_in_every_history|].
  split; [exact second_date_in_every_history|].
  split; vm_compute; reflexivity.
Qed.

Lemma missing_field_fails_run_witness :
  missing_field buy_without_quantity = Some "quantity"
  /\ in_every_history sample_history both_symbols 20240104
  /\ (forall current_prices bar engine,
        execute_signal current_prices bar buy_without_quantity engine
        = (Raised (KeyError (VStr "quantity")), engine))
  /\ is_raised (sample_run sample_history buy_without_quantity).1.
Proof.
  split; [reflexivity|]. split; [exact first_date_in_every_history|].
  apply (missing_field_fails_run sample_history sample_indicators
           (always buy_without_quantity) sample_indicators_keep_index
           both_symbols default_engine 20240104 buy_without_quantity
           "quantity");
    [reflexivity | exact first_date_in_every_history |].
  intros cd cp _ _. exists [buy_without_quantity].
  split; [reflexivity | by left].
Defined.

(** C7 as stated fails for a non-positive quantity: an intent with all its
    fields and quantity -5 is executed like any other.  On the two common
    dates of the sample histories the run returns normally, with two trades
    recorded and the position at -5 and then -10. *)
Lemma nonpositive_quantity_is_executed :
  missing_field buy_minus_five = None
  /\ sig_quantity buy_minus_five = Some (-5)%Z
  /\ ~ is_raised (sample_run sample_history buy_minus_five).1
  /\ length (trade_history (sample_run sample_history buy_minus_five).2)
     = 2%nat
  /\ (fun snap => snap_positions snap !! "1579.T")
       <$> portfolio_values (sample_run sample_history buy_minus_five).2
     = [Some (-5)%Z; Some (-10)%Z].
Proof.
  split; [reflexivity|]. split; [reflexivity|].
  split; [intros H; vm_compute in H; exact H|].
  split; vm_compute; reflexivity.
Qed.

(** C6: with nothing at all for 1360.T the aligned date universe is empty;
    the loop body never runs, and reading the last snapshot afterwards
    raises [IndexError]: no result is returned. *)
Lemma empty_universe_raises :
  common_dates
    (with_indicators sample_indicators both_symbols
       (get_historical_data gap_history both_symbols)) = Returned []
  /\ (sample_run gap_history buy_ten).1 = Raised IndexError
  /\ portfolio_values (sample_run gap_history buy_ten).2 = []
  /\ trade_history (sample_run gap_history buy_ten).2 = [].
Proof. repeat split; vm_compute; reflexivity. Qed.

(** * Further properties of the engine *)

(** ** [execute_trade]: positions *)

(** X1: an accepted trade moves exactly one position: a BUY adds the
    quantity to the traded instrument's position, a SELL (accepted only up
    to the held position) subtracts it, and every other instrument's position
    is what it was. *)
Theorem accepted_trade_moves_one_position
    self symbol action quantity price date record :
  accepted self (execute_trade symbol action quantity price date self)
    record ->
  exists held,
    positions self !! symbol = Some held
    /\ ((action = "BUY"
         /\ positions
              (execute_trade symbol action quantity price date self).2
              !! symbol = Some (held + quantity)%Z)
        \/ (action = "SELL" /\ (quantity <= held)%Z
            /\ positions
                 (execute_trade symbol action quantity price date self).2
                 !! symbol = Some (held - quantity)%Z))
    /\ forall other,
        other ≠ symbol ->
        positions (execute_trade symbol action quantity price date self).2
          !! other
        = positions self !! other.
Proof.
  intros [held [Hheld [[-> [_ ->]] | [-> [Hle ->]]]]]%accepted_cases;
    exists held; (split; [done|]); cbn; rewrite lookup_insert_eq;
    (split; [by auto|]); intros other Hne; by rewrite lookup_insert_ne.
Qed.

Lemma accepted_trade_moves_one_position_witness :
  accepted default_engine sample_buy sample_buy_record
  /\ exists held,
      positions default_engine !! "1579.T" = Some held
      /\ positions sample_buy.2 !! "1360.T"
         = positions default_engine !! "1360.T".
Proof.
  split; [exact sample_buy_accepted|].
  destruct (accepted_trade_moves_one_position default_engine "1579.T" "BUY"
              10 (Qc_of_Z 100) 20240105 sample_buy_record
              sample_buy_accepted) as [held [Hheld [_ Hother]]].
  exists held. split; [exact Hheld|]. apply Hother. discriminate.
Defined.

(** X2: no call to [execute_trade], however it ends, changes the engine's
    configuration (initial capital, fee, slippage and risk thresholds) or
    its snapshots, and the trade log is either what it was or what it was
    with one record appended: records are never removed or rewritten. *)
Theorem execute_trade_keeps_configuration
    self symbol action quantity price date :
  initial_capital (execute_trade symbol action quantity price date self).2
  = initial_capital self
  /\ transaction_cost
       (execute_trade symbol action quantity price date self).2
     = transaction_cost self
  /\ slippage (execute_trade symbol action quantity price date self).2
     = slippage self
  /\ stop_loss (execute_trade symbol action quantity price date self).2
     = stop_loss self
  /\ take_profit (execute_trade symbol action quantity price date self).2
     = take_profit self
  /\ portfolio_values
       (execute_trade symbol action quantity price date self).2
     = portfolio_values self
  /\ (trade_history (execute_trade symbol action quantity price date self).2
      = trade_history self
      \/ exists record,
          trade_history
            (execute_trade symbol action quantity price date self).2
          = trade_history self ++ [record]).
Proof.
  destruct (execute_trade_cases self symbol action quantity price date)
    as [E | [[held [? [? [? E]]]] | [[held [? [? [? E]]]]
       | [[? [? [? E]]] | [? [? E]]]]]];
    rewrite E; cbn; by eauto 10.
Qed.

(** ** [execute_trade]: cash *)

Lemma Qc_of_Z_nonneg (n : Z) : (0 <= n)%Z -> 0 <= Qc_of_Z n.
Proof. intros Hn. rewrite <- Z2Qc_inj_0. by apply (proj1 (Z2Qc_inj_le 0 n)). Qed.

(** X3: the engine never spends cash it does not have: if the cash is not
    negative before a call to [execute_trade], it is not negative after it.
    For a BUY this needs nothing; for a SELL the quantity and the price must
    not be negative and the slippage and fee fractions at most 1. *)
Theorem execute_trade_keeps_cash_nonnegative
    self symbol action quantity price date :
  0 <= current_capital self ->
  (action = "SELL" ->
   (0 <= quantity)%Z /\ 0 <= price /\ slippage self <= 1
   /\ transaction_cost self <= 1) ->
  0 <= current_capital
         (execute_trade symbol action quantity price date self).2.
Proof.
  intros Hcash Hsell.
  destruct (execute_trade_cases self symbol action quantity price date)
    as [E | [[held [Ha [? [Hcost E]]]] | [[held [Ha [? [? E]]]]
       | [[Ha [? [Hcost E]]] | [? [? E]]]]]];
    rewrite E; cbn [snd]; try done.
  - unfold engine_after_buy. cbn. rewrite buy_cost_eq.
    by apply Qcle_minus_iff in Hcost.
  - destruct (Hsell Ha) as [Hq [Hp [Hs Ht]]].
    unfold engine_after_sell. cbn. rewrite net_revenue_factored.
    apply Qcplus_nonneg_nonneg; [done|].
    repeat apply Qcmult_nonneg_nonneg; try done.
    + by apply Qc_of_Z_nonneg.
    + by apply Qcle_minus_iff in Hs.
    + by apply Qcle_minus_iff in Ht.
  - cbn. by apply Qcle_minus_iff in Hcost.
Qed.

Lemma execute_trade_keeps_cash_nonnegative_witness :
  0 <= current_capital long_engine
  /\ 0 <= current_capital
            (execute_trade "1579.T" "SELL" 10 (Qc_of_Z 110) 20240109
               long_engine).2.
Proof.
  assert (0 <= current_capital long_engine) as Hcash
    by (vm_compute; discriminate).
  split; [exact Hcash|].
  apply (execute_trade_keeps_cash_nonnegative long_engine "1579.T" "SELL" 10
           (Qc_of_Z 110) 20240109 Hcash).
  intros _. split; [lia|]. repeat split; vm_compute; discriminate.
Defined.

(** X4: buying a quantity and selling the same quantity at the same
    reference price is accepted, restores every position, appends two
    records, and costs exactly twice quantity x price x (slippage + fee
    fraction) in cash. *)
Theorem buy_then_sell_round_trip
    self symbol quantity price date date' held :
  positions self !! symbol = Some held -> (0 <= held)%Z ->
  buy_total_cost self quantity price <= current_capital self ->
  (execute_trade symbol "SELL" quantity price date'
     (execute_trade symbol "BUY" quantity price date self).2).1
  = Returned tt
  /\ positions
       (execute_trade symbol "SELL" quantity price date'
          (execute_trade symbol "BUY" quantity price date self).2).2
     = positions self
  /\ current_capital
       (execute_trade symbol "SELL" quantity price date'
          (execute_trade symbol "BUY" quantity price date self).2).2
     = current_capital self
       - Qc_of_Z 2 * Qc_of_Z quantity * price
         * (slippage self + transaction_cost self)
  /\ length
       (trade_history
          (execute_trade symbol "SELL" quantity price date'
             (execute_trade symbol "BUY" quantity price date self).2).2)
     = S (S (length (trade_history self))).
Proof.
  intros Hheld Hnonneg Hcost.
  rewrite (execute_trade_buy _ _ _ _ _ _ Hheld). cbv zeta.
  rewrite bool_decide_true by (by rewrite buy_cost_eq). cbn [snd].
  erewrite execute_trade_sell by (cbn; apply lookup_insert_eq).
  cbv zeta. rewrite bool_decide_true by lia. cbn.
  split; [done|]. split; [|split].
  - rewrite insert_insert_eq. apply insert_id. rewrite Hheld. f_equal. lia.
  - rewrite Z2Qc_inj_2. ring.
  - rewrite !length_app. cbn. lia.
Qed.

Lemma buy_then_sell_round_trip_witness :
  positions default_engine !! "1579.T" = Some 0%Z /\ (0 <= 0)%Z
  /\ buy_total_cost default_engine 10 (Qc_of_Z 100)
     <= current_capital default_engine
  /\ positions
       (execute_trade "1579.T" "SELL" 10 (Qc_of_Z 100) 20240106
          (execute_trade "1579.T" "BUY" 10 (Qc_of_Z 100) 20240105
             default_engine).2).2
     = positions default_engine.
Proof.
  assert (buy_total_cost default_engine 10 (Qc_of_Z 100)
          <= current_capital default_engine) as Hcost.
  { vm_compute. discriminate. }
  split; [reflexivity|]. split; [lia|]. split; [exact Hcost|].
  apply (buy_then_sell_round_trip default_engine "1579.T" 10 (Qc_of_Z 100)
           20240105 20240106 0); [reflexivity | lia | exact Hcost].
Defined.

(** X5: the record an accepted trade appends carries the date, symbol,
    action and quantity of the call and the slippage-adjusted execution
    price; a BUY record has a 'cost' (the total cost) and no 'revenue', a
    SELL record a 'revenue' (the net proceeds) and no 'cost'; and
    'slippage_cost' is the difference between the notional at the execution
    price and at the reference price. *)
Theorem accepted_record_fields
    self symbol action quantity price date record :
  accepted self (execute_trade symbol action quantity price date self)
    record ->
  record !! "date" = Some (VDate date)
  /\ record !! "symbol" = Some (VStr symbol)
  /\ record !! "action" = Some (VStr action)
  /\ record !! "quantity" = Some (VInt quantity)
  /\ record !! "price" = Some (VFloat (slippage_price self action price))
  /\ ((action = "BUY"
       /\ record !! "cost"
          = Some (VFloat (buy_total_cost self quantity price))
       /\ record !! "revenue" = None
       /\ record !! "slippage_cost"
          = Some (VFloat (Qc_of_Z quantity * slippage_price self action price
                          - Qc_of_Z quantity * price)))
      \/ (action = "SELL"
          /\ record !! "revenue"
             = Some (VFloat (Qc_of_Z quantity * price * (1 - slippage self)
                             * (1 - transaction_cost self)))
          /\ record !! "cost" = None
          /\ record !! "slippage_cost"
             = Some (VFloat (Qc_of_Z quantity * price
                             - Qc_of_Z quantity
                               * slippage_price self action price)))).
Proof.
  intros Hacc. pose proof Hacc as [_ Hhist].
  apply accepted_cases in Hacc
    as [held [Hheld [[-> [_ E]] | [-> [Hle E]]]]];
    rewrite E in Hhist; cbn in Hhist;
    apply app_inv_head in Hhist; injection Hhist as <-;
    unfold slippage_price.
  - rewrite bool_decide_true by done.
    repeat (split; [reflexivity|]). left. split; [done|].
    split; [|split; [reflexivity|]].
    + rewrite <- buy_cost_eq. reflexivity.
    + assert (Qc_of_Z quantity * price * slippage self
              = Qc_of_Z quantity * (price * (1 + slippage self))
                - Qc_of_Z quantity * price) as <- by ring.
      reflexivity.
  - rewrite bool_decide_false by done.
    repeat (split; [reflexivity|]). right. split; [done|].
    split; [|split; [reflexivity|]].
    + rewrite <- net_revenue_factored.
      rewrite (Qcmult_assoc (Qc_of_Z quantity) price). reflexivity.
    + assert (Qc_of_Z quantity * price * slippage self
              = Qc_of_Z quantity * price
                - Qc_of_Z quantity * (price * (1 - slippage self))) as <-
        by ring.
      reflexivity.
Qed.

Lemma accepted_record_fields_witness :
  accepted default_engine sample_buy sample_buy_record
  /\ sample_buy_record !! "quantity" = Some (VInt 10).
Proof.
  split; [exact sample_buy_accepted|].
  exact (proj1 (proj2 (proj2 (proj2
           (accepted_record_fields default_engine "1579.T" "BUY" 10
              (Qc_of_Z 100) 20240105 sample_buy_record
              sample_buy_accepted))))).
Defined.

(** ** [check_risk_management] *)

Lemma risk_signal_shape symbol current_price date self signal :
  signal ∈ check_risk_management symbol current_price date self ->
  exists held entry_price,
    positions self !! symbol = Some held /\ (0 < held)%Z
    /\ position_entry_prices self !! symbol = Some entry_price
    /\ sig_symbol signal = Some symbol
    /\ sig_action signal = Some "SELL"
    /\ sig_quantity signal = Some held
    /\ check_risk_management symbol current_price date self = [signal].
Proof.
  unfold check_risk_management.
  destruct (positions self !! symbol) as [held|]; [|by intros ?%elem_of_nil].
  case_bool_decide as Hheld; [|by intros ?%elem_of_nil].
  destruct (position_entry_prices self !! symbol) as [entry|];
    [|by intros ?%elem_of_nil].
  repeat case_bool_decide;
    intros Hin; [| |by apply elem_of_nil in Hin];
    apply list_elem_of_singleton in Hin as ->; exists held, entry; done.
Qed.

(** X6: whatever the risk check emits for an instrument is a single SELL
    intent for that instrument and for the whole position held, and it is
    emitted only for a positive position with a remembered entry price. *)
Theorem risk_signal_is_full_liquidation
    symbol current_price date self signal :
  signal ∈ check_risk_management symbol current_price date self ->
  exists held entry_price,
    positions self !! symbol = Some held /\ (0 < held)%Z
    /\ position_entry_prices self !! symbol = Some entry_price
    /\ sig_symbol signal = Some symbol
    /\ sig_action signal = Some "SELL"
    /\ sig_quantity signal = Some held
    /\ check_risk_management symbol current_price date self = [signal].
Proof. apply risk_signal_shape. Qed.

Lemma risk_signal_is_full_liquidation_witness :
  stop_loss_exit
    ∈ check_risk_management "1579.T" (Qc_of_Z 90) 20240109 long_engine
  /\ exists held entry_price,
      positions long_engine !! "1579.T" = Some held /\ (0 < held)%Z
      /\ position_entry_prices long_engine !! "1579.T" = Some entry_price
      /\ sig_symbol stop_loss_exit = Some "1579.T"
      /\ sig_action stop_loss_exit = Some "SELL"
      /\ sig_quantity stop_loss_exit = Some held
      /\ check_risk_management "1579.T" (Qc_of_Z 90) 20240109 long_engine
         = [stop_loss_exit].
Proof.
  assert (stop_loss_exit
            ∈ check_risk_management "1579.T" (Qc_of_Z 90) 20240109
                long_engine) as Hin
    by (vm_compute; apply list_elem_of_here).
  split; [exact Hin|].
  exact (risk_signal_is_full_liquidation "1579.T" (Qc_of_Z 90) 20240109
           long_engine stop_loss_exit Hin).
Defined.

Lemma return_le_iff (price entry bound : Qc) :
  0 < entry ->
  (price - entry) / entry <= bound <-> price <= entry * (1 + bound).
Proof.
  intros Hentry.
  assert (entry ≠ 0) as Hne by by apply not_eq_sym, Qclt_not_eq.
  rewrite (Qcmult_le_mono_pos_r _ _ entry Hentry).
  rewrite test_field by done.
  rewrite (Qcplus_le_mono_r _ _ entry).
  assert (price - entry + entry = price) as -> by ring.
  assert (bound * entry + entry = entry * (1 + bound)) as -> by ring.
  done.
Qed.

Lemma return_ge_iff (price entry bound : Qc) :
  0 < entry ->
  bound <= (price - entry) / entry <-> entry * (1 + bound) <= price.
Proof.
  intros Hentry.
  assert (entry ≠ 0) as Hne by by apply not_eq_sym, Qclt_not_eq.
  rewrite (Qcmult_le_mono_pos_r _ _ entry Hentry).
  rewrite test_field by done.
  rewrite (Qcplus_le_mono_r _ _ entry).
  assert (price - entry + entry = price) as -> by ring.
  assert (bound * entry + entry = entry * (1 + bound)) as -> by ring.
  done.
Qed.

(** X7: for an open position with a positive entry price the risk check
    is a comparison of prices: it asks to sell the whole position as a
    stop-loss when the current price is at most entry x (1 - stop_loss),
    otherwise as a take-profit when the current price is at least
    entry x (1 + take_profit), and otherwise it asks for nothing. *)
Theorem risk_trigger_prices symbol current_price date self held entry_price :
  positions self !! symbol = Some held -> (0 < held)%Z ->
  position_entry_prices self !! symbol = Some entry_price ->
  0 < entry_price ->
  check_risk_management symbol current_price date self
  = if bool_decide (current_price <= entry_price * (1 - stop_loss self))
    then [ {| sig_symbol := Some symbol; sig_action := Some "SELL";
              sig_quantity := Some held;
              sig_reason := Some "Stop-loss triggered" |} ]
    else if bool_decide
              (entry_price * (1 + take_profit self) <= current_price)
    then [ {| sig_symbol := Some symbol; sig_action := Some "SELL";
              sig_quantity := Some held;
              sig_reason := Some "Take-profit triggered" |} ]
    else [].
Proof.
  intros Hheld Hpos Hentry Hpositive. unfold check_risk_management.
  rewrite Hheld, bool_decide_true, Hentry by done. cbv zeta.
  rewrite (bool_decide_ext _ _ (return_le_iff _ _ _ Hpositive)).
  rewrite (bool_decide_ext _ _ (return_ge_iff _ _ _ Hpositive)).
  done.
Qed.

Lemma risk_trigger_prices_witness :
  positions long_engine !! "1579.T" = Some 10%Z /\ (0 < 10)%Z
  /\ position_entry_prices long_engine !! "1579.T" = Some (Qc_of_Z 100)
  /\ 0 < Qc_of_Z 100
  /\ check_risk_management "1579.T" (Qc_of_Z 90) 20240109 long_engine
     = if bool_decide
            (Qc_of_Z 90 <= Qc_of_Z 100 * (1 - stop_loss long_engine))
       then [ {| sig_symbol := Some "1579.T"; sig_action := Some "SELL";
                 sig_quantity := Some 10%Z;
                 sig_reason := Some "Stop-loss triggered" |} ]
       else if bool_decide
                 (Qc_of_Z 100 * (1 + take_profit long_engine) <= Qc_of_Z 90)
       then [ {| sig_symbol := Some "1579.T"; sig_action := Some "SELL";
                 sig_quantity := Some 10%Z;
                 sig_reason := Some "Take-profit triggered" |} ]
       else [].
Proof.
  assert (0 < Qc_of_Z 100) as Hentry by (vm_compute; reflexivity).
  split; [reflexivity|]. split; [lia|]. split; [reflexivity|].
  split; [exact Hentry|].
  apply (risk_trigger_prices "1579.T" (Qc_of_Z 90) 20240109 long_engine 10
           (Qc_of_Z 100)); [reflexivity | lia | reflexivity | exact Hentry].
Defined.

(** X8: executing an intent of the risk check at a known price always
    succeeds: the position goes to zero, the cash grows by the net proceeds
    of the whole position, and no later risk check asks to sell that
    position again. *)
Theorem risk_signal_liquidates
    symbol current_price date self signal current_prices price :
  signal ∈ check_risk_management symbol current_price date self ->
  current_prices !! symbol = Some price ->
  exists held,
    positions self !! symbol = Some held
    /\ (execute_signal current_prices date signal self).1 = Returned tt
    /\ positions (execute_signal current_prices date signal self).2
         !! symbol = Some 0%Z
    /\ current_capital (execute_signal current_prices date signal self).2
       = current_capital self
         + Qc_of_Z held * price * (1 - slippage self)
           * (1 - transaction_cost self)
    /\ forall later_price later_date,
        check_risk_management symbol later_price later_date
          (execute_signal current_prices date signal self).2 = [].
Proof.
  intros [held [entry [Hheld [Hpos [_ [Hs [Ha [Hq _]]]]]]]]%risk_signal_shape
    Hprice.
  exists held. split; [done|].
  rewrite execute_signal_unfold, Hs, Ha, Hq, Hprice.
  rewrite (execute_trade_sell _ _ _ _ _ _ Hheld). cbv zeta.
  rewrite bool_decide_true by lia. cbn.
  split; [done|]. rewrite lookup_insert_eq, Z.sub_diag.
  split; [done|]. split; [ring|].
  intros p' d'. unfold check_risk_management. cbn.
  rewrite lookup_insert_eq. by rewrite bool_decide_false by lia.
Qed.

Lemma risk_signal_liquidates_witness :
  stop_loss_exit
    ∈ check_risk_management "1579.T" (Qc_of_Z 90) 20240109 long_engine
  /\ prices_at_ninety !! "1579.T" = Some (Qc_of_Z 90)
  /\ exists held,
      positions long_engine !! "1579.T" = Some held
      /\ positions
           (execute_signal prices_at_ninety 20240109 stop_loss_exit
              long_engine).2 !! "1579.T" = Some 0%Z.
Proof.
  assert (stop_loss_exit
            ∈ check_risk_management "1579.T" (Qc_of_Z 90) 20240109
                long_engine) as Hin
    by (vm_compute; apply list_elem_of_here).
  assert (prices_at_ninety !! "1579.T" = Some (Qc_of_Z 90)) as Hprice
    by reflexivity.
  split; [exact Hin|]. split; [exact Hprice|].
  destruct (risk_signal_liquidates "1579.T" (Qc_of_Z 90) 20240109 long_engine
              stop_loss_exit prices_at_ninety (Qc_of_Z 90) Hin Hprice)
    as [held [Hheld [_ [Hflat _]]]].
  exists held. split; [exact Hheld | exact Hflat].
Defined.

(** ** [calculate_portfolio_value] *)

Lemma portfolio_value_of_flat current_prices self :
  (forall symbol quantity,
      positions self !! symbol = Some quantity ->
      quantity = 0%Z \/ current_prices !! symbol = None) ->
  calculate_portfolio_value current_prices self = current_capital self.
Proof.
  unfold calculate_portfolio_value.
  generalize (current_capital self) as cash.
  intros cash.
  apply (map_fold_weak_ind
           (fun value (m : gmap string Z) =>
              (forall symbol quantity,
                  m !! symbol = Some quantity ->
                  quantity = 0%Z \/ current_prices !! symbol = None) ->
              value = cash)); [done|].
  intros symbol quantity m value Hfresh IH Hflat.
  rewrite IH.
  - destruct (Hflat symbol quantity) as [-> | ->];
      [by rewrite lookup_insert_eq | | done].
    destruct (current_prices !! symbol); [|done].
    rewrite Z2Qc_inj_0. ring.
  - intros s q Hs. apply Hflat.
    rewrite lookup_insert_ne; [done|]. intros ->. by rewrite Hfresh in Hs.
Qed.

(** X9: a portfolio that holds nothing that has a price is worth exactly
    its cash. *)
Theorem flat_portfolio_is_worth_its_cash current_prices self :
  (forall symbol quantity,
      positions self !! symbol = Some quantity ->
      quantity = 0%Z \/ current_prices !! symbol = None) ->
  calculate_portfolio_value current_prices self = current_capital self.
Proof. apply portfolio_value_of_flat. Qed.

Lemma flat_portfolio_is_worth_its_cash_witness :
  (forall symbol quantity,
      positions default_engine !! symbol = Some quantity ->
      quantity = 0%Z \/ prices_at_hundred !! symbol = None)
  /\ calculate_portfolio_value prices_at_hundred default_engine
     = current_capital default_engine.
Proof.
  assert (forall symbol quantity,
             positions default_engine !! symbol = Some quantity ->
             quantity = 0%Z \/ prices_at_hundred !! symbol = None) as Hflat.
  { intros symbol quantity Hheld. left.
    assert (map_Forall (fun _ q => q = 0%Z) (positions default_engine))
      as Hzero
      by (apply map_Forall_to_list; vm_compute; repeat constructor).
    exact (Hzero symbol quantity Hheld). }
  split; [exact Hflat|].
  exact (flat_portfolio_is_worth_its_cash prices_at_hundred default_engine
           Hflat).
Defined.

(** ** Mark-to-market value *)

Lemma calculate_portfolio_value_fold current_prices self :
  calculate_portfolio_value current_prices self
  = map_fold (add_position_value current_prices) (current_capital self)
      (positions self).
Proof. reflexivity. Qed.

Lemma add_position_value_comm current_prices s1 q1 s2 q2 value :
  add_position_value current_prices s1 q1
    (add_position_value current_prices s2 q2 value)
  = add_position_value current_prices s2 q2
      (add_position_value current_prices s1 q1 value).
Proof.
  unfold add_position_value.
  destruct (current_prices !! s1), (current_prices !! s2); try done. ring.
Qed.

Lemma add_position_value_shift current_prices s q value cash :
  add_position_value current_prices s q (value + cash)
  = add_position_value current_prices s q value + cash.
Proof.
  unfold add_position_value. destruct (current_prices !! s); [ring | done].
Qed.

Lemma fold_value_insert current_prices cash symbol quantity
    (m : gmap string Z) :
  m !! symbol = None ->
  map_fold (add_position_value current_prices) cash (<[symbol := quantity]> m)
  = add_position_value current_prices symbol quantity
      (map_fold (add_position_value current_prices) cash m).
Proof.
  intros Hfresh. apply map_fold_insert_L; [|done].
  intros. apply add_position_value_comm.
Qed.

Lemma fold_value_cash current_prices (m : gmap string Z) :
  forall cash,
    map_fold (add_position_value current_prices) cash m
    = map_fold (add_position_value current_prices) 0 m + cash.
Proof.
  induction m as [|symbol quantity m Hfresh IH] using map_ind; intros cash.
  - rewrite !map_fold_empty. ring.
  - rewrite !fold_value_insert by done. rewrite IH.
    apply add_position_value_shift.
Qed.

Lemma fold_value_update current_prices cash cash' symbol held held' price
    (m : gmap string Z) :
  m !! symbol = Some held -> current_prices !! symbol = Some price ->
  map_fold (add_position_value current_prices) cash'
    (<[symbol := held']> m)
  = map_fold (add_position_value current_prices) cash m
    + (cash' - cash) + (Qc_of_Z held' - Qc_of_Z held) * price.
Proof.
  intros Hheld Hprice.
  rewrite <- (insert_delete_id m symbol held Hheld) at 2.
  rewrite <- (insert_delete_eq m symbol held').
  rewrite !fold_value_insert by apply lookup_delete_eq.
  rewrite (fold_value_cash _ _ cash), (fold_value_cash _ _ cash').
  unfold add_position_value. rewrite Hprice. ring.
Qed.

(** X10: marked at the price it was made at, an accepted trade lowers the
    portfolio value by its frictions and by nothing else: a BUY by
    quantity x price x (slippage + fee + slippage x fee), a SELL by
    quantity x price x (slippage + fee - slippage x fee). *)
Theorem accepted_trade_costs_its_frictions
    self symbol action quantity price date record current_prices :
  accepted self (execute_trade symbol action quantity price date self)
    record ->
  current_prices !! symbol = Some price ->
  (action = "BUY"
   /\ calculate_portfolio_value current_prices
        (execute_trade symbol action quantity price date self).2
      = calculate_portfolio_value current_prices self
        - Qc_of_Z quantity * price
          * (slippage self + transaction_cost self
             + slippage self * transaction_cost self))
  \/ (action = "SELL"
      /\ calculate_portfolio_value current_prices
           (execute_trade symbol action quantity price date self).2
         = calculate_portfolio_value current_prices self
           - Qc_of_Z quantity * price
             * (slippage self + transaction_cost self
                - slippage self * transaction_cost self)).
Proof.
  intros [held [Hheld [[-> [_ ->]] | [-> [Hle ->]]]]]%accepted_cases Hprice;
    [left | right]; (split; [done|]);
    rewrite !calculate_portfolio_value_fold; cbn;
    rewrite (fold_value_update _ (current_capital self) _ _ _ _ _ _
               Hheld Hprice).
  - rewrite Z2Qc_inj_add. ring.
  - rewrite Z2Qc_inj_sub. ring.
Qed.

Lemma accepted_trade_costs_its_frictions_witness :
  accepted default_engine sample_buy sample_buy_record
  /\ prices_at_hundred !! "1579.T" = Some (Qc_of_Z 100)
  /\ calculate_portfolio_value prices_at_hundred sample_buy.2
     = calculate_portfolio_value prices_at_hundred default_engine
       - Qc_of_Z 10 * Qc_of_Z 100
         * (slippage default_engine + transaction_cost default_engine
            + slippage default_engine * transaction_cost default_engine).
Proof.
  assert (prices_at_hundred !! "1579.T" = Some (Qc_of_Z 100)) as Hprice
    by reflexivity.
  split; [exact sample_buy_accepted|]. split; [exact Hprice|].
  destruct (accepted_trade_costs_its_frictions default_engine "1579.T" "BUY"
              10 (Qc_of_Z 100) 20240105 sample_buy_record prices_at_hundred
              sample_buy_accepted Hprice) as [[_ Hvalue] | [Hsell _]];
    [exact Hvalue | discriminate Hsell].
Defined.

(** ** What the strategy is shown *)

Lemma dict_comprehension_spec {V} (f : string -> Outcome V) keys :
  forall acc result,
    dict_comprehension f keys acc = Returned result ->
    forall k,
      (k ∈ keys -> exists v, f k = Returned v /\ result !! k = Some v)
      /\ (k ∉ keys -> result !! k = acc !! k).
Proof.
  induction keys as [|k0 keys IH]; intros acc result.
  - intros [= <-] k. split; [by intros ?%elem_of_nil | done].
  - cbn [dict_comprehension]. unfold mbind, Outcome_bind.
    destruct (f k0) as [v0|] eqn:Hf; [|done].
    intros Hrest k. destruct (IH _ _ Hrest k) as [Hin Hout]. split.
    + intros Hk. destruct (decide (k ∈ keys)) as [Hkeys | Hkeys];
        [by auto|].
      apply elem_of_cons in Hk as [-> | Hk]; [|done].
      exists v0. split; [done|]. rewrite Hout by done.
      apply lookup_insert_eq.
    + intros [Hne Hkeys]%not_elem_of_cons. rewrite Hout by done.
      by apply lookup_insert_ne.
Qed.

Lemma current_prices_within data symbols date current_prices :
  current_prices_at data symbols date = Returned current_prices ->
  priced_within symbols current_prices.
Proof.
  intros Hcp symbol Hout.
  destruct (dict_comprehension_spec _ _ _ _ Hcp symbol) as [_ ->]; done.
Qed.

Lemma dict_comprehension_ext {V} (f g : string -> Outcome V) keys :
  (forall k, k ∈ keys -> f k = g k) ->
  forall acc, dict_comprehension f keys acc = dict_comprehension g keys acc.
Proof.
  induction keys as [|k keys IH]; intros Hfg acc; [done|].
  cbn [dict_comprehension]. rewrite <- (Hfg k) by (by left).
  unfold mbind, Outcome_bind. destruct (f k) as [v|]; [|done].
  apply IH. intros k' Hk'. apply Hfg. by right.
Qed.

Lemma current_data_at_spec data symbols date current_data :
  current_data_at data symbols date = Returned current_data ->
  forall symbol,
    (symbol ∉ symbols -> current_data !! symbol = None)
    /\ (symbol ∈ symbols ->
        exists full shown,
          data !! symbol = Some full
          /\ current_data !! symbol = Some shown
          /\ forall day row,
              shown !! day = Some row
              <-> full !! day = Some row /\ (day <= date)%Z).
Proof.
  intros Hcd symbol.
  destruct (dict_comprehension_spec _ _ _ _ Hcd symbol) as [Hin Hout].
  split; [by intros ->%Hout|].
  intros [shown [Hf Hshown]]%Hin. revert Hf.
  unfold getitem, mbind, Outcome_bind, mret, Outcome_ret.
  destruct (data !! symbol) as [full|]; [|done]. intros [= <-].
  exists full, (loc_upto full date). split; [done|]. split; [done|].
  intros day row. unfold loc_upto. by rewrite map_lookup_filter_Some.
Qed.

Lemma current_prices_at_spec data symbols date current_prices :
  current_prices_at data symbols date = Returned current_prices ->
  forall symbol,
    (symbol ∉ symbols -> current_prices !! symbol = None)
    /\ (symbol ∈ symbols ->
        exists frame row price,
          data !! symbol = Some frame /\ frame !! date = Some row
          /\ row !! "Close" = Some price
          /\ current_prices !! symbol = Some price).
Proof.
  intros Hcp symbol.
  destruct (dict_comprehension_spec _ _ _ _ Hcp symbol) as [Hin Hout].
  split; [by intros ->%Hout|].
  intros [price [Hf Hprice]]%Hin. revert Hf.
  unfold getitem, loc_at, mbind, Outcome_bind.
  destruct (data !! symbol) as [frame|]; [|done].
  destruct (frame !! date) as [row|] eqn:Hrow; [|done].
  unfold getitem. destruct (row !! "Close") as [close|] eqn:Hclose; [|done].
  intros [= <-]. by exists frame, row, close.
Qed.

Lemma backtest_step_consults data symbols date self cd cp
    (strategy strategy' :
       gmap string DataFrame -> gmap string Qc -> Outcome (list Signal)) :
  current_data_at data symbols date = Returned cd ->
  current_prices_at data symbols date = Returned cp ->
  strategy cd cp = strategy' cd cp ->
  backtest_step strategy data symbols date self
  = backtest_step strategy' data symbols date self.
Proof.
  intros Hcd Hcp Hsame. rewrite !backtest_step_unfold.
  by rewrite Hcd, Hcp, Hsame.
Qed.

Lemma loc_at_upto (df : DataFrame) date column :
  loc_at (loc_upto df date) date column = loc_at df date column.
Proof.
  unfold loc_at, loc_upto.
  destruct (df !! date) as [row|] eqn:Hrow.
  - by rewrite (proj2 (map_lookup_filter_Some _ df date row))
      by (split; [done | cbn; lia]).
  - by rewrite (proj2 (map_lookup_filter_None _ df date)) by (by left).
Qed.

Lemma backtest_step_same_until data data' symbols date self
    (strategy :
       gmap string DataFrame -> gmap string Qc -> Outcome (list Signal)) :
  same_until date symbols data data' ->
  backtest_step strategy data symbols date self
  = backtest_step strategy data' symbols date self.
Proof.
  intros Hsame. rewrite !backtest_step_unfold.
  assert (current_data_at data symbols date
          = current_data_at data' symbols date) as ->.
  { apply dict_comprehension_ext. intros symbol Hin.
    specialize (Hsame symbol Hin). unfold getitem, mbind, Outcome_bind,
      mret, Outcome_ret.
    destruct (data !! symbol) as [df|], (data' !! symbol) as [df'|];
      cbn in Hsame; [|done..].
    injection Hsame as Hsame. by rewrite Hsame. }
  assert (current_prices_at data symbols date
          = current_prices_at data' symbols date) as ->; [|done].
  apply dict_comprehension_ext. intros symbol Hin.
  specialize (Hsame symbol Hin). unfold getitem, mbind, Outcome_bind.
  destruct (data !! symbol) as [df|], (data' !! symbol) as [df'|];
    cbn in Hsame; [|done..].
  injection Hsame as Hsame.
  by rewrite <- (loc_at_upto df), <- (loc_at_upto df'), Hsame.
Qed.

(** X11: the strategy is shown no future bar.  When the bar of a date gets
    as far as calling the strategy, the frames it has built hold, for each
    requested instrument and no other, exactly the rows of the instrument's
    frame dated on or before that date; the bar consults the strategy on
    these frames and the bar's prices only (two strategies that agree there
    give the same bar); and the bar is the same for any other data whose
    frames have the same rows up to that date. *)
Theorem strategy_sees_no_future data symbols date self cd cp :
  current_data_at data symbols date = Returned cd ->
  current_prices_at data symbols date = Returned cp ->
  (forall symbol,
      (symbol ∉ symbols -> cd !! symbol = None)
      /\ (symbol ∈ symbols ->
          exists full shown,
            data !! symbol = Some full
            /\ cd !! symbol = Some shown
            /\ forall day row,
                shown !! day = Some row
                <-> full !! day = Some row /\ (day <= date)%Z))
  /\ (forall strategy strategy' :
             gmap string DataFrame -> gmap string Qc ->
             Outcome (list Signal),
         strategy cd cp = strategy' cd cp ->
         backtest_step strategy data symbols date self
         = backtest_step strategy' data symbols date self)
  /\ (forall (strategy :
                gmap string DataFrame -> gmap string Qc ->
                Outcome (list Signal)) data',
         same_until date symbols data data' ->
         backtest_step strategy data symbols date self
         = backtest_step strategy data' symbols date self).
Proof.
  intros Hcd Hcp. split; [by apply current_data_at_spec|]. split.
  - intros strategy strategy'. by apply backtest_step_consults.
  - intros strategy data'. apply backtest_step_same_until.
Qed.

Lemma strategy_sees_no_future_witness :
  current_data_at sample_data both_symbols 20240105
  = Returned sample_current_data
  /\ current_prices_at sample_data both_symbols 20240105
     = Returned sample_current_prices
  /\ (exists full shown,
         sample_data !! "1579.T" = Some full
         /\ sample_current_data !! "1579.T" = Some shown
         /\ forall day row,
             shown !! day = Some row
             <-> full !! day = Some row /\ (day <= 20240105)%Z)
  /\ backtest_step (always buy_ten) sample_data both_symbols 20240105
       default_engine
     = backtest_step
         (fun _ _ => always buy_ten sample_current_data sample_current_prices)
         sample_data both_symbols 20240105 default_engine.
Proof.
  assert (current_data_at sample_data both_symbols 20240105
          = Returned sample_current_data) as Hshown
    by (vm_compute; reflexivity).
  assert (current_prices_at sample_data both_symbols 20240105
          = Returned sample_current_prices) as Hprices
    by (vm_compute; reflexivity).
  split; [exact Hshown|]. split; [exact Hprices|].
  destruct (strategy_sees_no_future sample_data both_symbols 20240105
              default_engine sample_current_data sample_current_prices
              Hshown Hprices) as [Hrows [Hconsults _]].
  split.
  - apply (Hrows "1579.T"). apply list_elem_of_here.
  - apply Hconsults. reflexivity.
Defined.

Lemma filled_since_refl current_prices self :
  filled_since current_prices self self.
Proof.
  split; [done|]. exists []. split; [by rewrite app_nil_r | constructor].
Qed.

Lemma execute_trade_filled current_prices start self symbol action quantity
    price date :
  current_prices !! symbol = Some price ->
  filled_since current_prices start self ->
  filled_since current_prices start
    (execute_trade symbol action quantity price date self).2.
Proof.
  intros Hprice [Hslip [new [Hlog Hnew]]].
  destruct (execute_trade_cases self symbol action quantity price date)
    as [E | [[held [-> [? [? E]]]] | [[held [-> [? [? E]]]]
       | [[? [? [? E]]] | [? [? E]]]]]];
    rewrite E; cbn [snd]; try (split; [done | by exists new]).
  - split; [done|]. eexists (new ++ [_]). unfold engine_after_buy. cbn.
    split; [by rewrite Hlog, <- app_assoc|].
    apply Forall_app. split; [done|]. repeat constructor.
    exists symbol, "BUY", price. unfold slippage_price.
    rewrite bool_decide_true, <- Hslip by done. done.
  - split; [done|]. eexists (new ++ [_]). unfold engine_after_sell. cbn.
    split; [by rewrite Hlog, <- app_assoc|].
    apply Forall_app. split; [done|]. repeat constructor.
    exists symbol, "SELL", price. unfold slippage_price.
    rewrite bool_decide_false, <- Hslip by done. done.
Qed.

Lemma execute_signal_filled current_prices start date signal self :
  filled_since current_prices start self ->
  filled_since current_prices start
    (execute_signal current_prices date signal self).2.
Proof.
  intros Hfilled. rewrite execute_signal_unfold.
  destruct (sig_symbol signal) as [symbol|]; [|done].
  destruct (sig_action signal) as [action|]; [|done].
  destruct (sig_quantity signal) as [quantity|]; [|done].
  destruct (current_prices !! symbol) as [price|] eqn:Hprice; [|done].
  by apply execute_trade_filled.
Qed.

Lemma backtest_step_filled data symbols date self cp
    (strategy :
       gmap string DataFrame -> gmap string Qc -> Outcome (list Signal)) :
  current_prices_at data symbols date = Returned cp ->
  filled_since cp self (backtest_step strategy data symbols date self).2.
Proof.
  intros Hcp. pose proof (filled_since_refl cp self) as Hstart.
  rewrite backtest_step_unfold, Hcp.
  destruct (current_data_at data symbols date) as [cd|]; [|done].
  destruct (strategy cd cp) as [signals|]; [|done].
  destruct (collect_risk_signals cp date symbols self) as [risk|]; [|done].
  assert (forall l s,
             filled_since cp self s ->
             filled_since cp self
               (for_each (execute_signal cp date) l s).2) as Hloop.
  { intros l s. apply (for_each_preserves (filled_since cp self)).
    intros signal s' _. apply execute_signal_filled. }
  pose proof (Hloop risk self Hstart) as H1.
  destruct (for_each (execute_signal cp date) risk self)
    as [[[]|e1] self1]; [|done]. cbn [snd] in H1.
  pose proof (Hloop signals self1 H1) as H2.
  destruct (for_each (execute_signal cp date) signals self1)
    as [[[]|e2] self2]; [|done]. cbn [snd] in H2.
  exact H2.
Qed.

(** X12: the prices of a bar are that day's closes.  The prices the bar of
    a date builds have, for each requested instrument and no other, the
    'Close' of the instrument's row for that date; the bar consults the
    strategy on these prices; and every trade record the bar appends is a
    fill at the close of its instrument on that date, adjusted by the
    slippage for its action. *)
Theorem current_prices_are_the_closes data symbols date self cp :
  current_prices_at data symbols date = Returned cp ->
  (forall symbol,
      (symbol ∉ symbols -> cp !! symbol = None)
      /\ (symbol ∈ symbols ->
          exists frame row price,
            data !! symbol = Some frame /\ frame !! date = Some row
            /\ row !! "Close" = Some price
            /\ cp !! symbol = Some price))
  /\ (forall cd (strategy strategy' :
                   gmap string DataFrame -> gmap string Qc ->
                   Outcome (list Signal)),
         current_data_at data symbols date = Returned cd ->
         strategy cd cp = strategy' cd cp ->
         backtest_step strategy data symbols date self
         = backtest_step strategy' data symbols date self)
  /\ (forall strategy :
             gmap string DataFrame -> gmap string Qc ->
             Outcome (list Signal),
         exists new,
           trade_history (backtest_step strategy data symbols date self).2
           = trade_history self ++ new
           /\ Forall (filled_at_close data date self) new).
Proof.
  intros Hcp. pose proof (current_prices_at_spec _ _ _ _ Hcp) as Hcloses.
  split; [done|]. split.
  - intros cd strategy strategy' Hcd. by apply backtest_step_consults.
  - intros strategy.
    destruct (backtest_step_filled data symbols date self cp strategy Hcp)
      as [_ [new [Hlog Hnew]]].
    exists new. split; [done|]. eapply Forall_impl; [done|].
    intros record [symbol [action [close [Hs [Ha [Hprice Hfill]]]]]].
    destruct (Hcloses symbol) as [Hout Hin].
    destruct (decide (symbol ∈ symbols)) as [Hsymbol | Hsymbol];
      [|by rewrite Hout in Hprice].
    destruct (Hin Hsymbol) as [frame [row [price [Hf [Hr [Hc Hp]]]]]].
    assert (close = price) as -> by congruence.
    by exists symbol, action, frame, row, price.
Qed.

Lemma current_prices_are_the_closes_witness :
  current_prices_at sample_data both_symbols 20240105
  = Returned sample_current_prices
  /\ (exists frame row price,
         sample_data !! "1360.T" = Some frame
         /\ frame !! 20240105%Z = Some row
         /\ row !! "Close" = Some price
         /\ sample_current_prices !! "1360.T" = Some price)
  /\ exists new,
      trade_history
        (backtest_step (always buy_ten) sample_data both_symbols 20240105
           default_engine).2
      = trade_history default_engine ++ new
      /\ Forall (filled_at_close sample_data 20240105 default_engine) new.
Proof.
  assert (current_prices_at sample_data both_symbols 20240105
          = Returned sample_current_prices) as Hprices
    by (vm_compute; reflexivity).
  split; [exact Hprices|].
  destruct (current_prices_are_the_closes sample_data both_symbols 20240105
              default_engine sample_current_prices Hprices)
    as [Hcloses [_ Hfills]].
  split.
  - apply (Hcloses "1360.T").
    apply list_elem_of_further, list_elem_of_here.
  - apply Hfills.
Defined.

(** ** Runs without a bar to simulate *)

Section RunEdges.

Variable history : string -> DataFrame.
Variable calculate_technical_indicators : DataFrame -> DataFrame.
Hypothesis indicators_keep_index :
  forall df, dom (calculate_technical_indicators df) = dom df.
Variable trading_algorithm :
  gmap string DataFrame -> gmap string Qc -> Outcome (list Signal).

Lemma common_dates_returns symbols :
  symbols ≠ [] ->
  exists dates,
    common_dates
      (with_indicators calculate_technical_indicators symbols
         (get_historical_data history symbols)) = Returned dates.
Proof.
  intros Hne. destruct symbols as [|symbol0 symbols]; [done|].
  destruct (run_data_frames history calculate_technical_indicators
              indicators_keep_index (symbol0 :: symbols) symbol0)
    as [Hsome _].
  destruct Hsome as [df [Hdf _]]; [by left|].
  unfold common_dates.
  destruct (map_to_list _) as [|[s df'] rest] eqn:Hlist; [|by eexists].
  apply map_to_list_empty_iff in Hlist. rewrite Hlist in Hdf.
  by rewrite lookup_empty in Hdf.
Qed.

(** X13: a run with nothing to simulate never returns a result.  With no
    instrument at all it raises [TypeError] before the engine is touched;
    with instruments that have no date in common it raises [IndexError]
    after the tracking state has been reset, whatever the strategy. *)
Theorem run_backtest_without_common_date symbols self :
  symbols = [] \/ (forall date, ~ in_every_history history symbols date) ->
  (symbols = []
   /\ run_backtest history calculate_technical_indicators trading_algorithm
        symbols self
      = (Raised TypeError, self))
  \/ (symbols ≠ []
      /\ run_backtest history calculate_technical_indicators
           trading_algorithm symbols self
         = (Raised IndexError, initialize_tracking symbols self)).
Proof.
  intros Hnone. destruct symbols as [|symbol0 symbols].
  { left. split; reflexivity. }
  destruct Hnone as [? | Hempty]; [done|].
  right. split; [done|]. rewrite run_backtest_unfold. cbv zeta.
  destruct (common_dates_returns (symbol0 :: symbols)) as [dates Hdates];
    [done|].
  rewrite Hdates.
  apply (run_dates_in_every_history history calculate_technical_indicators
           indicators_keep_index) in Hdates as [_ Hmem].
  assert (dates = []) as ->.
  { apply elem_of_nil_inv. intros date Hin. by apply (Hempty date), Hmem. }
  reflexivity.
Qed.

End RunEdges.

Lemma run_backtest_without_common_date_witness :
  (both_symbols = []
   \/ forall date, ~ in_every_history gap_history both_symbols date)
  /\ (sample_run gap_history buy_ten).1 = Raised IndexError.
Proof.
  assert (both_symbols = []
          \/ forall date, ~ in_every_history gap_history both_symbols date)
    as Hnone.
  { right. intros date Hin.
    assert (date ∈ dom (gap_history "1360.T")) as Hdate
      by (apply Hin; apply list_elem_of_further, list_elem_of_here).
    change (date ∈ dom (∅ : DataFrame)) in Hdate.
    rewrite dom_empty_L in Hdate. exact (not_elem_of_empty date Hdate). }
  split; [exact Hnone|].
  destruct (run_backtest_without_common_date gap_history sample_indicators
              sample_indicators_keep_index (always buy_ten) both_symbols
              default_engine Hnone) as [[Hsymbols _] | [_ Hrun]];
    [discriminate Hsymbols|].
  exact (f_equal fst Hrun).
Defined.

(** ** The cash and the trade log *)

Lemma log_cash_flow_snoc log record :
  log_cash_flow (log ++ [record])
  = log_cash_flow log + record_cash_flow record.
Proof.
  unfold log_cash_flow. induction log as [|r log IH]; cbn; [ring|].
  rewrite IH. ring.
Qed.

Lemma execute_trade_reconciled capital self symbol action quantity price date :
  is_Some (positions self !! symbol) -> reconciled capital self ->
  reconciled capital (execute_trade symbol action quantity price date self).2.
Proof.
  intros [held0 Hheld0] Hrec. unfold reconciled in *.
  destruct (execute_trade_cases self symbol action quantity price date)
    as [E | [[held [? [? [? E]]]] | [[held [? [? [? E]]]]
       | [[? [? [? E]]] | [? [? E]]]]]];
    rewrite E; cbn [snd]; try done; try congruence.
  - unfold engine_after_buy. cbn. rewrite log_cash_flow_snoc, Hrec.
    assert (forall d s a q e c f sl,
               record_cash_flow (buy_record d s a q e c f sl) = - c) as ->
      by reflexivity.
    ring.
  - unfold engine_after_sell. cbn. rewrite log_cash_flow_snoc, Hrec.
    assert (forall d s a q e c f sl,
               record_cash_flow (sell_record d s a q e c f sl) = c) as ->
      by reflexivity.
    ring.
Qed.

Lemma execute_trade_tracks symbols self symbol action quantity price date :
  tracks symbols self ->
  tracks symbols (execute_trade symbol action quantity price date self).2.
Proof.
  intros Htracks s Hs. specialize (Htracks s Hs).
  destruct (execute_trade_frame self symbol action quantity price date)
    as [_ [-> | [held [Hheld [[_ ->] | [_ [_ ->]]]]]]]; [done|..];
    (destruct (decide (symbol = s)) as [-> | Hne];
       [rewrite lookup_insert_eq; eauto | by rewrite lookup_insert_ne]).
Qed.

Lemma execute_signal_books capital symbols current_prices date signal self :
  priced_within symbols current_prices ->
  tracks symbols self /\ reconciled capital self ->
  tracks symbols (execute_signal current_prices date signal self).2
  /\ reconciled capital (execute_signal current_prices date signal self).2.
Proof.
  intros Hpriced [Htracks Hrec]. rewrite execute_signal_unfold.
  destruct (sig_symbol signal) as [symbol|]; [|done].
  destruct (sig_action signal) as [action|]; [|done].
  destruct (sig_quantity signal) as [quantity|]; [|done].
  destruct (current_prices !! symbol) as [price|] eqn:Hprice; [|done].
  split; [by apply execute_trade_tracks|].
  apply execute_trade_reconciled; [|done]. apply Htracks.
  destruct (decide (symbol ∈ symbols)) as [|Hout]; [done|].
  apply Hpriced in Hout. congruence.
Qed.

Lemma initialize_tracking_books symbols self :
  tracks symbols (initialize_tracking symbols self)
  /\ reconciled (initial_capital self) (initialize_tracking symbols self).
Proof.
  split; [|unfold reconciled; cbn; ring].
  intros symbol Hin. cbn.
  assert (forall (acc : gmap string Z),
             symbol ∈ symbols \/ is_Some (acc !! symbol) ->
             is_Some
               (foldl (fun d s => <[s := 0%Z]> d) acc symbols !! symbol))
    as Hfold.
  { clear Hin. induction symbols as [|s symbols IH]; intros acc.
    - by intros [?%elem_of_nil | ?].
    - intros Hcase. cbn [foldl]. apply IH.
      destruct (decide (s = symbol)) as [-> | Hne].
      + right. rewrite lookup_insert_eq. by eauto.
      + rewrite lookup_insert_ne by done.
        destruct Hcase as [[?|?]%elem_of_cons | ?]; by auto. }
  apply Hfold. by left.
Qed.

Section Books.

Variable history : string -> DataFrame.
Variable calculate_technical_indicators : DataFrame -> DataFrame.
Variable trading_algorithm :
  gmap string DataFrame -> gmap string Qc -> Outcome (list Signal).

Lemma backtest_step_books capital data symbols date self :
  tracks symbols self /\ reconciled capital self ->
  tracks symbols (backtest_step trading_algorithm data symbols date self).2
  /\ reconciled capital
       (backtest_step trading_algorithm data symbols date self).2.
Proof.
  intros Hbooks. rewrite backtest_step_unfold.
  destruct (current_data_at data symbols date) as [cd|]; [|done].
  destruct (current_prices_at data symbols date) as [cp|] eqn:Hcp; [|done].
  assert (priced_within symbols cp) as Hpriced
    by (by eapply current_prices_within).
  destruct (trading_algorithm cd cp) as [signals|]; [|done].
  destruct (collect_risk_signals cp date symbols self) as [risk|]; [|done].
  assert (forall l s,
             tracks symbols s /\ reconciled capital s ->
             tracks symbols (for_each (execute_signal cp date) l s).2
             /\ reconciled capital (for_each (execute_signal cp date) l s).2)
    as Hloop.
  { intros l s. apply (for_each_preserves
                         (fun s => tracks symbols s /\ reconciled capital s)).
    intros signal s' _. by apply execute_signal_books. }
  pose proof (Hloop risk self Hbooks) as H1.
  destruct (for_each (execute_signal cp date) risk self)
    as [[[]|e1] self1]; [|done]. cbn [snd] in H1.
  pose proof (Hloop signals self1 H1) as H2.
  destruct (for_each (execute_signal cp date) signals self1)
    as [[[]|e2] self2]; [|done]. cbn [snd] in H2.
  exact H2.
Qed.

(** X14: the books of a run always balance.  However the run ends, with a
    result or with an error raised in the middle of a bar, the cash is the
    initial capital minus the 'cost' of every BUY record plus the 'revenue'
    of every SELL record in the trade log; the only exception is a run
    without instruments, which fails before the engine is touched. *)
Theorem run_backtest_cash_reconciles symbols self :
  run_backtest history calculate_technical_indicators trading_algorithm
    symbols self
  = (Raised TypeError, self)
  \/ current_capital
       (run_backtest history calculate_technical_indicators
          trading_algorithm symbols self).2
     = initial_capital self
       + log_cash_flow
           (trade_history
              (run_backtest history calculate_technical_indicators
                 trading_algorithm symbols self).2).
Proof.
  rewrite run_backtest_unfold. cbv zeta.
  destruct (common_dates _) as [dates|e] eqn:Hdates.
  2: { left. revert Hdates. unfold common_dates.
       destruct (_ <$> map_to_list _); [by intros [= <-] | done]. }
  right.
  match goal with |- context [for_each ?body dates ?s] =>
    assert (tracks symbols (for_each body dates s).2
            /\ reconciled (initial_capital self) (for_each body dates s).2)
      as [_ Hrec]
  end.
  { apply (for_each_preserves
             (fun s => tracks symbols s
                       /\ reconciled (initial_capital self) s));
      [|apply initialize_tracking_books].
    intros date s _. apply backtest_step_books. }
  destruct (for_each _ dates _) as [[[]|e] self']; [|exact Hrec].
  destruct (performance_metrics_frame self') as [-> _]. exact Hrec.
Qed.

End Books.

(** ** Maximum drawdown *)

Lemma Qc_pos_ne (a : Qc) : 0 < a -> a ≠ 0.
Proof. intros Ha. by apply not_eq_sym, Qclt_not_eq. Qed.

Lemma Qc_hundred_pos : 0 < Qc_of_Z 100.
Proof. rewrite <- Z2Qc_inj_0. by apply (proj1 (Z2Qc_inj_lt 0 100)). Qed.

Lemma decline_self (a : Qc) : decline a a = 0.
Proof.
  unfold decline. assert (a - a = 0) as -> by ring.
  unfold Qcdiv. ring.
Qed.

Lemma decline_below_hundred (a b : Qc) :
  0 < a -> 0 < b -> decline a b < Qc_of_Z 100.
Proof.
  intros Ha Hb. unfold decline.
  rewrite <- (Qcmult_1_l (Qc_of_Z 100)) at 2.
  apply Qcmult_lt_mono_pos_r; [apply Qc_hundred_pos|].
  apply (Qcmult_lt_mono_pos_r _ _ a Ha).
  rewrite test_field by by apply Qc_pos_ne.
  rewrite Qcmult_1_l. apply Qclt_minus_iff.
  assert (a + - (a - b) = b) as -> by ring. done.
Qed.

Lemma decline_mono (a p b : Qc) :
  0 < a -> a <= p -> 0 < b -> decline a b <= decline p b.
Proof.
  intros Ha Hap Hb. unfold decline.
  assert (0 < p) as Hp by exact (Qclt_le_trans _ _ _ Ha Hap).
  apply Qcmult_le_mono_nonneg_r; [apply Qclt_le_weak, Qc_hundred_pos|].
  apply (Qcmult_le_mono_pos_r _ _ a Ha).
  rewrite test_field by by apply Qc_pos_ne.
  apply (Qcmult_le_mono_pos_r _ _ p Hp).
  assert ((p - b) / p * a * p = (p - b) * a) as ->.
  { field. by apply Qc_pos_ne. }
  apply Qcle_minus_iff.
  assert ((p - b) * a + - ((a - b) * p) = b * (p + - a)) as -> by ring.
  apply Qcmult_nonneg_nonneg; [by apply Qclt_le_weak|].
  by apply Qcle_minus_iff in Hap.
Qed.

Lemma recorded_in_order_snoc seen value earlier later :
  recorded_in_order (seen ++ [value]) earlier later <->
  recorded_in_order seen earlier later
  \/ (later = value /\ (earlier ∈ seen \/ earlier = value)).
Proof.
  split.
  - intros [i [j [Hij [Hi Hj]]]].
    apply lookup_app_Some in Hj as [Hj | [Hlen Hj]].
    + left. exists i, j. split; [done|]. split; [|done].
      apply lookup_app_Some in Hi as [Hi | [Hlen _]]; [done|].
      apply lookup_lt_Some in Hj. lia.
    + right. apply list_lookup_singleton_Some in Hj as [_ <-].
      split; [done|].
      apply lookup_app_Some in Hi as [Hi | [_ Hi]].
      * left. by eapply list_elem_of_lookup_2.
      * right. by apply list_lookup_singleton_Some in Hi as [_ <-].
  - intros [[i [j [Hij [Hi Hj]]]] | [-> [Hin | ->]]].
    + exists i, j. split; [done|].
      split; apply lookup_app_Some; by left.
    + apply list_elem_of_lookup in Hin as [i Hi].
      exists i, (length seen). split; [apply lookup_lt_Some in Hi; lia|].
      split; [apply lookup_app_Some; by left|].
      apply lookup_app_Some. right. split; [done|].
      by rewrite Nat.sub_diag.
    + exists (length seen), (length seen). split; [done|].
      split; apply lookup_app_Some; right; (split; [done|]);
        by rewrite Nat.sub_diag.
Qed.

Lemma drawdown_step_invariant seen state value :
  0 < value -> Forall (fun v => 0 < v) seen ->
  drawdown_invariant seen state ->
  drawdown_invariant (seen ++ [value]) (drawdown_step state value).
Proof.
  intros Hvalue Hseen [Hpos Hbounds Hpeak Hnonneg Hbelow Hdd Hatt].
  destruct state as [peak mdd]. cbn [fst snd] in *.
  unfold drawdown_step. cbn [fst snd].
  set (peak' := if bool_decide (peak < value) then value else peak).
  fold (decline peak' value).
  assert (peak <= peak' /\ value <= peak' /\ 0 < peak'
          /\ (peak' = peak \/ peak' = value)) as [Hp1 [Hp2 [Hp3 Hp4]]].
  { unfold peak'. case_bool_decide as Hlt.
    - repeat split; [by apply Qclt_le_weak | done | done | by right].
    - apply Qcnot_lt_le in Hlt. repeat split; [done | done | done | by left]. }
  assert (peak' ∈ seen ++ [value]) as Hpeak'.
  { apply elem_of_app. destruct Hp4 as [-> | ->]; [by left|].
    right. by left. }
  assert (forall earlier,
             earlier ∈ seen \/ earlier = value ->
             decline earlier value <= decline peak' value) as Hlast.
  { intros earlier [Hin | ->].
    - apply decline_mono; [|by etrans; [apply Hbounds|] | done].
      by eapply Forall_forall in Hseen.
    - by apply decline_mono. }
  assert (recorded_in_order (seen ++ [value]) peak' value) as Horder.
  { apply recorded_in_order_snoc. right. split; [done|].
    destruct Hp4 as [-> | ->]; by auto. }
  constructor; cbn [fst snd].
  - done.
  - intros v [Hv | ->%list_elem_of_singleton]%elem_of_app; [|done].
    by etrans; [apply Hbounds|].
  - done.
  - case_bool_decide; [|done]. by etrans; [|apply Qclt_le_weak].
  - case_bool_decide; [|done]. by apply decline_below_hundred.
  - intros earlier later [Hold | [-> Hearlier]]%recorded_in_order_snoc.
    + case_bool_decide as Hlt.
      * etrans; [by apply Hdd|]. by apply Qclt_le_weak.
      * by apply Hdd.
    + case_bool_decide as Hlt; [by apply Hlast|].
      apply Qcnot_lt_le in Hlt. etrans; [by apply Hlast | done].
  - case_bool_decide.
    + by exists peak', value.
    + destruct Hatt as [earlier [later [Hold ->]]].
      exists earlier, later. split; [|done].
      apply recorded_in_order_snoc. by left.
Qed.

Lemma Qclt_irreflexive (a : Qc) : ~ a < a.
Proof. intros Ha. by apply Qclt_not_eq in Ha. Qed.

Lemma recorded_in_order_singleton first earlier later :
  recorded_in_order [first] earlier later <->
  earlier = first /\ later = first.
Proof.
  split.
  - intros [i [j [_ [Hi Hj]]]].
    apply list_lookup_singleton_Some in Hi as [_ <-].
    by apply list_lookup_singleton_Some in Hj as [_ <-].
  - intros [-> ->]. by exists 0%nat, 0%nat.
Qed.

Lemma drawdown_loop_invariant first rest :
  Forall (fun v => 0 < v) (first :: rest) ->
  drawdown_invariant (first :: rest)
    (foldl drawdown_step (first, 0) (first :: rest)).
Proof.
  intros Hpositive.
  assert (0 < first) as Hfirst by by apply Forall_cons in Hpositive as [? _].
  assert (drawdown_step (first, 0) first = (first, 0)) as Hstart.
  { unfold drawdown_step. cbn [fst snd].
    rewrite (bool_decide_false (first < first)) by apply Qclt_irreflexive.
    fold (decline first first). rewrite decline_self.
    by rewrite bool_decide_false by apply Qclt_irreflexive. }
  cbn [foldl]. rewrite Hstart. clear Hstart.
  induction rest as [|value rest IH] using rev_ind.
  - cbn. constructor; cbn [fst snd].
    + done.
    + by intros v ->%list_elem_of_singleton.
    + by left.
    + reflexivity.
    + apply Qc_hundred_pos.
    + intros earlier later [-> ->]%recorded_in_order_singleton.
      rewrite decline_self. reflexivity.
    + exists first, first. split; [by apply recorded_in_order_singleton|].
      by rewrite decline_self.
  - rewrite foldl_app. cbn [foldl].
    change (first :: rest ++ [value]) with ((first :: rest) ++ [value])
      in Hpositive |- *.
    apply Forall_app in Hpositive as [Hrest Hvalue].
    apply Forall_cons in Hvalue as [Hvalue _].
    apply drawdown_step_invariant; [done | done | by apply IH].
Qed.

(** X15: the reported maximum drawdown is the largest peak-to-trough
    decline of the run.  When every recorded portfolio value is positive,
    it lies in [0, 100), no recorded value lies below an earlier one by a
    larger percentage, and some recorded value lies below an earlier one by
    exactly that percentage. *)
Theorem max_drawdown_is_largest_decline self result :
  (performance_metrics self).1 = Returned result ->
  Forall (fun snap => 0 < snap_portfolio_value snap) (portfolio_values self) ->
  0 <= res_max_drawdown result
  /\ res_max_drawdown result < Qc_of_Z 100
  /\ (forall earlier later,
        recorded_in_order (snap_portfolio_value <$> portfolio_values self)
          earlier later ->
        decline earlier later <= res_max_drawdown result)
  /\ exists earlier later,
      recorded_in_order (snap_portfolio_value <$> portfolio_values self)
        earlier later
      /\ res_max_drawdown result = decline earlier later.
Proof.
  unfold performance_metrics.
  destruct (last (portfolio_values self)) as [final|]; [|done].
  destruct (portfolio_values self) as [|snap snaps] eqn:Hsnaps; [done|].
  cbn [fmap list_fmap head fst]. intros [= <-] Hpositive. cbn [res_max_drawdown].
  destruct (drawdown_loop_invariant (snap_portfolio_value snap)
              (snap_portfolio_value <$> snaps))
    as [_ _ _ Hnonneg Hbelow Hbounds Hattained].
  { change (Forall (fun v => 0 < v)
              (snap_portfolio_value <$> snap :: snaps)).
    by apply Forall_fmap. }
  done.
Qed.

Lemma max_drawdown_is_largest_decline_witness :
  (performance_metrics drawdown_engine).1 = Returned drawdown_result
  /\ Forall (fun snap => 0 < snap_portfolio_value snap)
       (portfolio_values drawdown_engine)
  /\ 0 <= res_max_drawdown drawdown_result
  /\ res_max_drawdown drawdown_result < Qc_of_Z 100.
Proof.
  assert ((performance_metrics drawdown_engine).1 = Returned drawdown_result)
    as Hresult by (vm_compute; reflexivity).
  assert (Forall (fun snap => 0 < snap_portfolio_value snap)
            (portfolio_values drawdown_engine)) as Hpositive
    by (repeat constructor).
  split; [exact Hresult|]. split; [exact Hpositive|].
  destruct (max_drawdown_is_largest_decline drawdown_engine drawdown_result
              Hresult Hpositive) as [Hnonneg [Hbelow _]].
  split; [exact Hnonneg | exact Hbelow].
Defined.

(** ** [combined_strategy]: one intent per instrument and action *)

Lemma add_to_group_keys key signal groups :
  (add_to_group key signal groups).*1
  = if bool_decide (key ∈ groups.*1) then groups.*1 else groups.*1 ++ [key].
Proof.
  induction groups as [|[k [first more]] rest IH]; [done|].
  cbn [add_to_group]. destruct (decide (k = key)) as [-> | Hk].
  - rewrite (bool_decide_true (key = key)) by done. cbn.
    rewrite bool_decide_true; [done | by left].
  - rewrite (bool_decide_false (k = key)) by done. cbn. rewrite IH.
    destruct (decide (key ∈ rest.*1)) as [Hin | Hin].
    + rewrite !bool_decide_true; [done | by right | done].
    + rewrite !bool_decide_false; [done | | done].
      intros [?|?]%elem_of_cons; by subst.
Qed.

Lemma add_to_group_members key signal groups :
  members (add_to_group key signal groups)
  ≡ₚ members groups ++ [(key, signal)].
Proof.
  unfold members.
  induction groups as [|[k [first more]] rest IH]; [done|].
  cbn [add_to_group]. destruct (decide (k = key)) as [-> | Hk].
  - rewrite (bool_decide_true (key = key)) by done.
    rewrite !bind_cons. cbn [fst snd].
    rewrite app_comm_cons, fmap_app. cbn [fmap list_fmap].
    rewrite <- !app_assoc. f_equiv. apply Permutation_app_comm.
  - rewrite (bool_decide_false (k = key)) by done.
    rewrite !bind_cons, IH. by rewrite app_assoc.
Qed.

Lemma elem_of_members groups key signal :
  (key, signal) ∈ members groups
  <-> exists entry,
      entry ∈ groups /\ entry.1 = key /\ signal ∈ entry.2.1 :: entry.2.2.
Proof.
  unfold members. rewrite list_elem_of_bind. split.
  - intros [entry [Hin Hentry]]. exists entry. split; [done|].
    apply list_elem_of_fmap in Hin as [s [[= -> ->] Hs]]. done.
  - intros [entry [Hentry [<- Hs]]]. exists entry. split; [|done].
    apply list_elem_of_fmap. by exists signal.
Qed.

Lemma elem_of_keyed (all_signals : list Signal) key signal :
  (key, signal) ∈ omap keyed all_signals
  <-> signal ∈ all_signals
      /\ sig_symbol signal = Some key.1 /\ sig_action signal = Some key.2.
Proof.
  rewrite list_elem_of_omap. unfold keyed. split.
  - intros [s [Hs Hkey]].
    destruct (sig_symbol s) eqn:?, (sig_action s) eqn:?; try done.
    by simplify_eq.
  - intros [Hs [Hsym Hact]]. exists signal. split; [done|].
    rewrite Hsym, Hact. by destruct key.
Qed.

Lemma group_signals_spec all_signals :
  forall groups result,
    group_signals all_signals groups = Returned result ->
    (NoDup groups.*1 -> NoDup result.*1)
    /\ members result ≡ₚ members groups ++ omap keyed all_signals
    /\ Forall (fun s => is_Some (keyed s)) all_signals.
Proof.
  induction all_signals as [|signal rest IH]; intros groups result.
  - intros [= <-]. split; [done|]. split; [by rewrite app_nil_r | done].
  - cbn [group_signals]. unfold signal_field, mbind, Outcome_bind.
    destruct (sig_symbol signal) as [symbol|] eqn:Hsymbol; [|done].
    destruct (sig_action signal) as [action|] eqn:Haction; [|done].
    intros [Hnodup [Hmembers Hkeyed]]%IH. split; [|split].
    + intros Hgroups. apply Hnodup. rewrite add_to_group_keys.
      case_bool_decide as Hin; [done|].
      apply NoDup_app. split; [done|]. split; [|apply NoDup_singleton].
      by intros k Hk ->%list_elem_of_singleton.
    + rewrite Hmembers, add_to_group_members. cbn [omap list_omap].
      unfold keyed at 2. rewrite Hsymbol, Haction.
      by rewrite <- app_assoc.
    + constructor; [|done]. unfold keyed. rewrite Hsymbol, Haction.
      by eauto.
Qed.

Lemma max_by_quantity_spec more :
  forall best best_quantity result,
    sig_quantity best = Some best_quantity ->
    max_by_quantity best best_quantity more = Returned result ->
    result ∈ best :: more
    /\ exists top,
        sig_quantity result = Some top /\ (best_quantity <= top)%Z
        /\ forall s, s ∈ more ->
                     exists q, sig_quantity s = Some q /\ (q <= top)%Z.
Proof.
  induction more as [|signal more IH]; intros best bq result Hbest.
  - intros [= <-]. split; [by left|]. exists bq. split; [done|].
    split; [done|]. by intros s ?%elem_of_nil.
  - cbn [max_by_quantity]. unfold signal_field, mbind, Outcome_bind.
    destruct (sig_quantity signal) as [quantity|] eqn:Hq; [|done].
    case_bool_decide as Hlt.
    + intros [Hin [top [Htop [Hle Hmore]]]]%IH; [|done].
      split; [by right|]. exists top. split; [done|]. split; [lia|].
      intros s [-> | Hs]%elem_of_cons; [by eauto | by auto].
    + intros [Hin [top [Htop [Hle Hmore]]]]%IH; [|done].
      split.
      { apply elem_of_cons in Hin as [-> | Hin]; [by left|].
        right. by right. }
      exists top. split; [done|]. split; [done|].
      intros s [-> | Hs]%elem_of_cons; [|by auto].
      exists quantity. split; [done | lia].
Qed.

Lemma best_signal_spec group result :
  best_signal group = Returned result ->
  result ∈ group.1 :: group.2
  /\ exists top,
      sig_quantity result = Some top
      /\ forall s, s ∈ group.1 :: group.2 ->
                   exists q, sig_quantity s = Some q /\ (q <= top)%Z.
Proof.
  unfold best_signal, signal_field, mbind, Outcome_bind.
  destruct (sig_quantity group.1) as [quantity|] eqn:Hq; [|done].
  intros [Hin [top [Htop [Hle Hmore]]]]%max_by_quantity_spec; [|done].
  split; [done|]. exists top. split; [done|].
  intros s [-> | Hs]%elem_of_cons; [by eauto | by auto].
Qed.

Lemma best_signals_spec groups :
  forall result,
    best_signals groups = Returned result ->
    Forall2 picked_from groups result.
Proof.
  induction groups as [|[k group] rest IH]; intros result.
  - intros [= <-]. constructor.
  - cbn [best_signals]. unfold mbind, Outcome_bind, mret, Outcome_ret.
    destruct (best_signal group) as [best|] eqn:Hbest; [|done].
    destruct (best_signals rest) as [others|]; [|done].
    intros [= <-]. constructor; [|by apply IH].
    by apply best_signal_spec.
Qed.

Lemma picked_keys groups signals :
  Forall2 picked_from groups signals ->
  (forall entry best,
      entry ∈ groups -> best ∈ entry.2.1 :: entry.2.2 ->
      signal_key best = (Some entry.1.1, Some entry.1.2)) ->
  signal_key <$> signals
  = (fun k : string * string => (Some k.1, Some k.2)) <$> groups.*1.
Proof.
  induction 1 as [|entry best groups signals [Hin _] _ IH]; intros Hkey;
    [done|].
  cbn [fmap list_fmap]. f_equal.
  - apply Hkey; [by left | done].
  - apply IH. intros e b He. apply Hkey. by right.
Qed.

Lemma deduplicate_signals_facts all_signals signals :
  deduplicate_signals all_signals = Returned signals ->
  (forall s, s ∈ signals -> s ∈ all_signals)
  /\ NoDup (signal_key <$> signals)
  /\ forall t,
      t ∈ all_signals ->
      exists s q top,
        s ∈ signals /\ signal_key s = signal_key t
        /\ sig_quantity t = Some q /\ sig_quantity s = Some top
        /\ (q <= top)%Z.
Proof.
  unfold deduplicate_signals, mbind, Outcome_bind.
  destruct (group_signals all_signals []) as [groups|] eqn:Hgroups; [|done].
  intros Hbest%best_signals_spec.
  apply group_signals_spec in Hgroups as [Hnodup [Hmembers Hkeyed]].
  specialize (Hnodup (NoDup_nil_2)). cbn [members mbind] in Hmembers.
  assert (forall entry best,
             entry ∈ groups -> best ∈ entry.2.1 :: entry.2.2 ->
             best ∈ all_signals
             /\ signal_key best = (Some entry.1.1, Some entry.1.2))
    as Hmember.
  { intros entry best Hentry Hin.
    assert ((entry.1, best) ∈ members groups) as Hm
      by (apply elem_of_members; by exists entry).
    rewrite Hmembers in Hm. apply elem_of_keyed in Hm as [? [Hs Ha]].
    split; [done|]. unfold signal_key. by rewrite Hs, Ha. }
  split; [|split].
  - intros s [i Hs]%list_elem_of_lookup.
    destruct (Forall2_lookup_r _ _ _ _ _ Hbest Hs)
      as [entry [Hentry [Hin _]]].
    apply list_elem_of_lookup_2 in Hentry. by apply (Hmember entry).
  - rewrite (picked_keys groups signals Hbest)
      by (intros entry best He Hb; by apply Hmember).
    apply NoDup_fmap_2; [|done]. by intros [a b] [c d] [= -> ->].
  - intros t Ht.
    assert (is_Some (keyed t)) as [[k t'] Hk]
      by (by eapply Forall_forall in Hkeyed).
    assert ((k, t) ∈ members groups) as Hm.
    { rewrite Hmembers. apply elem_of_keyed. split; [done|].
      revert Hk. unfold keyed.
      destruct (sig_symbol t), (sig_action t); try done.
      by intros [= <- _]. }
    apply elem_of_members in Hm as [entry [Hentry [<- Hin]]].
    apply list_elem_of_lookup in Hentry as [i Hentry].
    destruct (Forall2_lookup_l _ _ _ _ _ Hbest Hentry)
      as [s [Hs [Hpicked [top [Htop Hall]]]]].
    apply list_elem_of_lookup_2 in Hentry, Hs.
    destruct (Hall t Hin) as [q [Hq Hle]].
    exists s, q, top. split; [done|]. split; [|done].
    destruct (Hmember entry s Hentry Hpicked) as [_ ->].
    by destruct (Hmember entry t Hentry Hin) as [_ ->].
Qed.

(** X16: when the de-duplication of [combined_strategy] returns, every
    intent it returns is one of the collected intents, no two of them are
    for the same instrument and action, and every collected intent is
    represented by a returned intent for the same instrument and action
    whose quantity is at least as large. *)
Theorem deduplicate_signals_spec all_signals signals :
  deduplicate_signals all_signals = Returned signals ->
  (forall s, s ∈ signals -> s ∈ all_signals)
  /\ NoDup (signal_key <$> signals)
  /\ forall t,
      t ∈ all_signals ->
      exists s q top,
        s ∈ signals /\ signal_key s = signal_key t
        /\ sig_quantity t = Some q /\ sig_quantity s = Some top
        /\ (q <= top)%Z.
Proof. apply deduplicate_signals_facts. Qed.

Lemma deduplicate_signals_spec_witness :
  deduplicate_signals [buy_fifty; sell_five; buy_eighty]
  = Returned [buy_eighty; sell_five]
  /\ NoDup (signal_key <$> [buy_eighty; sell_five]).
Proof.
  assert (deduplicate_signals [buy_fifty; sell_five; buy_eighty]
          = Returned [buy_eighty; sell_five]) as Hbest
    by (vm_compute; reflexivity).
  split; [exact Hbest|].
  exact (proj1 (proj2 (deduplicate_signals_spec
                         [buy_fifty; sell_five; buy_eighty]
                         [buy_eighty; sell_five] Hbest))).
Defined.

Lemma missing_field_keyed signal :
  missing_field signal = None
  <-> is_Some (keyed signal) /\ is_Some (sig_quantity signal).
Proof.
  unfold missing_field, keyed.
  destruct (sig_symbol signal), (sig_action signal), (sig_quantity signal);
    split; try done; intros [[? ?] [? ?]]; done.
Qed.

Lemma group_signals_returns all_signals :
  Forall (fun s => is_Some (keyed s)) all_signals ->
  forall groups, exists result,
    group_signals all_signals groups = Returned result.
Proof.
  induction 1 as [|signal rest [entry Hkeyed] _ IH]; intros groups;
    [by eexists|].
  cbn [group_signals]. unfold signal_field, mbind, Outcome_bind.
  revert Hkeyed. unfold keyed.
  destruct (sig_symbol signal), (sig_action signal); [|done..].
  intros _. apply IH.
Qed.

Lemma max_by_quantity_returns more :
  Forall (fun s => is_Some (sig_quantity s)) more ->
  forall best best_quantity, exists result,
    max_by_quantity best best_quantity more = Returned result.
Proof.
  induction 1 as [|signal more [quantity Hq] _ IH]; intros best bq;
    [by eexists|].
  cbn [max_by_quantity]. unfold signal_field, mbind, Outcome_bind.
  rewrite Hq. case_bool_decide; apply IH.
Qed.

Lemma best_signals_returns groups :
  (forall entry s,
      entry ∈ groups -> s ∈ entry.2.1 :: entry.2.2 ->
      is_Some (sig_quantity s)) ->
  exists result, best_signals groups = Returned result.
Proof.
  induction groups as [|[k [first more]] rest IH]; intros Hq; [by eexists|].
  cbn [best_signals]. unfold best_signal, signal_field, mbind, Outcome_bind.
  cbn [fst snd].
  destruct (Hq (k, (first, more)) first) as [quantity ->];
    [by left | by left |].
  destruct (max_by_quantity_returns more) with (best := first)
    (best_quantity := quantity) as [best ->].
  { apply Forall_forall. intros s Hs.
    apply (Hq (k, (first, more))); [by left | by right]. }
  destruct IH as [others ->]; [|by eexists].
  intros entry s He. apply Hq. by right.
Qed.

Lemma deduplicate_signals_complete all_signals signals :
  deduplicate_signals all_signals = Returned signals ->
  Forall (fun s => missing_field s = None) all_signals.
Proof.
  intros Hret. apply Forall_forall. intros t Ht.
  apply missing_field_keyed.
  destruct (deduplicate_signals_facts _ _ Hret) as [_ [_ Hall]].
  destruct (Hall t Ht) as [s [q [top [_ [_ [Hq _]]]]]].
  split; [|by eauto]. revert Hret.
  unfold deduplicate_signals, mbind, Outcome_bind.
  destruct (group_signals all_signals []) as [groups|] eqn:Hgroups;
    [|done].
  intros _. apply group_signals_spec in Hgroups as [_ [_ Hkeyed]].
  by eapply Forall_forall in Hkeyed.
Qed.

(** X17: the de-duplication returns exactly when every collected intent
    has a symbol, an action and a quantity; one intent without one of them
    makes the whole combined strategy raise. *)
Theorem deduplicate_signals_returns all_signals :
  (exists signals, deduplicate_signals all_signals = Returned signals)
  <-> Forall (fun s => missing_field s = None) all_signals.
Proof.
  split.
  - intros [signals Hret]. by eapply deduplicate_signals_complete.
  - intros Hwf.
    assert (Forall (fun s => is_Some (keyed s)) all_signals) as Hkeyed.
    { eapply Forall_impl; [done|]. by intros s [? _]%missing_field_keyed. }
    destruct (group_signals_returns _ Hkeyed []) as [groups Hgroups].
    unfold deduplicate_signals, mbind, Outcome_bind. rewrite Hgroups.
    apply best_signals_returns. intros entry s Hentry Hs.
    assert ((entry.1, s) ∈ members groups) as Hm
      by (apply elem_of_members; by exists entry).
    apply group_signals_spec in Hgroups as [_ [Hmembers _]].
    rewrite Hmembers in Hm. apply elem_of_keyed in Hm as [Hin _].
    eapply Forall_forall in Hwf; [|done].
    by apply missing_field_keyed in Hwf as [_ ?].
Qed.

Lemma deduplicate_signals_returns_witness :
  Forall (fun s => missing_field s = None) [buy_fifty; buy_eighty]
  /\ exists signals,
      deduplicate_signals [buy_fifty; buy_eighty] = Returned signals.
Proof.
  assert (Forall (fun s => missing_field s = None) [buy_fifty; buy_eighty])
    as Hcomplete by (repeat constructor).
  split; [exact Hcomplete|].
  exact (proj2 (deduplicate_signals_returns [buy_fifty; buy_eighty])
           Hcomplete).
Defined.

Lemma add_to_group_fresh key signal groups :
  key ∉ groups.*1 ->
  add_to_group key signal groups = groups ++ [(key, (signal, []))].
Proof.
  induction groups as [|[k [first more]] rest IH]; intros Hfresh; [done|].
  cbn [add_to_group]. apply not_elem_of_cons in Hfresh as [Hne Hfresh].
  rewrite bool_decide_false by done. cbn. by rewrite IH.
Qed.

Lemma best_signals_app groups groups' :
  best_signals (groups ++ groups')
  = (first_part ← best_signals groups;
     second_part ← best_signals groups';
     mret (first_part ++ second_part)).
Proof.
  induction groups as [|[k group] rest IH].
  - cbn. unfold mbind, Outcome_bind, mret, Outcome_ret.
    by destruct (best_signals groups').
  - cbn [app best_signals]. rewrite IH.
    unfold mbind, Outcome_bind, mret, Outcome_ret.
    destruct (best_signal group); [|done].
    destruct (best_signals rest); [|done].
    by destruct (best_signals groups').
Qed.

Lemma deduplicate_distinct all_signals :
  forall groups,
    Forall (fun s => missing_field s = None) all_signals ->
    NoDup (signal_key <$> all_signals) ->
    (forall s key, s ∈ all_signals -> key ∈ groups.*1 ->
                   signal_key s ≠ (Some key.1, Some key.2)) ->
    (groups' ← group_signals all_signals groups; best_signals groups')
    = (kept ← best_signals groups; mret (kept ++ all_signals)).
Proof.
  induction all_signals as [|signal rest IH]; intros groups Hwf Hnodup Hnew.
  - cbn. unfold mbind, Outcome_bind, mret, Outcome_ret.
    destruct (best_signals groups); [|done]. by rewrite app_nil_r.
  - apply Forall_cons in Hwf as [Hsignal Hwf].
    cbn [fmap list_fmap] in Hnodup.
    apply NoDup_cons in Hnodup as [Hnotin Hnodup].
    cbn [group_signals]. unfold signal_field.
    revert Hsignal. unfold missing_field.
    destruct (sig_symbol signal) as [symbol|] eqn:Hsymbol; [|done].
    destruct (sig_action signal) as [action|] eqn:Haction; [|done].
    destruct (sig_quantity signal) as [quantity|] eqn:Hquantity; [|done].
    intros _.
    assert ((symbol, action) ∉ groups.*1) as Hfresh.
    { intros Hin. apply (Hnew signal (symbol, action)); [by left | done|].
      unfold signal_key. by rewrite Hsymbol, Haction. }
    change ((groups' ← group_signals rest
                         (add_to_group (symbol, action) signal groups);
             best_signals groups')
            = (kept ← best_signals groups; mret (kept ++ signal :: rest))).
    rewrite add_to_group_fresh by done. rewrite IH; [|done|done|].
    + rewrite best_signals_app. cbn [best_signals].
      unfold best_signal, signal_field. cbn [fst snd]. rewrite Hquantity.
      unfold mbind, Outcome_bind, mret, Outcome_ret. cbn.
      destruct (best_signals groups); [|done].
      by rewrite <- app_assoc.
    + intros s key Hs. rewrite fmap_app.
      intros [Hkey | ->%list_elem_of_singleton]%elem_of_app.
      * apply Hnew; [by right | done].
      * cbn. intros Heq. apply Hnotin. apply list_elem_of_fmap.
        exists s. split; [|done]. unfold signal_key.
        by rewrite Hsymbol, Haction.
Qed.

(** X18: intents that are complete and already differ in instrument or
    action pass through the de-duplication untouched: the same intents, in
    the same order. *)
Theorem deduplicate_signals_distinct all_signals :
  Forall (fun s => missing_field s = None) all_signals ->
  NoDup (signal_key <$> all_signals) ->
  deduplicate_signals all_signals = Returned all_signals.
Proof.
  intros Hwf Hnodup. unfold deduplicate_signals.
  rewrite deduplicate_distinct; [done | done | done |].
  by intros s key _ ?%elem_of_nil.
Qed.

Lemma deduplicate_signals_distinct_witness :
  Forall (fun s => missing_field s = None) [buy_fifty; sell_five]
  /\ NoDup (signal_key <$> [buy_fifty; sell_five])
  /\ deduplicate_signals [buy_fifty; sell_five]
     = Returned [buy_fifty; sell_five].
Proof.
  assert (Forall (fun s => missing_field s = None) [buy_fifty; sell_five])
    as Hcomplete by (repeat constructor).
  assert (NoDup (signal_key <$> [buy_fifty; sell_five])) as Hdistinct
    by (refine (bool_decide_unpack _ _); vm_compute; exact I).
  split; [exact Hcomplete|]. split; [exact Hdistinct|].
  exact (deduplicate_signals_distinct [buy_fifty; sell_five] Hcomplete
           Hdistinct).
Defined.

(** X19: de-duplicating twice changes nothing: what the de-duplication
    returns is returned unchanged when it is de-duplicated again. *)
Theorem deduplicate_signals_idempotent all_signals signals :
  deduplicate_signals all_signals = Returned signals ->
  deduplicate_signals signals = Returned signals.
Proof.
  intros Hret.
  destruct (deduplicate_signals_facts _ _ Hret) as [Hsub [Hnodup _]].
  pose proof (deduplicate_signals_complete _ _ Hret) as Hwf.
  unfold deduplicate_signals.
  rewrite deduplicate_distinct; [done | | done |].
  - apply Forall_forall. intros s Hs.
    eapply Forall_forall in Hwf; [done|]. by apply Hsub.
  - by intros s key _ ?%elem_of_nil.
Qed.

Lemma deduplicate_signals_idempotent_witness :
  deduplicate_signals [buy_fifty; sell_five; buy_eighty]
  = Returned [buy_eighty; sell_five]
  /\ deduplicate_signals [buy_eighty; sell_five]
     = Returned [buy_eighty; sell_five].
Proof.
  assert (deduplicate_signals [buy_fifty; sell_five; buy_eighty]
          = Returned [buy_eighty; sell_five]) as Hbest
    by (vm_compute; reflexivity).
  split; [exact Hbest|].
  exact (deduplicate_signals_idempotent [buy_fifty; sell_five; buy_eighty]
           [buy_eighty; sell_five] Hbest).
Defined.

(** ** The plotted drawdowns and the reported maximum *)

Lemma decline_nonneg (peak value : Qc) :
  0 < peak -> value <= peak -> 0 <= decline peak value.
Proof.
  intros Hpeak Hle. unfold decline, Qcdiv.
  repeat apply Qcmult_nonneg_nonneg.
  - by apply Qcle_minus_iff in Hle.
  - by apply Qclt_le_weak, Qcinv_pos.
  - apply Qclt_le_weak, Qc_hundred_pos.
Qed.

Lemma drawdown_series_length values :
  forall peak, length (drawdown_series peak values) = length values.
Proof.
  induction values as [|value rest IH]; intros peak; [done|].
  cbn. by rewrite IH.
Qed.

Lemma drawdown_series_nonneg values :
  forall peak,
    Forall (fun v => 0 < v) values -> 0 < peak ->
    Forall (fun d => 0 <= d) (drawdown_series peak values).
Proof.
  induction values as [|value rest IH]; intros peak Hpositive Hpeak;
    [constructor|].
  apply Forall_cons in Hpositive as [Hvalue Hrest].
  cbn [drawdown_series]. cbv zeta.
  set (peak' := if bool_decide (peak < value) then value else peak).
  assert (0 < peak' /\ value <= peak') as [Hpeak' Hle].
  { unfold peak'. case_bool_decide as Hlt; [done|].
    by apply Qcnot_lt_le in Hlt. }
  constructor; [by apply decline_nonneg | by apply IH].
Qed.

Lemma drawdown_series_maximum values :
  forall peak maximum,
    Forall (fun d => d <= (foldl drawdown_step (peak, maximum) values).2)
      (drawdown_series peak values)
    /\ maximum <= (foldl drawdown_step (peak, maximum) values).2
    /\ ((foldl drawdown_step (peak, maximum) values).2 = maximum
        \/ (foldl drawdown_step (peak, maximum) values).2
             ∈ drawdown_series peak values).
Proof.
  induction values as [|value rest IH]; intros peak maximum.
  { cbn. split; [constructor|]. split; [reflexivity | by left]. }
  cbn [foldl drawdown_series]. unfold drawdown_step at 2 4 6 8.
  cbn [fst snd]. cbv zeta.
  set (peak' := if bool_decide (peak < value) then value else peak).
  set (drawdown := (peak' - value) / peak' * Qc_of_Z 100).
  set (maximum' := if bool_decide (maximum < drawdown)
                   then drawdown else maximum).
  destruct (IH peak' maximum') as [Hall [Hle Hattained]].
  assert (drawdown <= maximum' /\ maximum <= maximum'
          /\ (maximum' = maximum \/ maximum' = drawdown))
    as [Hd [Hm Hcase]].
  { unfold maximum'. case_bool_decide as Hlt.
    - split; [reflexivity|]. split; [by apply Qclt_le_weak | by right].
    - apply Qcnot_lt_le in Hlt. split; [done|].
      split; [reflexivity | by left]. }
  split; [|split].
  - constructor; [by etrans | done].
  - by etrans.
  - destruct Hattained as [-> | Hin]; [|right; by right].
    destruct Hcase as [-> | ->]; [by left | right; by left].
Qed.

(** X20: the drawdown chart and the reported number agree.  For the result
    of a run whose portfolio values are all positive, [plot_results] plots
    one drawdown per snapshot, each between 0 and the reported maximum
    drawdown, and the reported maximum is one of the plotted values. *)
Theorem plotted_drawdowns_peak_at_maximum self result :
  (performance_metrics self).1 = Returned result ->
  Forall (fun snap => 0 < snap_portfolio_value snap) (portfolio_values self) ->
  exists drawdowns,
    plotted_drawdowns (snap_portfolio_value <$> res_portfolio_values result)
    = Returned drawdowns
    /\ length drawdowns = length (res_portfolio_values result)
    /\ Forall (fun d => 0 <= d /\ d <= res_max_drawdown result) drawdowns
    /\ res_max_drawdown result ∈ drawdowns.
Proof.
  unfold performance_metrics.
  destruct (last (portfolio_values self)) as [final|]; [|done].
  destruct (portfolio_values self) as [|snap snaps] eqn:Hsnaps; [done|].
  cbn [fmap list_fmap head fst]. intros [= <-] Hpositive.
  cbn [res_max_drawdown res_portfolio_values].
  unfold plotted_drawdowns. cbn [fmap list_fmap head].
  set (first := snap_portfolio_value snap).
  set (values := first :: (snap_portfolio_value <$> snaps)).
  change (snap_portfolio_value snap :: list_fmap _ _ snap_portfolio_value snaps)
    with values.
  assert (Forall (fun v => 0 < v) values) as Hvalues.
  { change (Forall (fun v => 0 < v) (snap_portfolio_value <$> snap :: snaps)).
    by apply Forall_fmap. }
  assert (0 < first) as Hfirst by (by apply Forall_cons in Hvalues as [? _]).
  exists (drawdown_series first values). split; [reflexivity|].
  split.
  { rewrite drawdown_series_length. unfold values. cbn.
    by rewrite length_fmap. }
  destruct (drawdown_series_maximum values first 0)
    as [Hall [_ Hattained]].
  split.
  - pose proof (drawdown_series_nonneg values first Hvalues Hfirst) as Hnn.
    apply Forall_forall. intros d Hd. split.
    + by eapply Forall_forall in Hnn.
    + by eapply Forall_forall in Hall.
  - change ((foldl drawdown_step (first, 0) values).2
            ∈ drawdown_series first values).
    destruct Hattained as [-> | Hin]; [|done].
    unfold values. cbn [drawdown_series]. cbv zeta.
    rewrite (bool_decide_false (first < first)) by apply Qclt_irreflexive.
    fold (decline first first). rewrite decline_self. by left.
Qed.

Lemma plotted_drawdowns_peak_at_maximum_witness :
  (performance_metrics drawdown_engine).1 = Returned drawdown_result
  /\ Forall (fun snap => 0 < snap_portfolio_value snap)
       (portfolio_values drawdown_engine)
  /\ exists drawdowns,
      plotted_drawdowns
        (snap_portfolio_value <$> res_portfolio_values drawdown_result)
      = Returned drawdowns
      /\ length drawdowns = length (res_portfolio_values drawdown_result)
      /\ Forall (fun d => 0 <= d /\ d <= res_max_drawdown drawdown_result)
           drawdowns
      /\ res_max_drawdown drawdown_result ∈ drawdowns.
Proof.
  assert ((performance_metrics drawdown_engine).1 = Returned drawdown_result)
    as Hresult by (vm_compute; reflexivity).
  assert (Forall (fun snap => 0 < snap_portfolio_value snap)
            (portfolio_values drawdown_engine)) as Hpositive
    by (repeat constructor).
  split; [exact Hresult|]. split; [exact Hpositive|].
  exact (plotted_drawdowns_peak_at_maximum drawdown_engine drawdown_result
           Hresult Hpositive).
Defined.

(** ** The trade log is in date order *)

Lemma appended_on_refl date self :
  appended_on date (trade_history self) self.
Proof. exists []. split; [by rewrite app_nil_r | constructor]. Qed.

Lemma execute_trade_appended date before self symbol action quantity price :
  appended_on date before self ->
  appended_on date before
    (execute_trade symbol action quantity price date self).2.
Proof.
  intros [new [Hlog Hnew]].
  destruct (execute_trade_cases self symbol action quantity price date)
    as [E | [[held [? [? [? E]]]] | [[held [? [? [? E]]]]
       | [[? [? [? E]]] | [? [? E]]]]]];
    rewrite E; cbn [snd]; try (by exists new).
  - eexists (new ++ [_]). unfold engine_after_buy. cbn.
    split; [by rewrite Hlog, <- app_assoc|].
    apply Forall_app. split; [done|]. by repeat constructor.
  - eexists (new ++ [_]). unfold engine_after_sell. cbn.
    split; [by rewrite Hlog, <- app_assoc|].
    apply Forall_app. split; [done|]. by repeat constructor.
Qed.

Lemma execute_signal_appended date before current_prices signal self :
  appended_on date before self ->
  appended_on date before (execute_signal current_prices date signal self).2.
Proof.
  intros Hlog. rewrite execute_signal_unfold.
  destruct (sig_symbol signal) as [symbol|]; [|done].
  destruct (sig_action signal) as [action|]; [|done].
  destruct (sig_quantity signal) as [quantity|]; [|done].
  destruct (current_prices !! symbol) as [price|]; [|done].
  by apply execute_trade_appended.
Qed.

Lemma sorted_after_same_day (date : Z) (count : nat) (days : list Z) :
  StronglySorted Z.le days -> Forall (Z.le date) days ->
  StronglySorted Z.le (replicate count date ++ days).
Proof.
  intros Hsorted Hlater. induction count as [|count IH]; [done|].
  cbn. constructor; [done|].
  apply Forall_app. split; [|done].
  apply Forall_replicate. lia.
Qed.

Lemma dated_replicate date (log : list (gmap string PyVal)) :
  Forall (fun record => record_date record = Some date) log ->
  record_date <$> log = Some <$> replicate (length log) date.
Proof.
  induction 1 as [|record log Hrecord _ IH]; [done|].
  cbn. by rewrite Hrecord, IH.
Qed.

Section TradeLog.

Variable history : string -> DataFrame.
Variable calculate_technical_indicators : DataFrame -> DataFrame.
Hypothesis indicators_keep_index :
  forall df, dom (calculate_technical_indicators df) = dom df.
Variable trading_algorithm :
  gmap string DataFrame -> gmap string Qc -> Outcome (list Signal).

Lemma backtest_step_appended data symbols date self :
  appended_on date (trade_history self)
    (backtest_step trading_algorithm data symbols date self).2.
Proof.
  pose proof (appended_on_refl date self) as Hstart.
  rewrite backtest_step_unfold.
  destruct (current_data_at data symbols date) as [cd|]; [|done].
  destruct (current_prices_at data symbols date) as [cp|]; [|done].
  destruct (trading_algorithm cd cp) as [signals|]; [|done].
  destruct (collect_risk_signals cp date symbols self) as [risk|]; [|done].
  assert (forall l s,
             appended_on date (trade_history self) s ->
             appended_on date (trade_history self)
               (for_each (execute_signal cp date) l s).2) as Hloop.
  { intros l s. apply (for_each_preserves
                         (appended_on date (trade_history self))).
    intros signal s' _. apply execute_signal_appended. }
  pose proof (Hloop risk self Hstart) as H1.
  destruct (for_each (execute_signal cp date) risk self)
    as [[[]|e1] self1]; [|done]. cbn [snd] in H1.
  pose proof (Hloop signals self1 H1) as H2.
  destruct (for_each (execute_signal cp date) signals self1)
    as [[[]|e2] self2]; [|done]. cbn [snd] in H2.
  exact H2.
Qed.

Lemma backtest_loop_log data symbols dates :
  StronglySorted Z.lt dates ->
  forall self,
    exists new days,
      trade_history
        (for_each (backtest_step trading_algorithm data symbols) dates
           self).2
      = trade_history self ++ new
      /\ record_date <$> new = Some <$> days
      /\ StronglySorted Z.le days
      /\ Forall (fun day => day ∈ dates) days.
Proof.
  induction 1 as [|date dates Hsorted IH Hlater]; intros self.
  { exists [], []. split; [by rewrite app_nil_r|]. split; [done|].
    split; constructor. }
  rewrite for_each_cons.
  destruct (backtest_step_appended data symbols date self)
    as [today [Hlog Htoday]].
  destruct (backtest_step trading_algorithm data symbols date self)
    as [[[]|e] self1]; cbn [snd] in Hlog |- *.
  - destruct (IH self1) as [new [days [Hrest [Hdays [Hordered Hin]]]]].
    exists (today ++ new), (replicate (length today) date ++ days).
    split; [by rewrite Hrest, Hlog, <- app_assoc|].
    split; [by rewrite !fmap_app, Hdays, (dated_replicate date)|].
    split.
    + apply sorted_after_same_day; [done|].
      apply Forall_forall. intros day Hday.
      eapply Forall_forall in Hin; [|done].
      eapply Forall_forall in Hlater; [|done]. lia.
    + apply Forall_app. split.
      * apply Forall_replicate. by left.
      * eapply Forall_impl; [done|]. intros day Hday. by right.
  - exists today, (replicate (length today) date).
    split; [done|]. split; [by apply dated_replicate|]. split.
    + rewrite <- (app_nil_r (replicate _ _)).
      apply sorted_after_same_day; constructor.
    + apply Forall_replicate. by left.
Qed.

(** X21: the trade log of a run is in date order.  However the run ends,
    every record in the engine's trade log carries a date, the dates never
    decrease along the log, and each of them is a date available for every
    requested instrument; the only exception is a run without instruments,
    which fails before the engine is touched. *)
Theorem trade_log_is_chronological symbols self :
  run_backtest history calculate_technical_indicators trading_algorithm
    symbols self
  = (Raised TypeError, self)
  \/ exists days,
      record_date
        <$> trade_history
              (run_backtest history calculate_technical_indicators
                 trading_algorithm symbols self).2
      = Some <$> days
      /\ StronglySorted Z.le days
      /\ forall day, day ∈ days -> in_every_history history symbols day.
Proof.
  rewrite run_backtest_unfold. cbv zeta.
  destruct (common_dates _) as [dates|e] eqn:Hdates.
  2: { left. revert Hdates. unfold common_dates.
       destruct (_ <$> map_to_list _); [by intros [= <-] | done]. }
  right.
  apply (run_dates_in_every_history history calculate_technical_indicators
           indicators_keep_index) in Hdates as [Hsorted Hmem].
  destruct (backtest_loop_log
              (with_indicators calculate_technical_indicators symbols
                 (get_historical_data history symbols))
              symbols dates Hsorted (initialize_tracking symbols self))
    as [new [days [Hlog [Hdays [Hordered Hin]]]]].
  cbn [initialize_tracking trade_history set_trade_history
       set_portfolio_values app] in Hlog.
  exists days.
  assert (forall day, day ∈ days -> in_every_history history symbols day)
    as Hcommon.
  { intros day Hday. apply Hmem. by eapply Forall_forall in Hin. }
  destruct (for_each _ dates _) as [[[]|e] self']; cbn [snd] in Hlog.
  - destruct (performance_metrics_frame self') as [-> _].
    by rewrite Hlog.
  - cbn [snd]. by rewrite Hlog.
Qed.

End TradeLog.

Lemma trade_log_is_chronological_witness :
  (forall df, dom (sample_indicators df) = dom df)
  /\ ((sample_run sample_history buy_ten)
      = (Raised TypeError, default_engine)
      \/ exists days,
          record_date <$> trade_history (sample_run sample_history buy_ten).2
          = Some <$> days
          /\ StronglySorted Z.le days
          /\ forall day,
              day ∈ days ->
              in_every_history sample_history both_symbols day).
Proof.
  split; [exact sample_indicators_keep_index|].
  exact (trade_log_is_chronological sample_history sample_indicators
           sample_indicators_keep_index (always buy_ten) both_symbols
           default_engine).
Defined.

(** ** A run that never trades *)

Lemma check_risk_management_flat symbol current_price date self :
  map_Forall (fun _ quantity => quantity = 0%Z) (positions self) ->
  check_risk_management symbol current_price date self = [].
Proof.
  intros Hflat. unfold check_risk_management.
  destruct (positions self !! symbol) as [held|] eqn:Hheld; [|done].
  apply Hflat in Hheld as ->. by rewrite bool_decide_false by lia.
Qed.

Lemma collect_risk_signals_flat current_prices date symbols self :
  map_Forall (fun _ quantity => quantity = 0%Z) (positions self) ->
  forall signals,
    collect_risk_signals current_prices date symbols self = Returned signals ->
    signals = [].
Proof.
  intros Hflat. induction symbols as [|symbol rest IH]; intros signals.
  - by intros [= <-].
  - cbn [collect_risk_signals]. unfold getitem, mbind, Outcome_bind, mret,
      Outcome_ret.
    destruct (current_prices !! symbol) as [price|]; [|done].
    destruct (collect_risk_signals current_prices date rest self)
      as [more|]; [|done].
    intros [= <-]. rewrite check_risk_management_flat by done.
    by apply IH.
Qed.

Lemma initialize_tracking_untouched symbols self :
  untouched (initialize_tracking symbols self).
Proof.
  split; [done|]. split; [done|]. split; [|by constructor]. cbn.
  generalize (∅ : gmap string Z) (map_Forall_empty
    (fun (_ : string) quantity => quantity = 0%Z) (M := gmap string)).
  induction symbols as [|symbol rest IH]; intros acc Hacc; [done|].
  cbn [foldl]. apply IH. by apply map_Forall_insert_2.
Qed.

Lemma drawdown_of_constant (capital : Qc) (values : list Qc) :
  Forall (fun value => value = capital) values ->
  foldl drawdown_step (capital, 0) values = (capital, 0).
Proof.
  induction 1 as [|value values -> _ IH]; [done|].
  cbn [foldl]. unfold drawdown_step at 2. cbn [fst snd].
  rewrite (bool_decide_false (capital < capital)) by apply Qclt_irreflexive.
  fold (decline capital capital). rewrite decline_self.
  by rewrite bool_decide_false by apply Qclt_irreflexive.
Qed.

Section IdleRun.

Variable history : string -> DataFrame.
Variable calculate_technical_indicators : DataFrame -> DataFrame.
Variable trading_algorithm :
  gmap string DataFrame -> gmap string Qc -> Outcome (list Signal).

Lemma backtest_step_untouched capital data symbols date self :
  (forall current_data current_prices signals,
      trading_algorithm current_data current_prices = Returned signals ->
      signals = []) ->
  initial_capital self = capital /\ untouched self ->
  initial_capital
    (backtest_step trading_algorithm data symbols date self).2 = capital
  /\ untouched (backtest_step trading_algorithm data symbols date self).2.
Proof.
  intros Hidle [Hcapital Huntouched]. rewrite backtest_step_unfold.
  destruct (current_data_at data symbols date) as [cd|]; [|done].
  destruct (current_prices_at data symbols date) as [cp|]; [|done].
  destruct (trading_algorithm cd cp) as [signals|] eqn:Hsignals; [|done].
  apply Hidle in Hsignals as ->.
  destruct (collect_risk_signals cp date symbols self) as [risk|] eqn:Hrisk;
    [|done].
  destruct Huntouched as [Hcash [Hlog [Hflat Hsnaps]]].
  apply collect_risk_signals_flat in Hrisk as ->; [|done]. cbn.
  split; [done|].
  split; [done|]. split; [done|]. split; [done|].
  apply Forall_app. split; [done|]. repeat constructor; cbn; [|done].
  rewrite <- Hcash. apply portfolio_value_of_flat.
  intros symbol quantity Hheld. left. by apply Hflat in Hheld.
Qed.

(** X22: a strategy that never asks for anything leaves the capital
    untouched.  A run with such a strategy (and a positive initial capital)
    that returns reports no trade, a value and a cash balance equal to the
    initial capital in every snapshot, a total return of 0 and a maximum
    drawdown of 0: the engine, its risk check included, does nothing on its
    own. *)
Theorem idle_strategy_keeps_capital symbols self :
  0 < initial_capital self ->
  (forall current_data current_prices signals,
      trading_algorithm current_data current_prices = Returned signals ->
      signals = []) ->
  forall result,
    (run_backtest history calculate_technical_indicators trading_algorithm
       symbols self).1 = Returned result ->
    res_trade_history result = []
    /\ res_total_trades result = 0%nat
    /\ res_final_value result = initial_capital self
    /\ res_total_return result = 0
    /\ res_max_drawdown result = 0
    /\ Forall (fun snap => snap_portfolio_value snap = initial_capital self
                           /\ snap_cash snap = initial_capital self)
         (res_portfolio_values result).
Proof.
  intros _ Hidle result. rewrite run_backtest_unfold. cbv zeta.
  destruct (common_dates _) as [dates|]; [|done].
  match goal with |- context [for_each ?body dates ?s] =>
    assert (initial_capital (for_each body dates s).2 = initial_capital self
            /\ untouched (for_each body dates s).2)
      as [Hcapital Huntouched]
  end.
  { apply (for_each_preserves
             (fun s => initial_capital s = initial_capital self
                       /\ untouched s));
      [|split; [done | apply initialize_tracking_untouched]].
    intros date s _. by apply backtest_step_untouched. }
  destruct (for_each _ dates _) as [[[]|e] self']; [|done].
  cbn [snd] in Hcapital, Huntouched.
  destruct Huntouched as [Hcash [Hlog [Hflat Hsnaps]]].
  rewrite Hcapital in Hsnaps.
  unfold performance_metrics.
  destruct (last (portfolio_values self')) as [final|] eqn:Hlast; [|done].
  destruct (head (snap_portfolio_value <$> portfolio_values self'))
    as [peak|] eqn:Hpeak; [|done].
  cbn [fst]. intros [= <-]. cbn.
  assert (Forall (fun value => value = initial_capital self)
            (snap_portfolio_value <$> portfolio_values self')) as Hvalues.
  { apply Forall_fmap. eapply Forall_impl; [done|]. by intros snap [? _]. }
  assert (snap_portfolio_value final = initial_capital self) as Hfinal.
  { apply last_Some_elem_of in Hlast.
    eapply Forall_forall in Hsnaps; [|done]. by destruct Hsnaps. }
  assert (peak = initial_capital self) as ->.
  { apply head_Some_elem_of in Hpeak.
    by eapply Forall_forall in Hvalues. }
  rewrite Hlog, Hfinal, Hcapital, drawdown_of_constant by done.
  repeat split; [|done].
  unfold Qcdiv. ring.
Qed.

End IdleRun.

Lemma idle_strategy_keeps_capital_witness :
  0 < initial_capital default_engine
  /\ (forall current_data current_prices signals,
        idle current_data current_prices = Returned signals -> signals = [])
  /\ ~ is_raised
        (run_backtest sample_history sample_indicators idle both_symbols
           default_engine).1
  /\ forall result,
      (run_backtest sample_history sample_indicators idle both_symbols
         default_engine).1 = Returned result ->
      res_final_value result = initial_capital default_engine
      /\ res_max_drawdown result = 0.
Proof.
  assert (forall current_data current_prices signals,
             idle current_data current_prices = Returned signals ->
             signals = []) as Hidle.
  { intros current_data current_prices signals Hsignals.
    injection Hsignals as <-. reflexivity. }
  assert (0 < initial_capital default_engine) as Hcapital
    by (vm_compute; reflexivity).
  split; [exact Hcapital|]. split; [exact Hidle|].
  split; [intros Hraised; vm_compute in Hraised; exact Hraised|].
  intros result Hresult.
  destruct (idle_strategy_keeps_capital sample_history sample_indicators idle
              both_symbols default_engine Hcapital Hidle result Hresult)
    as [_ [_ [Hfinal [_ [Hdrawdown _]]]]].
  split; [exact Hfinal | exact Hdrawdown].
Defined.
